(** * meu_coder: the in-memory CRUD API (items, users)

    A shallow embedding of [app/api/schemas], [app/api/endpoints] and
    [app/middleware/error_handler.py], followed by the properties of the
    specification.

    Modelling conventions.
    - The two module-level dictionaries [items_db] and [users_db] are Python
      dictionaries: they iterate in insertion order.  They are association
      lists with the dictionary operations of [PyDict].
    - A stored record ([item_data], [user_data]) is a dictionary with string
      keys whose iteration order is never observed: a [gmap string pyval].
    - [datetime.now()] is an input of every request.
    - A request body is the decoded payload, typed as its schema declares
      it; the declared field constraints ([min_length], [max_length], [gt],
      [ge], [le], [EmailStr]) are checked by the model.  A field of an update
      schema is unset, explicitly null, or a value.
    - A string is its sequence of characters, and [len] counts them.  A
      price is an IEEE 754 double ([spec_float]), compared as Python
      compares floats.
    - The endpoints are asynchronous functions without suspension points;
      each request is one step on the application state. *)

From Stdlib Require Import ZArith SpecFloat.
From stdpp Require Import base option list list_numbers sorting gmap strings
  pretty.

Open Scope string_scope.
Open Scope Z_scope.
Open Scope list_scope.

(** ** Python values *)

Definition datetime : Type := Z.

Inductive pyval :=
| PNone
| PBool (b : bool)
| PInt (z : Z)
| PFloat (f : spec_float)
| PStr (s : string)
| PDatetime (t : datetime).

Abbreviation dict := (gmap string pyval).

(** [bool(v)], the truth value an [if] tests. *)
Definition truthy (v : pyval) : bool :=
  match v with
  | PNone => false
  | PBool b => b
  | PInt z => negb (z =? 0)
  | PFloat f => negb (SFeqb f (S754_zero false))
  | PStr s => negb (String.eqb s EmptyString)
  | PDatetime _ => true
  end.

(** [v == s] for a [str] [s]: only an equal string compares equal. *)
Definition py_eq_str (v : pyval) (s : string) : bool :=
  match v with
  | PStr s' => String.eqb s' s
  | _ => false
  end.

Definition opt_str (o : option string) : pyval :=
  match o with Some s => PStr s | None => PNone end.

(** [len(s)] *)
Definition len (s : string) : Z := Z.of_nat (String.length s).

(** ** Exceptions *)

(** The [type] of one entry of [exc.errors()]. *)
Inductive error_type :=
| missing
| string_type
| string_too_short
| string_too_long
| float_type
| greater_than
| greater_than_equal
| less_than_equal
| bool_type
| int_type
| datetime_type
| value_error.

Record field_error := { err_loc : list string; err_type : error_type }.

Inductive exn :=
| RequestValidationError (errors : list field_error)
    (* fastapi.exceptions: raised by the framework before the endpoint runs *)
| HTTPException (status_code : Z) (detail : string)
| ValidationError (title : string) (errors : list field_error)
    (* pydantic: raised by a model constructor; a subclass of ValueError *)
| KeyError (key : string).

Inductive result (A : Type) :=
| Ok (a : A)
| Raise (e : exn).
Arguments Ok {A} a.
Arguments Raise {A} e.

#[global] Instance result_ret : MRet result := λ A a, Ok a.
#[global] Instance result_bind : MBind result := λ A B f m,
  match m with Ok a => f a | Raise e => Raise e end.

(** [d[k]] on a record. *)
Definition getitem (k : string) (d : dict) : result pyval :=
  match d !! k with
  | Some v => Ok v
  | None => Raise (KeyError k)
  end.

(** [d.update(u)]: the keys of [u] overwrite, the others stay. *)
Definition dict_update (d u : dict) : dict := u ∪ d.

Definition mkdict (l : list (string * pyval)) : dict := list_to_map l.

(** ** Insertion-ordered dictionaries with integer keys *)

Module PyDict.
Section ops.
Context {V : Type}.

Definition t : Type := list (Z * V).

(** [d[k]], and [k in d] as [is_Some (get k d)] *)
Fixpoint get (k : Z) (d : t) : option V :=
  match d with
  | [] => None
  | (k', v) :: d' => if k' =? k then Some v else get k d'
  end.

(** [d[k] = v]: an existing key keeps its position, a new key goes last. *)
Fixpoint setitem (k : Z) (v : V) (d : t) : t :=
  match d with
  | [] => [(k, v)]
  | (k', v') :: d' =>
      if k' =? k then (k, v) :: d' else (k', v') :: setitem k v d'
  end.

(** [del d[k]] *)
Fixpoint delitem (k : Z) (d : t) : t :=
  match d with
  | [] => []
  | (k', v) :: d' => if k' =? k then d' else (k', v) :: delitem k d'
  end.

(** [d.values()] and [d.keys()] as lists *)
Definition values (d : t) : list V := d.*2.
Definition keys (d : t) : list Z := d.*1.
End ops.
Arguments t : clear implicits.
End PyDict.

(** ** List slicing [l[start:stop]] *)

Definition slice_index (n i : Z) : Z :=
  if i <? 0 then Z.max (n + i) 0 else Z.min i n.

Definition py_slice {A} (l : list A) (start stop : Z) : list A :=
  let n := Z.of_nat (length l) in
  let lo := slice_index n start in
  let hi := slice_index n stop in
  take (Z.to_nat (hi - lo)) (drop (Z.to_nat lo) l).

(** ** Field constraints of [pydantic.Field] *)

Definition check_length (min_length max_length : option Z) (s : string)
  : option error_type :=
  if (match min_length with Some m => len s <? m | None => false end)
  then Some string_too_short
  else if (match max_length with Some m => m <? len s | None => false end)
  then Some string_too_long
  else None.

(** [gt=0] on a float: [x > 0] *)
Definition check_gt0 (x : spec_float) : option error_type :=
  if SFltb (S754_zero false) x then None else Some greater_than.

Definition at_loc (loc : list string) (e : option error_type) : list field_error :=
  match e with
  | Some ty => [{| err_loc := loc; err_type := ty |}]
  | None => []
  end.

(** A field of an update schema: [None] when the request does not carry the
    key, [Some None] for an explicit [null], [Some (Some v)] for a value. *)
Definition dump_field {A} (k : string) (inj : A → pyval) (f : option (option A))
  : list (string * pyval) :=
  match f with
  | None => []
  | Some None => [(k, PNone)]
  | Some (Some v) => [(k, inj v)]
  end.

(** A constraint of an [Optional] field applies to a value, not to [None]. *)
Definition check_set {A} (chk : A → option error_type) (f : option (option A))
  : option error_type :=
  match f with
  | Some (Some v) => chk v
  | _ => None
  end.

(** ** Request schemas (schemas/item.py, schemas/user.py) *)

Module ItemCreate.
(** [ItemBase], which [ItemCreate] inherits unchanged. *)
Record t := mk {
  name : string;
  description : option string;
  price : spec_float;
  is_available : bool
}.

Definition errors (item : t) : list field_error :=
  at_loc ["body"; "name"] (check_length (Some 1) (Some 100) (name item)) ++
  at_loc ["body"; "description"]
    (d ← description item; check_length None (Some 500) d) ++
  at_loc ["body"; "price"] (check_gt0 (price item)).
End ItemCreate.

Module ItemUpdate.
Record t := mk {
  name : option (option string);
  description : option (option string);
  price : option (option spec_float);
  is_available : option (option bool)
}.

Definition errors (u : t) : list field_error :=
  at_loc ["body"; "name"] (check_set (check_length (Some 1) (Some 100)) (name u)) ++
  at_loc ["body"; "description"]
    (check_set (check_length None (Some 500)) (description u)) ++
  at_loc ["body"; "price"] (check_set check_gt0 (price u)).

(** [item_update.model_dump(exclude_unset=True)] *)
Definition model_dump (u : t) : dict :=
  mkdict (dump_field "name" PStr (name u) ++
          dump_field "description" PStr (description u) ++
          dump_field "price" PFloat (price u) ++
          dump_field "is_available" PBool (is_available u)).
End ItemUpdate.

Module UserCreate.
(** [UserBase] and the [password] that [UserCreate] adds. *)
Record t := mk {
  email : string;
  username : string;
  full_name : option string;
  password : string
}.
End UserCreate.

Module UserUpdate.
Record t := mk {
  email : option (option string);
  full_name : option (option string);
  password : option (option string)
}.

Definition model_dump (u : t) : dict :=
  mkdict (dump_field "email" PStr (email u) ++
          dump_field "full_name" PStr (full_name u) ++
          dump_field "password" PStr (password u)).
End UserUpdate.

(** ** Model construction from the keys of a record (keyword arguments)

    A response model is built from a stored record.  Every declared field is
    validated, the violations of all fields are collected, and keys that the
    model does not declare are ignored (pydantic's default for extra
    fields).  The values the endpoints store are of the declared Python
    types or [None], so conversions between types are not modelled: a value
    of another type is a type error. *)

Definition validator : Type := pyval → error_type + pyval.

Definition v_int : validator := λ v,
  match v with PInt _ => inr v | _ => inl int_type end.

Definition v_bool : validator := λ v,
  match v with PBool _ => inr v | _ => inl bool_type end.

Definition v_datetime : validator := λ v,
  match v with PDatetime _ => inr v | _ => inl datetime_type end.

Definition v_str (min_length max_length : option Z) : validator := λ v,
  match v with
  | PStr s =>
      match check_length min_length max_length s with
      | Some e => inl e
      | None => inr v
      end
  | _ => inl string_type
  end.

Definition v_float_gt0 : validator := λ v,
  match v with
  | PFloat f => match check_gt0 f with Some e => inl e | None => inr v end
  | _ => inl float_type
  end.

(** [Optional[T]] *)
Definition v_optional (f : validator) : validator := λ v,
  match v with PNone => inr PNone | _ => f v end.

Inductive field_info :=
| Required (f : validator)             (* no default, or [Field(...)] *)
| Default (v : pyval) (f : validator). (* [= v], or [Field(v)] *)

Definition validate_field (fi : field_info) (o : option pyval)
  : error_type + pyval :=
  match o, fi with
  | Some v, (Required f | Default _ f) => f v
  | None, Required _ => inl missing
  | None, Default v _ => inr v
  end.

Definition field_errors (rs : list (string * (error_type + pyval)))
  : list field_error :=
  omap (λ kr, match kr.2 with
              | inl e => Some {| err_loc := [kr.1]; err_type := e |}
              | inr _ => None
              end) rs.

Definition field_values (rs : list (string * (error_type + pyval)))
  : list (string * pyval) :=
  omap (λ kr, match kr.2 with
              | inl _ => None
              | inr v => Some (kr.1, v)
              end) rs.

Definition model_validate (title : string) (fields : list (string * field_info))
    (data : dict) : result dict :=
  let rs := (λ kf, (kf.1, validate_field kf.2 (data !! kf.1))) <$> fields in
  match field_errors rs with
  | [] => Ok (mkdict (field_values rs))
  | errs => Raise (ValidationError title errs)
  end.

(** [ItemResponse(ItemBase)]: the fields of [ItemBase], then its own. *)
Definition ItemResponse_fields : list (string * field_info) :=
  [ ("name", Required (v_str (Some 1) (Some 100)));
    ("description", Default PNone (v_optional (v_str None (Some 500))));
    ("price", Required v_float_gt0);
    ("is_available", Default (PBool true) v_bool);
    ("id", Required v_int);
    ("created_at", Required v_datetime);
    ("updated_at", Default PNone (v_optional v_datetime)) ].

Definition ItemResponse : dict → result dict :=
  model_validate "ItemResponse" ItemResponse_fields.

Module ItemList.
Record t := mk {
  items : list dict;
  total : Z;
  page : Z;
  page_size : Z
}.
End ItemList.

Module UserList.
Record t := mk {
  users : list dict;
  total : Z;
  page : Z;
  page_size : Z
}.
End UserList.

(** ** Application state: the module-level globals *)

Record app_state := {
  items_db : PyDict.t dict;
  item_id_counter : Z;
  users_db : PyDict.t dict;
  user_id_counter : Z
}.

(** The state at import time, and after the [reset_data] fixture. *)
Definition initial_state : app_state :=
  {| items_db := []; item_id_counter := 1;
     users_db := []; user_id_counter := 1 |}.

Definition set_items (db : PyDict.t dict) (c : Z) (s : app_state) : app_state :=
  {| items_db := db; item_id_counter := c;
     users_db := users_db s; user_id_counter := user_id_counter s |}.

Definition set_users (db : PyDict.t dict) (c : Z) (s : app_state) : app_state :=
  {| items_db := items_db s; item_id_counter := item_id_counter s;
     users_db := db; user_id_counter := c |}.

(** ** Endpoints (endpoints/items.py) *)

Definition not_found (what : string) (id : Z) : exn :=
  HTTPException 404 (what +:+ " with id " +:+ pretty id +:+ " not found").

(** [[item for item in all_items if item["is_available"]]] *)
Fixpoint filter_key (k : string) (l : list dict) : result (list dict) :=
  match l with
  | [] => Ok []
  | item :: l' =>
      v ← getitem k item;
      rest ← filter_key k l';
      Ok (if truthy v then item :: rest else rest)
  end.

Definition create_item (now : datetime) (item : ItemCreate.t) (s : app_state)
  : result dict * app_state :=
  let item_data := mkdict
    [ ("id", PInt (item_id_counter s));
      ("name", PStr (ItemCreate.name item));
      ("description", opt_str (ItemCreate.description item));
      ("price", PFloat (ItemCreate.price item));
      ("is_available", PBool (ItemCreate.is_available item));
      ("created_at", PDatetime now);
      ("updated_at", PNone) ] in
  (ItemResponse item_data,
   set_items (PyDict.setitem (item_id_counter s) item_data (items_db s))
             (item_id_counter s + 1) s).

Definition get_items (page page_size : Z) (available_only : bool) (s : app_state)
  : result ItemList.t :=
  let all_items := PyDict.values (items_db s) in
  all_items ← (if available_only then filter_key "is_available" all_items
               else Ok all_items);
  let total := Z.of_nat (length all_items) in
  let start := (page - 1) * page_size in
  let end_ := start + page_size in
  let paginated_items := py_slice all_items start end_ in
  items ← mapM ItemResponse paginated_items;
  Ok (ItemList.mk items total page page_size).

(** The membership test [item_id not in items_db] and the lookup that
    follows it are one [PyDict.get]; so in the endpoints below. *)
Definition get_item (item_id : Z) (s : app_state) : result dict :=
  match PyDict.get item_id (items_db s) with
  | None => Raise (not_found "Item" item_id)
  | Some item_data => ItemResponse item_data
  end.

(** [item_data] is the stored dictionary itself: the update is visible in
    [items_db] whether or not the response model can be built from it. *)
Definition update_item (now : datetime) (item_id : Z) (item_update : ItemUpdate.t)
    (s : app_state) : result dict * app_state :=
  match PyDict.get item_id (items_db s) with
  | None => (Raise (not_found "Item" item_id), s)
  | Some item_data =>
      let update_data := ItemUpdate.model_dump item_update in
      let item_data := dict_update item_data update_data in
      let item_data := <["updated_at" := PDatetime now]> item_data in
      (ItemResponse item_data,
       set_items (PyDict.setitem item_id item_data (items_db s))
                 (item_id_counter s) s)
  end.

Definition delete_item (item_id : Z) (s : app_state) : result unit * app_state :=
  match PyDict.get item_id (items_db s) with
  | None => (Raise (not_found "Item" item_id), s)
  | Some _ =>
      (Ok (), set_items (PyDict.delitem item_id (items_db s)) (item_id_counter s) s)
  end.

(** ** Users (schemas/user.py, endpoints/users.py)

    [EmailStr] is checked by an external package, which returns the address
    in normal form or rejects it: the parameter [validate_email]. *)

Section App.
Variable validate_email : string → option string.

Definition check_email (e : string) : option error_type :=
  match validate_email e with Some _ => None | None => Some value_error end.

Definition UserCreate_errors (user : UserCreate.t) : list field_error :=
  at_loc ["body"; "email"] (check_email (UserCreate.email user)) ++
  at_loc ["body"; "username"]
    (check_length (Some 3) (Some 50) (UserCreate.username user)) ++
  at_loc ["body"; "password"]
    (check_length (Some 8) (Some 100) (UserCreate.password user)).

(** The validated model holds the address in normal form. *)
Definition UserCreate_normal (user : UserCreate.t) : UserCreate.t :=
  UserCreate.mk (default (UserCreate.email user) (validate_email (UserCreate.email user)))
                (UserCreate.username user) (UserCreate.full_name user)
                (UserCreate.password user).

Definition UserUpdate_errors (u : UserUpdate.t) : list field_error :=
  at_loc ["body"; "email"] (check_set check_email (UserUpdate.email u)) ++
  at_loc ["body"; "password"]
    (check_set (check_length (Some 8) (Some 100)) (UserUpdate.password u)).

Definition UserUpdate_normal (u : UserUpdate.t) : UserUpdate.t :=
  UserUpdate.mk
    (match UserUpdate.email u with
     | Some (Some e) => Some (Some (default e (validate_email e)))
     | o => o
     end)
    (UserUpdate.full_name u) (UserUpdate.password u).

Definition v_email : validator := λ v,
  match v with
  | PStr s =>
      match validate_email s with
      | Some s' => inr (PStr s')
      | None => inl value_error
      end
  | _ => inl string_type
  end.

(** [UserResponse(UserBase)]: no [password] field is declared. *)
Definition UserResponse_fields : list (string * field_info) :=
  [ ("email", Required v_email);
    ("username", Required (v_str (Some 3) (Some 50)));
    ("full_name", Default PNone (v_optional (v_str None None)));
    ("id", Required v_int);
    ("is_active", Default (PBool true) v_bool);
    ("created_at", Required v_datetime);
    ("updated_at", Default PNone (v_optional v_datetime)) ].

Definition UserResponse : dict → result dict :=
  model_validate "UserResponse" UserResponse_fields.

(** The duplicate scan of [create_user] over [users_db.values()]. *)
Fixpoint check_duplicates (user : UserCreate.t) (l : list dict) : result unit :=
  match l with
  | [] => Ok ()
  | existing_user :: l' =>
      u ← getitem "username" existing_user;
      if py_eq_str u (UserCreate.username user)
      then Raise (HTTPException 400 "Username already exists")
      else
        e ← getitem "email" existing_user;
        if py_eq_str e (UserCreate.email user)
        then Raise (HTTPException 400 "Email already exists")
        else check_duplicates user l'
  end.

Definition create_user (now : datetime) (user : UserCreate.t) (s : app_state)
  : result dict * app_state :=
  match check_duplicates user (PyDict.values (users_db s)) with
  | Raise e => (Raise e, s)
  | Ok _ =>
      let user_data := mkdict
        [ ("id", PInt (user_id_counter s));
          ("email", PStr (UserCreate.email user));
          ("username", PStr (UserCreate.username user));
          ("full_name", opt_str (UserCreate.full_name user));
          ("is_active", PBool true);
          ("created_at", PDatetime now);
          ("updated_at", PNone) ] in
      (UserResponse user_data,
       set_users (PyDict.setitem (user_id_counter s) user_data (users_db s))
                 (user_id_counter s + 1) s)
  end.

Definition get_users (page page_size : Z) (s : app_state) : result UserList.t :=
  let all_users := PyDict.values (users_db s) in
  let total := Z.of_nat (length all_users) in
  let start := (page - 1) * page_size in
  let end_ := start + page_size in
  let paginated_users := py_slice all_users start end_ in
  users ← mapM UserResponse paginated_users;
  Ok (UserList.mk users total page page_size).

Definition get_user (user_id : Z) (s : app_state) : result dict :=
  match PyDict.get user_id (users_db s) with
  | None => Raise (not_found "User" user_id)
  | Some user_data => UserResponse user_data
  end.

Definition update_user (now : datetime) (user_id : Z) (user_update : UserUpdate.t)
    (s : app_state) : result dict * app_state :=
  match PyDict.get user_id (users_db s) with
  | None => (Raise (not_found "User" user_id), s)
  | Some user_data =>
      let update_data := UserUpdate.model_dump user_update in
      let user_data := dict_update user_data update_data in
      let user_data := <["updated_at" := PDatetime now]> user_data in
      (UserResponse user_data,
       set_users (PyDict.setitem user_id user_data (users_db s))
                 (user_id_counter s) s)
  end.

Definition delete_user (user_id : Z) (s : app_state) : result unit * app_state :=
  match PyDict.get user_id (users_db s) with
  | None => (Raise (not_found "User" user_id), s)
  | Some _ =>
      (Ok (), set_users (PyDict.delitem user_id (users_db s)) (user_id_counter s) s)
  end.

(** ** Requests, responses and the exception handlers *)

Inductive request :=
| POST_items (item : ItemCreate.t)
| GET_items (page page_size : Z) (available_only : bool)
| GET_item (item_id : Z)
| PUT_item (item_id : Z) (item_update : ItemUpdate.t)
| DELETE_item (item_id : Z)
| POST_users (user : UserCreate.t)
| GET_users (page page_size : Z)
| GET_user (user_id : Z)
| PUT_user (user_id : Z) (user_update : UserUpdate.t)
| DELETE_user (user_id : Z).

(** [str(exc)] of a pydantic error is kept symbolic. *)
Inductive message :=
| Text (s : string)
| StrOf (e : exn).

Inductive content :=
| JRecord (r : dict)                         (* ItemResponse, UserResponse *)
| JItemList (l : ItemList.t)
| JUserList (l : UserList.t)
| JNoContent
| JDetail (detail : message)                 (* {"detail": ...} *)
| JValidation (errors : list (string * error_type))
    (* {"detail": "Validation error", "errors": [{field, message, type}]};
       the message is a function of the type *)
| JInternal (msg : message).
    (* {"detail": "Internal server error", "message": ...} *)

Record response := { status : Z; body : content }.

(** [Query(1, ge=1)] and [Query(10, ge=1, le=100)] *)
Definition query_errors (page page_size : Z) : list field_error :=
  at_loc ["query"; "page"]
    (if page <? 1 then Some greater_than_equal else None) ++
  at_loc ["query"; "page_size"]
    (if page_size <? 1 then Some greater_than_equal
     else if 100 <? page_size then Some less_than_equal
     else None).

Definition checked (errs : list field_error) (req : request) : result request :=
  match errs with
  | [] => Ok req
  | _ => Raise (RequestValidationError errs)
  end.

(** The validation layer: it runs before the endpoint is called. *)
Definition validate_request (req : request) : result request :=
  match req with
  | POST_items item => checked (ItemCreate.errors item) req
  | GET_items page page_size _ => checked (query_errors page page_size) req
  | PUT_item item_id u => checked (ItemUpdate.errors u) req
  | POST_users user =>
      checked (UserCreate_errors user) (POST_users (UserCreate_normal user))
  | GET_users page page_size => checked (query_errors page page_size) req
  | PUT_user user_id u =>
      checked (UserUpdate_errors u) (PUT_user user_id (UserUpdate_normal u))
  | GET_item _ | DELETE_item _ | GET_user _ | DELETE_user _ => Ok req
  end.

Definition with_status {A} (code : Z) (render : A → content) (r : result A)
  : result response :=
  a ← r; Ok {| status := code; body := render a |}.

(** The routes with the status codes of their decorators. *)
Definition endpoint (now : datetime) (req : request) (s : app_state)
  : result response * app_state :=
  match req with
  | POST_items item =>
      let '(r, s') := create_item now item s in (with_status 201 JRecord r, s')
  | GET_items page page_size available_only =>
      (with_status 200 JItemList (get_items page page_size available_only s), s)
  | GET_item item_id => (with_status 200 JRecord (get_item item_id s), s)
  | PUT_item item_id u =>
      let '(r, s') := update_item now item_id u s in (with_status 200 JRecord r, s')
  | DELETE_item item_id =>
      let '(r, s') := delete_item item_id s in
      (with_status 204 (λ _, JNoContent) r, s')
  | POST_users user =>
      let '(r, s') := create_user now user s in (with_status 201 JRecord r, s')
  | GET_users page page_size =>
      (with_status 200 JUserList (get_users page page_size s), s)
  | GET_user user_id => (with_status 200 JRecord (get_user user_id s), s)
  | PUT_user user_id u =>
      let '(r, s') := update_user now user_id u s in (with_status 200 JRecord r, s')
  | DELETE_user user_id =>
      let '(r, s') := delete_user user_id s in
      (with_status 204 (λ _, JNoContent) r, s')
  end.

(** [create_application] does not pass [debug]: [app.debug] is [False]. *)
Definition app_debug : bool := false.

(** middleware/error_handler.py.  The handler of an exception is the one
    registered for the first class of its method resolution order:
    [RequestValidationError] has its own, pydantic's [ValidationError] is a
    [ValueError], [HTTPException] keeps the framework's handler, anything
    else reaches the handler of [Exception]. *)
Definition validation_exception_handler (errors : list field_error) : response :=
  {| status := 422;
     body := JValidation
       ((λ e, (String.concat " -> " (err_loc e), err_type e)) <$> errors) |}.

Definition value_error_handler (exc : exn) : response :=
  {| status := 400; body := JDetail (StrOf exc) |}.

Definition general_exception_handler (exc : exn) : response :=
  {| status := 500;
     body := JInternal (if app_debug then StrOf exc
                        else Text "An unexpected error occurred") |}.

Definition handle_exception (exc : exn) : response :=
  match exc with
  | RequestValidationError errors => validation_exception_handler errors
  | ValidationError _ _ => value_error_handler exc
  | HTTPException status_code detail =>
      {| status := status_code; body := JDetail (Text detail) |}
  | KeyError _ => general_exception_handler exc
  end.

(** One request against the application. *)
Definition app (now : datetime) (req : request) (s : app_state)
  : response * app_state :=
  match validate_request req with
  | Raise exc => (handle_exception exc, s)
  | Ok req =>
      let '(r, s') := endpoint now req s in
      (match r with Ok resp => resp | Raise exc => handle_exception exc end, s')
  end.

(** A sequence of requests, each with the clock reading it observes. *)
Fixpoint run (s : app_state) (reqs : list (datetime * request))
  : list response * app_state :=
  match reqs with
  | [] => ([], s)
  | (now, req) :: reqs' =>
      let '(r, s') := app now req s in
      let '(rs, s'') := run s' reqs' in
      (r :: rs, s'')
  end.

End App.
(** ** Vocabulary of the properties *)

(** The value of a field after [item_data.update(update_data)]: the old
    value when the payload does not carry the field, what it carries
    otherwise. *)
Definition updated_field {A} (inj : A → pyval) (f : option (option A))
    (old : option pyval) : option pyval :=
  match f with
  | None => old
  | Some None => Some PNone
  | Some (Some v) => Some (inj v)
  end.

(** An item record with the seven keys of the data model. *)
Definition item_record (id : Z) (name : string) (description : option string)
    (price : spec_float) (is_available : bool) (created_at : datetime)
    (updated_at : option datetime) : dict :=
  mkdict
    [ ("id", PInt id);
      ("name", PStr name);
      ("description", opt_str description);
      ("price", PFloat price);
      ("is_available", PBool is_available);
      ("created_at", PDatetime created_at);
      ("updated_at", from_option PDatetime PNone updated_at) ].

(** The record of a payload: its fields, the identifier, the clock reading
    of the insertion, and no update time. *)
Definition expected_item (id : Z) (now : datetime) (item : ItemCreate.t) : dict :=
  item_record id (ItemCreate.name item) (ItemCreate.description item)
              (ItemCreate.price item) (ItemCreate.is_available item) now None.

(** A well-formed item record: its response model is the record itself. *)
Definition well_formed_item (d : dict) : Prop := ItemResponse d = Ok d.

(** The records a response carries. *)
Definition response_records (resp : response) : list dict :=
  match body resp with
  | JRecord r => [r]
  | JItemList l => ItemList.items l
  | JUserList l => UserList.users l
  | _ => []
  end.

(** One request leaves a store as it is, inserts a record under the counter
    and advances the counter, replaces the record of an existing key, or
    deletes an existing key.  [P] holds of inserted records and [R] relates
    a record to its replacement. *)
Inductive store_step (P : dict → Prop) (R : dict → dict → Prop)
    (db : PyDict.t dict) (c : Z) : PyDict.t dict → Z → Prop :=
| step_none : store_step P R db c db c
| step_insert d : P d → store_step P R db c (PyDict.setitem c d db) (c + 1)
| step_update k d d' :
    PyDict.get k db = Some d → R d d' →
    store_step P R db c (PyDict.setitem k d' db) c
| step_delete k d :
    PyDict.get k db = Some d →
    store_step P R db c (PyDict.delitem k db) c.

(** Keys are distinct and were all handed out by the counter. *)
Definition db_wf (db : PyDict.t dict) (c : Z) : Prop :=
  1 ≤ c ∧ NoDup (PyDict.keys db) ∧ Forall (λ k, 1 ≤ k < c) (PyDict.keys db).

(** An identifier that was handed out and has no record stays that way. *)
Definition gone (id : Z) (db : PyDict.t dict) (c : Z) : Prop :=
  PyDict.get id db = None ∧ id < c.

(** A user record has its [username] and [email] keys; an update keeps
    them. *)
Definition has_user_keys (d : dict) : Prop :=
  is_Some (d !! "username") ∧ is_Some (d !! "email").

Definition keeps_user_keys (d d' : dict) : Prop :=
  d' !! "username" = d !! "username" ∧
  (is_Some (d !! "email") → is_Some (d' !! "email")).

Definition state_wf (s : app_state) : Prop :=
  db_wf (items_db s) (item_id_counter s) ∧
  db_wf (users_db s) (user_id_counter s).

(** The identifier in the record with which a create answers. *)
Definition created_item_id (req : request) (resp : response) : option Z :=
  match req, body resp with
  | POST_items _, JRecord r =>
      match r !! "id" with Some (PInt id) => Some id | _ => None end
  | _, _ => None
  end.

Definition created_item_ids (reqs : list (datetime * request))
    (rs : list response) : list Z :=
  omap (λ p, created_item_id p.1.2 p.2) (zip reqs rs).

(** The slice [[offset, offset + limit)] with [offset = (page - 1) * limit]. *)
Definition page_of {A} (limit : Z) (l : list A) (page : Z) : list A :=
  take (Z.to_nat limit) (drop (Z.to_nat ((page - 1) * limit)) l).

(** The records of a sequence of creates, numbered from [id]. *)
Fixpoint expected_items (id : Z) (inputs : list (datetime * ItemCreate.t))
  : list dict :=
  match inputs with
  | [] => []
  | (now, item) :: inputs' =>
      expected_item id now item :: expected_items (id + 1) inputs'
  end.

Definition creates (inputs : list (datetime * ItemCreate.t))
  : list (datetime * request) :=
  (λ p, (p.1, POST_items p.2)) <$> inputs.

(** The availability flag of a record is [True]. *)
Definition flag_true (d : dict) : bool :=
  match d !! "is_available" with
  | Some (PBool true) => true
  | _ => false
  end.

(** What an endpoint raises: never the error of the validation layer. *)
Definition endpoint_exn (exc : exn) : Prop :=
  match exc with
  | RequestValidationError _ => False
  | HTTPException code _ => code = 404 ∨ code = 400
  | ValidationError _ _ | KeyError _ => True
  end.

(** The price of a record is a number greater than zero. *)
Definition price_positive (d : dict) : bool :=
  match d !! "price" with
  | Some (PFloat f) => SFltb (S754_zero false) f
  | _ => false
  end.

(** An update payload that sends no explicit [null] for a field that the
    response model requires; a request that is not such an update. *)
Definition no_null_required (u : ItemUpdate.t) : Prop :=
  ItemUpdate.name u ≠ Some None ∧
  ItemUpdate.price u ≠ Some None ∧
  ItemUpdate.is_available u ≠ Some None.

Definition null_free (req : request) : Prop :=
  match req with
  | PUT_item _ u => no_null_required u
  | _ => True
  end.

(** The record [create_user] stores: the payload without its password, the
    identifier, the active flag, the clock reading, and no update time. *)
Definition expected_user (id : Z) (now : datetime) (user : UserCreate.t) : dict :=
  mkdict
    [ ("id", PInt id);
      ("email", PStr (UserCreate.email user));
      ("username", PStr (UserCreate.username user));
      ("full_name", opt_str (UserCreate.full_name user));
      ("is_active", PBool true);
      ("created_at", PDatetime now);
      ("updated_at", PNone) ].

(** The answer to a request for an identifier that has no record. *)
Definition not_found_response (what : string) (id : Z) : response :=
  {| status := 404;
     body := JDetail (Text (what +:+ " with id " +:+ pretty id +:+ " not found")) |}.

(** The requests of the item routes, and those that only read. *)
Definition item_request (req : request) : bool :=
  match req with
  | POST_items _ | GET_items _ _ _ | GET_item _ | PUT_item _ _ | DELETE_item _ =>
      true
  | _ => false
  end.

Definition read_only (req : request) : bool :=
  match req with
  | GET_items _ _ _ | GET_item _ | GET_users _ _ | GET_user _ => true
  | _ => false
  end.

(** A stored user record has the username, or the email, of a payload. *)
Definition shares_username (user : UserCreate.t) (d : dict) : bool :=
  match d !! "username" with
  | Some v => py_eq_str v (UserCreate.username user)
  | None => false
  end.

Definition shares_email (user : UserCreate.t) (d : dict) : bool :=
  match d !! "email" with
  | Some v => py_eq_str v (UserCreate.email user)
  | None => false
  end.

Definition conflicts (user : UserCreate.t) (d : dict) : bool :=
  shares_username user d || shares_email user d.

(** What every entry of the item store, and of the user store, satisfies:
    the record carries its own key as [id], and the fields that no request
    can write after the insertion are what the insertion made them. *)
Definition item_entry_ok (kd : Z * dict) : Prop :=
  kd.2 !! "id" = Some (PInt kd.1) ∧
  (∃ t, kd.2 !! "created_at" = Some (PDatetime t)) ∧
  (kd.2 !! "is_available" = Some PNone ∨
   ∃ b, kd.2 !! "is_available" = Some (PBool b)).

Definition user_entry_ok (kd : Z * dict) : Prop :=
  kd.2 !! "id" = Some (PInt kd.1) ∧
  kd.2 !! "is_active" = Some (PBool true) ∧
  (∃ u, kd.2 !! "username" = Some (PStr u) ∧ 3 ≤ len u ≤ 50) ∧
  (∃ t, kd.2 !! "created_at" = Some (PDatetime t)) ∧
  (kd.2 !! "email" = Some PNone ∨ ∃ e, kd.2 !! "email" = Some (PStr e)).

(** The usernames of the stored users, in insertion order. *)
Definition usernames (s : app_state) : list (option pyval) :=
  (λ d : dict, d !! "username") <$> PyDict.values (users_db s).

(** What holds of every state that is reached from the initial one. *)
Definition state_inv (s : app_state) : Prop :=
  state_wf s ∧
  Forall item_entry_ok (items_db s) ∧
  Forall user_entry_ok (users_db s) ∧
  StronglySorted Z.lt (PyDict.keys (items_db s)) ∧
  StronglySorted Z.lt (PyDict.keys (users_db s)) ∧
  NoDup (usernames s).

(** ** Sample data *)

(** Prices: [S754_finite false 5 1] is 10.0, [S754_finite false 5 2] is
    20.0, [S754_finite false 3 0] is 3.0. *)
Definition sample_item : ItemCreate.t :=
  ItemCreate.mk "Test Item" None (S754_finite false 5 1) true.

Definition sample_user : UserCreate.t :=
  UserCreate.mk "test@example.com" "testuser" None "securepassword123".

Definition sample_unavailable : ItemCreate.t :=
  ItemCreate.mk "Unavailable Item" (Some "out of stock")
                (S754_finite false 5 2) false.

(** An update that sends [{"name": null}], and one that sends
    [{"price": null}]. *)
Definition null_name : ItemUpdate.t := ItemUpdate.mk (Some None) None None None.
Definition null_price : ItemUpdate.t := ItemUpdate.mk None None (Some None) None.

Definition null_email : UserUpdate.t := UserUpdate.mk (Some None) None None.

(** * Properties *)

(** ** Insertion-ordered dictionaries *)

Section PyDict_facts.
Context {V : Type}.
Implicit Types (d : PyDict.t V) (k : Z) (v : V).

Lemma get_setitem_eq d k v : PyDict.get k (PyDict.setitem k v d) = Some v.
Proof.
  induction d as [|[k' v'] d IH]; simpl.
  - by rewrite Z.eqb_refl.
  - destruct (Z.eqb_spec k' k) as [->|Hne]; simpl.
    + by rewrite Z.eqb_refl.
    + by destruct (Z.eqb_spec k' k).
Qed.

Lemma get_setitem_ne d k k' v :
  k ≠ k' → PyDict.get k' (PyDict.setitem k v d) = PyDict.get k' d.
Proof.
  intros Hne. induction d as [|[k0 v0] d IH]; simpl.
  - by destruct (Z.eqb_spec k k').
  - destruct (Z.eqb_spec k0 k) as [->|Hne0]; simpl.
    + by destruct (Z.eqb_spec k k').
    + by rewrite IH.
Qed.

Lemma get_None d k : PyDict.get k d = None ↔ k ∉ PyDict.keys d.
Proof.
  unfold PyDict.keys. induction d as [|[k' v'] d IH]; simpl.
  - split; [intros _; apply not_elem_of_nil | done].
  - rewrite not_elem_of_cons. destruct (Z.eqb_spec k' k) as [->|Hne].
    + split; [done | by intros [? _]].
    + rewrite IH. split; [by intros ?; split; [congruence|] | by intros [_ ?]].
Qed.

Lemma get_Some_key d k v : PyDict.get k d = Some v → k ∈ PyDict.keys d.
Proof.
  intros H. destruct (decide (k ∈ PyDict.keys d)) as [|Hn]; [done|].
  apply get_None in Hn. congruence.
Qed.

Lemma get_Some_value d k v : PyDict.get k d = Some v → v ∈ PyDict.values d.
Proof.
  unfold PyDict.values. induction d as [|[k' v'] d IH]; simpl; [done|].
  destruct (Z.eqb_spec k' k); intros H.
  - injection H as ->. apply elem_of_cons; by left.
  - apply elem_of_cons; right; by apply IH.
Qed.

Lemma setitem_fresh d k v :
  k ∉ PyDict.keys d → PyDict.setitem k v d = d ++ [(k, v)].
Proof.
  unfold PyDict.keys. induction d as [|[k' v'] d IH]; simpl; [done|].
  rewrite not_elem_of_cons. intros [Hne Hnin].
  destruct (Z.eqb_spec k' k); [congruence|]. by rewrite IH.
Qed.

Lemma keys_setitem_present d k v :
  k ∈ PyDict.keys d → PyDict.keys (PyDict.setitem k v d) = PyDict.keys d.
Proof.
  unfold PyDict.keys. induction d as [|[k' v'] d IH]; simpl.
  - intros H. by apply elem_of_nil in H.
  - destruct (Z.eqb_spec k' k) as [->|Hne]; simpl; [done|].
    rewrite elem_of_cons. intros [?|Hin]; [congruence|]. f_equal. by apply IH.
Qed.

Lemma get_delitem_ne d k k' :
  k ≠ k' → PyDict.get k' (PyDict.delitem k d) = PyDict.get k' d.
Proof.
  intros Hne. induction d as [|[k0 v0] d IH]; simpl; [done|].
  destruct (Z.eqb_spec k0 k) as [->|Hne0]; simpl.
  - by destruct (Z.eqb_spec k k').
  - by rewrite IH.
Qed.

Lemma get_delitem_None d k k' :
  PyDict.get k' d = None → PyDict.get k' (PyDict.delitem k d) = None.
Proof.
  induction d as [|[k0 v0] d IH]; simpl; [done|].
  destruct (Z.eqb_spec k0 k') as [->|Hne0]; [done|].
  destruct (Z.eqb_spec k0 k) as [->|Hne1]; simpl; [done|].
  by destruct (Z.eqb_spec k0 k').
Qed.

Lemma keys_delitem_sublist d k :
  PyDict.keys (PyDict.delitem k d) `sublist_of` PyDict.keys d.
Proof.
  unfold PyDict.keys. induction d as [|[k0 v0] d IH]; simpl; [done|].
  destruct (Z.eqb_spec k0 k); simpl.
  - by apply sublist_cons.
  - by apply sublist_skip.
Qed.

Lemma get_delitem_eq d k :
  NoDup (PyDict.keys d) → PyDict.get k (PyDict.delitem k d) = None.
Proof.
  unfold PyDict.keys. induction d as [|[k0 v0] d IH]; simpl; [done|].
  intros [Hnin Hnd]%NoDup_cons.
  destruct (Z.eqb_spec k0 k) as [->|Hne]; simpl.
  - by apply get_None.
  - destruct (Z.eqb_spec k0 k); [done|]. by apply IH.
Qed.
End PyDict_facts.

(** ** The validation layer *)

Lemma at_loc_nil loc e : at_loc loc e = [] ↔ e = None.
Proof. by destruct e. Qed.

Lemma ItemCreate_errors_nil item :
  ItemCreate.errors item = [] ↔
  check_length (Some 1) (Some 100) (ItemCreate.name item) = None ∧
  (d ← ItemCreate.description item; check_length None (Some 500) d) = None ∧
  check_gt0 (ItemCreate.price item) = None.
Proof.
  unfold ItemCreate.errors.
  rewrite !app_nil, !at_loc_nil. naive_solver.
Qed.

Lemma check_gt0_None x : check_gt0 x = None ↔ SFltb (S754_zero false) x = true.
Proof. unfold check_gt0. by destruct (SFltb _ x). Qed.

(** A price that is at most zero is not greater than zero (and neither is
    a NaN, which is not at most zero either). *)
Lemma SFleb_zero_not_gt x :
  SFleb x (S754_zero false) = true → SFltb (S754_zero false) x = false.
Proof. by destruct x as [| [] | | [] ? ?]. Qed.

(** ** Creating an item *)

Lemma expected_item_lookup id now item :
  let d := expected_item id now item in
  d !! "id" = Some (PInt id) ∧
  d !! "name" = Some (PStr (ItemCreate.name item)) ∧
  d !! "description" = Some (opt_str (ItemCreate.description item)) ∧
  d !! "price" = Some (PFloat (ItemCreate.price item)) ∧
  d !! "is_available" = Some (PBool (ItemCreate.is_available item)) ∧
  d !! "created_at" = Some (PDatetime now) ∧
  d !! "updated_at" = Some PNone.
Proof. repeat split; reflexivity. Qed.

(** The response model of the record of a valid payload is that record. *)
Lemma ItemResponse_expected_item id now item :
  ItemCreate.errors item = [] →
  ItemResponse (expected_item id now item) = Ok (expected_item id now item).
Proof.
  intros (Hn & Hd & Hp)%ItemCreate_errors_nil.
  destruct (expected_item_lookup id now item)
    as (H1 & H2 & H3 & H4 & H5 & H6 & H7).
  unfold ItemResponse, model_validate.
  cbn [fmap list_fmap ItemResponse_fields fst snd].
  rewrite H1, H2, H3, H4, H5, H6, H7.
  cbn [validate_field v_str v_optional v_float_gt0 v_bool v_int v_datetime].
  rewrite Hn, Hp.
  assert (v_optional (v_str None (Some 500)) (opt_str (ItemCreate.description item))
          = inr (opt_str (ItemCreate.description item))) as ->.
  { destruct (ItemCreate.description item) as [x|]; simpl in *;
      [by rewrite Hd | done]. }
  reflexivity.
Qed.

(** What [create_item] stores and answers for a payload that passed
    validation. *)
Lemma create_item_valid now item s :
  ItemCreate.errors item = [] →
  create_item now item s =
    (Ok (expected_item (item_id_counter s) now item),
     set_items (PyDict.setitem (item_id_counter s)
                  (expected_item (item_id_counter s) now item) (items_db s))
               (item_id_counter s + 1) s).
Proof.
  intros Hv. unfold create_item.
  change (mkdict _) with (expected_item (item_id_counter s) now item).
  by rewrite ItemResponse_expected_item.
Qed.

(** C8. For every item payload that passes validation (its price is then
    greater than zero), creating the item and getting it by the returned
    identifier answers a record whose name, description, price and
    availability are those of the payload and whose [updated_at] is null. *)
Theorem create_then_get validate_email now now' item s :
  ItemCreate.errors item = [] →
  SFltb (S754_zero false) (ItemCreate.price item) = true ∧
  ∃ id created got,
    app validate_email now (POST_items item) s
      = ({| status := 201; body := JRecord created |},
         (app validate_email now (POST_items item) s).2) ∧
    created !! "id" = Some (PInt id) ∧
    (app validate_email now' (GET_item id)
         (app validate_email now (POST_items item) s).2).1
      = {| status := 200; body := JRecord got |} ∧
    got !! "id" = Some (PInt id) ∧
    got !! "name" = Some (PStr (ItemCreate.name item)) ∧
    got !! "description" = Some (opt_str (ItemCreate.description item)) ∧
    got !! "price" = Some (PFloat (ItemCreate.price item)) ∧
    got !! "is_available" = Some (PBool (ItemCreate.is_available item)) ∧
    got !! "updated_at" = Some PNone.
Proof.
  intros Hv. split.
  { apply check_gt0_None. by apply ItemCreate_errors_nil in Hv as (_ & _ & ?). }
  pose proof (create_item_valid now item s Hv) as Hc.
  pose proof (ItemResponse_expected_item (item_id_counter s) now item Hv) as HR.
  destruct (expected_item_lookup (item_id_counter s) now item)
    as (? & ? & ? & ? & ? & ? & ?).
  exists (item_id_counter s), (expected_item (item_id_counter s) now item),
         (expected_item (item_id_counter s) now item).
  unfold app, validate_request, checked, endpoint. rewrite Hv, Hc.
  unfold get_item. cbn [fst snd items_db set_items with_status mbind result_bind].
  rewrite get_setitem_eq, HR. by repeat split.
Qed.

Lemma create_then_get_witness :
  ItemCreate.errors sample_item = [] ∧
  ∃ id created got,
    app Some 10 (POST_items sample_item) initial_state
      = ({| status := 201; body := JRecord created |},
         (app Some 10 (POST_items sample_item) initial_state).2) ∧
    created !! "id" = Some (PInt id) ∧
    (app Some 11 (GET_item id)
         (app Some 10 (POST_items sample_item) initial_state).2).1
      = {| status := 200; body := JRecord got |} ∧
    got !! "id" = Some (PInt id) ∧
    got !! "name" = Some (PStr "Test Item") ∧
    got !! "description" = Some PNone ∧
    got !! "price" = Some (PFloat (S754_finite false 5 1)) ∧
    got !! "is_available" = Some (PBool true) ∧
    got !! "updated_at" = Some PNone.
Proof.
  split; [reflexivity|].
  apply (create_then_get Some 10 11 sample_item initial_state). reflexivity.
Defined.

(** ** Partial updates *)

Lemma dict_update_lookup (d u : dict) k :
  dict_update d u !! k = match u !! k with Some v => Some v | None => d !! k end.
Proof.
  unfold dict_update. rewrite lookup_union.
  by destruct (u !! k), (d !! k).
Qed.

Lemma dump_field_lookup {A} k (inj : A → pyval) f k' :
  mkdict (dump_field k inj f) !! k' =
  if decide (k = k') then from_option inj PNone <$> f else None.
Proof.
  unfold mkdict.
  destruct f as [[v|]|]; simpl; rewrite ?lookup_insert, ?lookup_empty;
    by case_decide.
Qed.

Lemma mkdict_app (l1 l2 : list (string * pyval)) k :
  mkdict (l1 ++ l2) !! k =
  match mkdict l1 !! k with Some v => Some v | None => mkdict l2 !! k end.
Proof.
  unfold mkdict. rewrite list_to_map_app, lookup_union.
  by destruct (list_to_map l1 !! k) eqn:E1,
              (@lookup _ _ dict _ k (list_to_map l2)) eqn:E2.
Qed.

Lemma ItemUpdate_dump_lookup u (d : dict) k :
  dict_update d (ItemUpdate.model_dump u) !! k =
  if decide (k = "name") then updated_field PStr (ItemUpdate.name u) (d !! k)
  else if decide (k = "description")
       then updated_field PStr (ItemUpdate.description u) (d !! k)
  else if decide (k = "price")
       then updated_field PFloat (ItemUpdate.price u) (d !! k)
  else if decide (k = "is_available")
       then updated_field PBool (ItemUpdate.is_available u) (d !! k)
  else d !! k.
Proof.
  rewrite dict_update_lookup. unfold ItemUpdate.model_dump.
  rewrite !mkdict_app, !dump_field_lookup.
  destruct u as [n de p a]; simpl.
  repeat case_decide; subst; try done;
    by destruct n as [[]|], de as [[]|], p as [[]|], a as [[]|].
Qed.

Lemma UserUpdate_dump_lookup u (d : dict) k :
  dict_update d (UserUpdate.model_dump u) !! k =
  if decide (k = "email") then updated_field PStr (UserUpdate.email u) (d !! k)
  else if decide (k = "full_name")
       then updated_field PStr (UserUpdate.full_name u) (d !! k)
  else if decide (k = "password")
       then updated_field PStr (UserUpdate.password u) (d !! k)
  else d !! k.
Proof.
  rewrite dict_update_lookup. unfold UserUpdate.model_dump.
  rewrite !mkdict_app, !dump_field_lookup.
  destruct u as [e f p]; simpl.
  repeat case_decide; subst; try done;
    by destruct e as [[]|], f as [[]|], p as [[]|].
Qed.

(** The state after an item update that found its record. *)
Lemma update_item_found now item_id u s d :
  PyDict.get item_id (items_db s) = Some d →
  (update_item now item_id u s).2 =
    set_items
      (PyDict.setitem item_id
         (<["updated_at" := PDatetime now]>
            (dict_update d (ItemUpdate.model_dump u))) (items_db s))
      (item_id_counter s) s.
Proof. intros H. unfold update_item. by rewrite H. Qed.

(** C5. Updating an existing item with a payload that passes validation
    changes the fields the payload carries and no others: a field that is
    absent from the payload keeps its value, [updated_at] becomes the time of
    the update (present and not null), and every other record, the set of
    identifiers and the counter are untouched. *)
Theorem partial_update_item validate_email now item_id u s d :
  PyDict.get item_id (items_db s) = Some d →
  ItemUpdate.errors u = [] →
  ∃ d', let s' := (app validate_email now (PUT_item item_id u) s).2 in
    PyDict.get item_id (items_db s') = Some d' ∧
    d' !! "name" = updated_field PStr (ItemUpdate.name u) (d !! "name") ∧
    d' !! "description" =
      updated_field PStr (ItemUpdate.description u) (d !! "description") ∧
    d' !! "price" = updated_field PFloat (ItemUpdate.price u) (d !! "price") ∧
    d' !! "is_available" =
      updated_field PBool (ItemUpdate.is_available u) (d !! "is_available") ∧
    d' !! "updated_at" = Some (PDatetime now) ∧
    (∀ k, k ∉ ["name"; "description"; "price"; "is_available"; "updated_at"] →
          d' !! k = d !! k) ∧
    (∀ id', id' ≠ item_id →
          PyDict.get id' (items_db s') = PyDict.get id' (items_db s)) ∧
    PyDict.keys (items_db s') = PyDict.keys (items_db s) ∧
    item_id_counter s' = item_id_counter s.
Proof.
  intros Hd Hv.
  eexists. cbn zeta.
  unfold app, validate_request, checked, endpoint. rewrite Hv.
  pose proof (update_item_found now item_id u s d Hd) as Hs.
  destruct (update_item now item_id u s) as [r s']. simpl in Hs.
  cbn [snd]. subst s'. cbn [items_db item_id_counter set_items].
  rewrite get_setitem_eq. split; [done|].
  rewrite !lookup_insert_ne, lookup_insert_eq by done.
  rewrite !ItemUpdate_dump_lookup. repeat (split; [done|]).
  split; [|split; [|split]]; [| | |done].
  - intros k Hk. rewrite !not_elem_of_cons in Hk.
    destruct Hk as (? & ? & ? & ? & ? & _).
    rewrite lookup_insert_ne, ItemUpdate_dump_lookup by done.
    by repeat case_decide.
  - intros id' Hne. by apply get_setitem_ne.
  - apply keys_setitem_present. by eapply get_Some_key.
Qed.

Lemma partial_update_item_witness :
  let s := (app Some 10 (POST_items sample_item) initial_state).2 in
  let u := ItemUpdate.mk None None (Some (Some (S754_finite false 3 0))) None in
  (∃ d, PyDict.get 1 (items_db s) = Some d) ∧ ItemUpdate.errors u = [] ∧
  ∃ d', PyDict.get 1 (items_db (app Some 11 (PUT_item 1 u) s).2) = Some d' ∧
        d' !! "name" = Some (PStr "Test Item") ∧
        d' !! "price" = Some (PFloat (S754_finite false 3 0)) ∧
        d' !! "updated_at" = Some (PDatetime 11).
Proof.
  intros s u.
  assert (∃ d, PyDict.get 1 (items_db s) = Some d ∧
               d !! "name" = Some (PStr "Test Item")) as (d & Hd & Hn).
  { eexists; split; reflexivity. }
  split; [by exists d|]. split; [reflexivity|].
  destruct (partial_update_item Some 11 1 u s d Hd eq_refl)
    as (d' & Hg & Hname & _ & Hprice & _ & Hup & _).
  exists d'. simpl in Hname, Hprice. by rewrite Hn in Hname.
Defined.

Lemma update_user_found validate_email now user_id u s d :
  PyDict.get user_id (users_db s) = Some d →
  (update_user validate_email now user_id u s).2 =
    set_users
      (PyDict.setitem user_id
         (<["updated_at" := PDatetime now]>
            (dict_update d (UserUpdate.model_dump u))) (users_db s))
      (user_id_counter s) s.
Proof. intros H. unfold update_user. by rewrite H. Qed.

(** The state after any [PUT] on an existing user: either the payload was
    rejected and nothing changed, or the record was updated in place. *)
Lemma app_PUT_user_state validate_email now user_id u s d :
  PyDict.get user_id (users_db s) = Some d →
  let s' := (app validate_email now (PUT_user user_id u) s).2 in
  s' = s ∨
  ∃ u', s' = set_users
         (PyDict.setitem user_id
            (<["updated_at" := PDatetime now]>
               (dict_update d (UserUpdate.model_dump u'))) (users_db s))
         (user_id_counter s) s.
Proof.
  intros Hd. cbn zeta. unfold app, validate_request, checked, endpoint.
  destruct (UserUpdate_errors validate_email u); [|by left].
  right. exists (UserUpdate_normal validate_email u).
  pose proof (update_user_found validate_email now user_id
                (UserUpdate_normal validate_email u)
                s d Hd) as Hs.
  by destruct (update_user validate_email now user_id _ s) as [r s'].
Qed.

(** C10. An update of an existing user, whatever payload it carries, leaves
    the user's username and identifier as they were: [UserUpdate] carries
    only [email], [full_name] and [password]. *)
Theorem update_user_keeps_username validate_email now user_id u s d :
  PyDict.get user_id (users_db s) = Some d →
  ∃ d', let s' := (app validate_email now (PUT_user user_id u) s).2 in
    PyDict.get user_id (users_db s') = Some d' ∧
    d' !! "username" = d !! "username" ∧
    d' !! "id" = d !! "id" ∧
    PyDict.keys (users_db s') = PyDict.keys (users_db s) ∧
    user_id_counter s' = user_id_counter s.
Proof.
  intros Hd. cbn zeta.
  destruct (app_PUT_user_state validate_email now user_id u s d Hd)
    as [-> | [u' ->]].
  - by exists d.
  - eexists. cbn [users_db user_id_counter set_users].
    rewrite get_setitem_eq. split; [done|].
    rewrite !lookup_insert_ne, !UserUpdate_dump_lookup by done.
    repeat (split; [done|]). split; [|done].
    apply keys_setitem_present. by eapply get_Some_key.
Qed.

Lemma update_user_keeps_username_witness :
  let s := (app Some 10 (POST_users sample_user) initial_state).2 in
  let u := UserUpdate.mk (Some (Some "new@example.com")) None
                         (Some (Some "anotherpassword")) in
  (∃ d, PyDict.get 1 (users_db s) = Some d) ∧
  ∃ d', PyDict.get 1 (users_db (app Some 11 (PUT_user 1 u) s).2) = Some d' ∧
        d' !! "username" = Some (PStr "testuser") ∧
        d' !! "id" = Some (PInt 1).
Proof.
  intros s u.
  assert (∃ d, PyDict.get 1 (users_db s) = Some d ∧
               d !! "username" = Some (PStr "testuser") ∧
               d !! "id" = Some (PInt 1)) as (d & Hd & Hn & Hi).
  { eexists; repeat split; reflexivity. }
  split; [by exists d|].
  destruct (update_user_keeps_username Some 11 1 u s d Hd)
    as (d' & Hg & Hname & Hid & _).
  exists d'. by rewrite <- Hn, <- Hi.
Defined.

(** ** Response models *)

Lemma field_values_keys_sublist rs : (field_values rs).*1 `sublist_of` rs.*1.
Proof.
  unfold field_values. induction rs as [|[k [e|v]] rs IH]; simpl.
  - apply sublist_nil.
  - apply sublist_cons, IH.
  - apply sublist_skip, IH.
Qed.

Lemma field_values_keys rs : (field_values rs).*1 ⊆ rs.*1.
Proof. apply sublist_subseteq, field_values_keys_sublist. Qed.

(** A response model holds the declared fields and nothing else. *)
Lemma model_validate_dom title fields data r k :
  model_validate title fields data = Ok r →
  k ∉ fields.*1 → r !! k = None.
Proof.
  unfold model_validate. destruct (field_errors _); [|done].
  intros [= <-] Hk. apply not_elem_of_list_to_map_1.
  intros Hin%field_values_keys. apply Hk.
  by rewrite <- list_fmap_compose in Hin.
Qed.

Lemma mapM_Ok {A B} (f : A → result B) l rs :
  mapM f l = Ok rs → Forall2 (λ x r, f x = Ok r) l rs.
Proof.
  revert rs. induction l as [|x l IH]; simpl; intros rs.
  - intros [= <-]. constructor.
  - destruct (f x) as [y|] eqn:Hx; simpl; [|done].
    destruct (mapM f l) as [k|] eqn:Hl; simpl; [|done].
    intros [= <-]. constructor; [done | by apply IH].
Qed.

Lemma Forall_mapM_Ok {A B} (f : A → result B) (g : A → B) l :
  Forall (λ x, f x = Ok (g x)) l → mapM f l = Ok (g <$> l).
Proof.
  induction 1 as [|x l Hx _ IH]; simpl; [done|].
  by rewrite Hx; simpl; rewrite IH.
Qed.

(** ** The password is write-only *)

Lemma ItemResponse_no_password d r :
  ItemResponse d = Ok r → r !! "password" = None.
Proof.
  intros H. eapply model_validate_dom; [exact H|].
  cbn. rewrite !not_elem_of_cons. repeat split; try done. apply not_elem_of_nil.
Qed.

Lemma UserResponse_no_password validate_email d r :
  UserResponse validate_email d = Ok r → r !! "password" = None.
Proof.
  intros H. eapply model_validate_dom; [exact H|].
  cbn. rewrite !not_elem_of_cons. repeat split; try done. apply not_elem_of_nil.
Qed.

Lemma handle_exception_records exc : response_records (handle_exception exc) = [].
Proof. by destruct exc. Qed.

Lemma endpoint_no_password validate_email now req s resp :
  (endpoint validate_email now req s).1 = Ok resp →
  Forall (λ r, r !! "password" = None) (response_records resp).
Proof.
  destruct req; simpl.
  - unfold create_item; simpl.
    destruct (ItemResponse _) eqn:E; simpl; [|done]. intros [= <-].
    repeat constructor. by eapply ItemResponse_no_password.
  - unfold get_items.
    destruct (if available_only then _ else _) as [all|]; simpl; [|done].
    destruct (mapM _ _) as [items|] eqn:E; simpl; [|done]. intros [= <-].
    apply mapM_Ok in E. unfold response_records; simpl.
    induction E as [|x r l rs Hx _ IH]; constructor; [|done].
    by eapply ItemResponse_no_password.
  - unfold get_item. destruct (PyDict.get _ _); simpl; [|done].
    destruct (ItemResponse _) eqn:E; simpl; [|done]. intros [= <-].
    repeat constructor. by eapply ItemResponse_no_password.
  - unfold update_item. destruct (PyDict.get _ _); simpl; [|done].
    destruct (ItemResponse _) eqn:E; simpl; [|done]. intros [= <-].
    repeat constructor. by eapply ItemResponse_no_password.
  - unfold delete_item. destruct (PyDict.get _ _); simpl; [|done].
    intros [= <-]. constructor.
  - unfold create_user. destruct (check_duplicates _ _); simpl; [|done].
    destruct (UserResponse _ _) eqn:E; simpl; [|done]. intros [= <-].
    repeat constructor. by eapply UserResponse_no_password.
  - unfold get_users.
    destruct (mapM _ _) as [users|] eqn:E; simpl; [|done]. intros [= <-].
    apply mapM_Ok in E. unfold response_records; simpl.
    induction E as [|x r l rs Hx _ IH]; constructor; [|done].
    by eapply UserResponse_no_password.
  - unfold get_user. destruct (PyDict.get _ _); simpl; [|done].
    destruct (UserResponse _ _) eqn:E; simpl; [|done]. intros [= <-].
    repeat constructor. by eapply UserResponse_no_password.
  - unfold update_user. destruct (PyDict.get _ _); simpl; [|done].
    destruct (UserResponse _ _) eqn:E; simpl; [|done]. intros [= <-].
    repeat constructor. by eapply UserResponse_no_password.
  - unfold delete_user. destruct (PyDict.get _ _); simpl; [|done].
    intros [= <-]. constructor.
Qed.

Lemma app_no_password validate_email now req s :
  Forall (λ r, r !! "password" = None)
         (response_records (app validate_email now req s).1).
Proof.
  unfold app. destruct (validate_request _ _) as [req'|exc]; simpl.
  - pose proof (endpoint_no_password validate_email now req' s) as H.
    destruct (endpoint _ _ _ _) as [[resp|exc] s']; simpl in *.
    + by apply H.
    + by rewrite handle_exception_records.
  - by rewrite handle_exception_records.
Qed.

(** C1. Whatever the state and the sequence of requests (create, get, list,
    update, delete; users and items), no record of any response has a
    [password] key. *)
Theorem password_never_in_response validate_email s reqs resp r :
  resp ∈ (run validate_email s reqs).1 →
  r ∈ response_records resp →
  r !! "password" = None.
Proof.
  revert s. induction reqs as [|[now req] reqs IH]; intros s; simpl.
  - intros H. by apply elem_of_nil in H.
  - pose proof (app_no_password validate_email now req s) as Happ.
    destruct (app _ _ _ _) as [resp0 s'].
    specialize (IH s'). destruct (run _ _ _) as [rs s''].
    simpl in *. rewrite elem_of_cons. intros [->|Hin] Hr.
    + rewrite Forall_forall in Happ. by apply Happ.
    + by apply IH.
Qed.

Lemma password_never_in_response_witness :
  let reqs :=
    [ (10, POST_users sample_user);
      (11, PUT_user 1 (UserUpdate.mk None None (Some (Some "anotherpassword"))));
      (12, GET_user 1) ] in
  (∃ d, PyDict.get 1 (users_db (run Some initial_state reqs).2) = Some d ∧
        d !! "password" = Some (PStr "anotherpassword")) ∧
  ∃ r, {| status := 200; body := JRecord r |} ∈ (run Some initial_state reqs).1 ∧
       r !! "username" = Some (PStr "testuser") ∧
       r !! "password" = None.
Proof.
  intros reqs. split; [eexists; split; reflexivity|].
  assert (∃ r, (run Some initial_state reqs).1 !! 2%nat
               = Some {| status := 200; body := JRecord r |} ∧
               r !! "username" = Some (PStr "testuser")) as (r & Hr & Hn).
  { eexists; split; reflexivity. }
  apply list_elem_of_lookup_2 in Hr.
  exists r. repeat split; [done..|].
  apply (password_never_in_response Some initial_state reqs _ r Hr).
  apply list_elem_of_singleton. reflexivity.
Defined.

(** ** How a request changes a store *)

Lemma db_wf_fresh db c : db_wf db c → c ∉ PyDict.keys db.
Proof.
  intros (_ & _ & Hb) Hin. rewrite Forall_forall in Hb.
  specialize (Hb _ Hin). lia.
Qed.

Lemma store_step_wf P R db c db' c' :
  store_step P R db c db' c' → db_wf db c → db_wf db' c'.
Proof.
  intros Hstep Hwf. pose proof Hwf as (Hc & Hnd & Hb).
  destruct Hstep as [|d _|k d d' Hk _|k d Hk].
  - done.
  - rewrite (setitem_fresh db c d) by by apply db_wf_fresh.
    unfold db_wf, PyDict.keys in *. rewrite fmap_app; simpl.
    split; [lia|]. split.
    + apply NoDup_app. split; [done|]. split; [|apply NoDup_singleton].
      intros k Hk ->%list_elem_of_singleton.
      by apply (db_wf_fresh db c Hwf).
    + apply Forall_app. split.
      * eapply Forall_impl; [exact Hb|]. simpl; lia.
      * apply Forall_singleton. lia.
  - unfold db_wf. rewrite keys_setitem_present by by eapply get_Some_key.
    done.
  - pose proof (keys_delitem_sublist db k) as Hsub.
    split; [done|]. split.
    + by eapply sublist_NoDup.
    + rewrite Forall_forall in *. intros x Hx. apply Hb.
      by eapply elem_of_sublist.
Qed.

Lemma store_step_counter P R db c db' c' :
  store_step P R db c db' c' → c ≤ c'.
Proof. destruct 1; lia. Qed.

Lemma store_step_gone P R id db c db' c' :
  store_step P R db c db' c' → gone id db c → gone id db' c'.
Proof.
  intros Hstep [Hg Hlt]. destruct Hstep as [|d _|k d d' Hk _|k d Hk].
  - done.
  - split; [|lia]. rewrite get_setitem_ne by lia. done.
  - split; [|done]. rewrite get_setitem_ne by congruence. done.
  - split; [|done]. by apply get_delitem_None.
Qed.

Lemma delete_gone db c k d :
  db_wf db c → PyDict.get k db = Some d → gone k (PyDict.delitem k db) c.
Proof.
  intros (_ & Hnd & Hb) Hk. split; [by apply get_delitem_eq|].
  apply get_Some_key in Hk. rewrite Forall_forall in Hb.
  specialize (Hb _ Hk). lia.
Qed.

Lemma app_items_step validate_email now req s :
  let s' := (app validate_email now req s).2 in
  store_step (λ _, True) (λ _ _, True)
    (items_db s) (item_id_counter s) (items_db s') (item_id_counter s').
Proof.
  cbn zeta. unfold app.
  destruct (validate_request _ _) as [req'|exc]; simpl; [|constructor].
  destruct req'; simpl; try constructor.
  - by constructor.
  - unfold update_item. destruct (PyDict.get _ _) eqn:E; simpl.
    + by econstructor.
    + constructor.
  - unfold delete_item. destruct (PyDict.get _ _) eqn:E; simpl.
    + by econstructor.
    + constructor.
  - unfold create_user. destruct (check_duplicates _ _); simpl; constructor.
  - unfold update_user. destruct (PyDict.get _ _); simpl; constructor.
  - unfold delete_user. destruct (PyDict.get _ _); simpl; constructor.
Qed.

Lemma app_users_step validate_email now req s :
  let s' := (app validate_email now req s).2 in
  store_step has_user_keys keeps_user_keys
    (users_db s) (user_id_counter s) (users_db s') (user_id_counter s').
Proof.
  cbn zeta. unfold app.
  destruct (validate_request _ _) as [req'|exc]; simpl; [|constructor].
  destruct req'; simpl; try constructor.
  - unfold update_item. destruct (PyDict.get _ _); simpl; constructor.
  - unfold delete_item. destruct (PyDict.get _ _); simpl; constructor.
  - unfold create_user. destruct (check_duplicates _ _); simpl; constructor.
    split; by eexists.
  - unfold update_user. destruct (PyDict.get _ _) eqn:E; simpl.
    + econstructor; [done|]. split.
      * by rewrite lookup_insert_ne, UserUpdate_dump_lookup.
      * intros [e He]. rewrite lookup_insert_ne, UserUpdate_dump_lookup by done.
        simpl. rewrite He. by destruct (UserUpdate.email _) as [[]|].
    + constructor.
  - unfold delete_user. destruct (PyDict.get _ _) eqn:E; simpl.
    + by econstructor.
    + constructor.
Qed.

(** ** Identifiers *)

Lemma initial_state_wf : state_wf initial_state.
Proof. split; (split; [done|]); split; constructor. Qed.

Lemma app_state_wf validate_email now req s :
  state_wf s → state_wf (app validate_email now req s).2.
Proof.
  intros [Hi Hu]. split.
  - eapply store_step_wf; [apply app_items_step | done].
  - eapply store_step_wf; [apply app_users_step | done].
Qed.

Lemma run_state_wf validate_email s reqs :
  state_wf s → state_wf (run validate_email s reqs).2.
Proof.
  revert s. induction reqs as [|[now req] reqs IH]; intros s Hwf; simpl; [done|].
  pose proof (app_state_wf validate_email now req s Hwf) as Hwf'.
  destruct (app _ _ _ _) as [r s']. specialize (IH s' Hwf').
  by destruct (run _ _ _) as [rs s''].
Qed.

Lemma run_item_gone validate_email id s reqs :
  gone id (items_db s) (item_id_counter s) →
  let s' := (run validate_email s reqs).2 in
  gone id (items_db s') (item_id_counter s').
Proof.
  revert s. induction reqs as [|[now req] reqs IH]; intros s Hg; simpl; [done|].
  pose proof (app_items_step validate_email now req s) as Hstep.
  destruct (app _ _ _ _) as [r s']. simpl in Hstep.
  specialize (IH s' (store_step_gone _ _ _ _ _ _ _ Hstep Hg)).
  by destruct (run _ _ _) as [rs s''].
Qed.

Lemma created_item_ids_cons now req reqs r rs :
  created_item_ids ((now, req) :: reqs) (r :: rs) =
  match created_item_id req r with
  | Some id => id :: created_item_ids reqs rs
  | None => created_item_ids reqs rs
  end.
Proof. reflexivity. Qed.

Lemma app_created_item validate_email now req s :
  let resp := (app validate_email now req s).1 in
  let s' := (app validate_email now req s).2 in
  (created_item_id req resp = Some (item_id_counter s) ∧
   item_id_counter s' = item_id_counter s + 1) ∨
  (created_item_id req resp = None ∧ item_id_counter s' = item_id_counter s).
Proof.
  cbn zeta. unfold app, validate_request, checked.
  destruct req.
  2-10: right; split; [done|];
    unfold endpoint, update_item, delete_item, create_user, update_user,
           delete_user;
    repeat case_match; simplify_eq/=; done.
  destruct (ItemCreate.errors item) eqn:Hv; [|by right].
  unfold endpoint. rewrite (create_item_valid now item s Hv). by left.
Qed.

Lemma run_created_item_ids validate_email s reqs :
  let rs := (run validate_email s reqs).1 in
  let s' := (run validate_email s reqs).2 in
  item_id_counter s ≤ item_id_counter s' ∧
  created_item_ids reqs rs =
    seqZ (item_id_counter s) (item_id_counter s' - item_id_counter s).
Proof.
  cbn zeta. revert s.
  induction reqs as [|[now req] reqs IH]; intros s; simpl.
  - split; [lia|]. by rewrite Z.sub_diag.
  - pose proof (app_created_item validate_email now req s) as Hc.
    destruct (app _ _ _ _) as [r s']. specialize (IH s').
    destruct (run _ _ _) as [rs s'']. simpl in *.
    destruct IH as [Hle IH]. rewrite created_item_ids_cons.
    destruct Hc as [[-> Hs] | [-> Hs]]; rewrite IH, Hs.
    + split; [lia|]. rewrite (seqZ_cons (item_id_counter s)) by lia.
      do 2 f_equal; lia.
    + split; [lia | done].
Qed.

(** C6 (items). From the initial state, whatever requests are made, the
    identifiers that successive creates answer with are 1, 2, 3, ...; and
    once a delete of [id] has succeeded, no later create answers with [id]
    and every later get of [id] is answered 404. *)
Theorem item_ids_sequential_never_reused
    validate_email reqs1 now id reqs2 now' :
  let rs1 := (run validate_email initial_state reqs1).1 in
  let s1 := (run validate_email initial_state reqs1).2 in
  let deleted := app validate_email now (DELETE_item id) s1 in
  let rs2 := (run validate_email deleted.2 reqs2).1 in
  let s2 := (run validate_email deleted.2 reqs2).2 in
  created_item_ids reqs1 rs1 = seqZ 1 (item_id_counter s1 - 1) ∧
  (status (deleted.1) = 204 →
   (id ∉ created_item_ids reqs2 rs2) ∧
   (app validate_email now' (GET_item id) s2).1 =
     {| status := 404;
        body := JDetail (Text ("Item with id " +:+ pretty id +:+ " not found")) |}).
Proof.
  cbn zeta. split.
  { apply (run_created_item_ids validate_email initial_state reqs1). }
  pose proof (run_state_wf validate_email initial_state reqs1 initial_state_wf)
    as [Hwf _].
  set (s1 := (run validate_email initial_state reqs1).2) in *.
  assert (status (app validate_email now (DELETE_item id) s1).1 = 204 →
          gone id (items_db (app validate_email now (DELETE_item id) s1).2)
                  (item_id_counter (app validate_email now (DELETE_item id) s1).2))
    as Hdel.
  { unfold app; simpl. unfold delete_item.
    destruct (PyDict.get id (items_db s1)) eqn:E; simpl; [|done].
    intros _. by eapply delete_gone. }
  intros Hst. specialize (Hdel Hst).
  set (s := (app validate_email now (DELETE_item id) s1).2) in *.
  pose proof (run_item_gone validate_email id s reqs2 Hdel) as [Hg _].
  pose proof (run_created_item_ids validate_email s reqs2) as [_ Hids].
  cbn zeta in *. split.
  - rewrite Hids, elem_of_seqZ. destruct Hdel as [_ ?]. lia.
  - unfold app; simpl. unfold get_item. by rewrite Hg.
Qed.

Lemma item_ids_sequential_never_reused_witness :
  let reqs1 := [(10, POST_items sample_item); (11, POST_items sample_item)] in
  let reqs2 := [(13, POST_items sample_item)] in
  let s1 := (run Some initial_state reqs1).2 in
  let deleted := app Some 12 (DELETE_item 2) s1 in
  status (deleted.1) = 204 ∧
  created_item_ids reqs1 (run Some initial_state reqs1).1 = [1; 2] ∧
  created_item_ids reqs2 (run Some deleted.2 reqs2).1 = [3] ∧
  status (app Some 14 (GET_item 2) (run Some deleted.2 reqs2).2).1 = 404.
Proof.
  intros reqs1 reqs2 s1 deleted.
  destruct (item_ids_sequential_never_reused Some reqs1 12 2 reqs2 14)
    as [Hseq Hdel].
  split; [reflexivity|]. split; [exact Hseq|]. split; [reflexivity|].
  destruct (Hdel eq_refl) as [_ Hget].
  fold s1 in Hget. fold deleted in Hget. by rewrite Hget.
Defined.

Lemma run_user_gone validate_email id s reqs :
  gone id (users_db s) (user_id_counter s) →
  let s' := (run validate_email s reqs).2 in
  gone id (users_db s') (user_id_counter s').
Proof.
  revert s. induction reqs as [|[now req] reqs IH]; intros s Hg; simpl; [done|].
  pose proof (app_users_step validate_email now req s) as Hstep.
  destruct (app _ _ _ _) as [r s']. simpl in Hstep.
  specialize (IH s' (store_step_gone _ _ _ _ _ _ _ Hstep Hg)).
  by destruct (run _ _ _) as [rs s''].
Qed.

(** The user store hands out and retires identifiers the same way: once a
    delete of [id] has succeeded, [id] is below the counter, has no record in
    any later state, and every later get of [id] is answered 404. *)
Lemma user_ids_never_reused validate_email reqs1 now id reqs2 now' :
  let s1 := (run validate_email initial_state reqs1).2 in
  let deleted := app validate_email now (DELETE_user id) s1 in
  let s2 := (run validate_email deleted.2 reqs2).2 in
  status (deleted.1) = 204 →
  gone id (users_db s2) (user_id_counter s2) ∧
  (app validate_email now' (GET_user id) s2).1 =
    {| status := 404;
       body := JDetail (Text ("User with id " +:+ pretty id +:+ " not found")) |}.
Proof.
  cbn zeta.
  pose proof (run_state_wf validate_email initial_state reqs1 initial_state_wf)
    as [_ Hwf].
  set (s1 := (run validate_email initial_state reqs1).2) in *.
  intros Hst.
  assert (gone id (users_db (app validate_email now (DELETE_user id) s1).2)
            (user_id_counter (app validate_email now (DELETE_user id) s1).2))
    as Hdel.
  { revert Hst. unfold app; simpl. unfold delete_user.
    destruct (PyDict.get id (users_db s1)) eqn:E; simpl; [|done].
    intros _. by eapply delete_gone. }
  set (s := (app validate_email now (DELETE_user id) s1).2) in *.
  pose proof (run_user_gone validate_email id s reqs2 Hdel) as Hg.
  cbn zeta in Hg.
  split; [done|]. destruct Hg as [Hg _].
  unfold app; simpl. unfold get_user. by rewrite Hg.
Qed.

(** ** Duplicate users *)

Lemma values_setitem_Forall (P : dict → Prop) db k d :
  Forall P (PyDict.values db) → P d →
  Forall P (PyDict.values (PyDict.setitem k d db)).
Proof.
  unfold PyDict.values. intros Hall Hd.
  induction db as [|[k' v'] db IH]; simpl in *.
  - by repeat constructor.
  - apply Forall_cons in Hall as [Hv Hall].
    destruct (k' =? k); simpl; constructor; auto.
Qed.

Lemma values_delitem_Forall (P : dict → Prop) db k :
  Forall P (PyDict.values db) → Forall P (PyDict.values (PyDict.delitem k db)).
Proof.
  unfold PyDict.values. intros Hall.
  induction db as [|[k' v'] db IH]; simpl in *; [done|].
  apply Forall_cons in Hall as [Hv Hall].
  destruct (k' =? k); simpl; [done|]. constructor; auto.
Qed.

Lemma store_step_user_keys db c db' c' :
  store_step has_user_keys keeps_user_keys db c db' c' →
  Forall has_user_keys (PyDict.values db) →
  Forall has_user_keys (PyDict.values db').
Proof.
  intros Hstep Hall. destruct Hstep as [|d Hd|k d d' Hk [Hu He]|k d Hk].
  - done.
  - by apply values_setitem_Forall.
  - apply values_setitem_Forall; [done|].
    apply get_Some_value in Hk. rewrite Forall_forall in Hall.
    destruct (Hall _ Hk) as [Hu' He']. split; [by rewrite Hu | by apply He].
  - by apply values_delitem_Forall.
Qed.

Lemma run_user_keys validate_email s reqs :
  Forall has_user_keys (PyDict.values (users_db s)) →
  Forall has_user_keys
    (PyDict.values (users_db (run validate_email s reqs).2)).
Proof.
  revert s. induction reqs as [|[now req] reqs IH]; intros s Hall; simpl; [done|].
  pose proof (app_users_step validate_email now req s) as Hstep.
  destruct (app _ _ _ _) as [r s']. simpl in Hstep.
  specialize (IH s' (store_step_user_keys _ _ _ _ Hstep Hall)).
  by destruct (run _ _ _) as [rs s''].
Qed.

(** The scan stops with one of its two errors at the first record that
    shares the username, if not before. *)
Lemma check_duplicates_username user l d :
  Forall has_user_keys l →
  d ∈ l → d !! "username" = Some (PStr (UserCreate.username user)) →
  ∃ detail, check_duplicates user l = Raise (HTTPException 400 detail) ∧
            (detail = "Username already exists" ∨
             detail = "Email already exists").
Proof.
  intros Hall Hin Hd. induction l as [|x l IH]; [by apply elem_of_nil in Hin|].
  apply Forall_cons in Hall as [[[u Hu] [e He]] Hall].
  simpl. unfold getitem. rewrite Hu; simpl.
  destruct (py_eq_str u _) eqn:Eu; [eauto|].
  rewrite He; simpl.
  destruct (py_eq_str e _) eqn:Ee; [eauto|].
  apply elem_of_cons in Hin as [->|Hin]; [|by apply IH].
  rewrite Hd in Hu. injection Hu as <-. simpl in Eu.
  by rewrite String.eqb_refl in Eu.
Qed.

(** C3. In every state reached from the initial one that holds a user with
    username [u], a create whose payload passes validation and carries the
    username [u], whatever its email, is answered 400 with one of the two
    duplicate messages, and the application state (the user store and its
    counter included) is what it was. *)
Theorem duplicate_username_conflict validate_email reqs now user d :
  let s := (run validate_email initial_state reqs).2 in
  d ∈ PyDict.values (users_db s) →
  d !! "username" = Some (PStr (UserCreate.username user)) →
  UserCreate_errors validate_email user = [] →
  ∃ detail,
    app validate_email now (POST_users user) s =
      ({| status := 400; body := JDetail (Text detail) |}, s) ∧
    (detail = "Username already exists" ∨ detail = "Email already exists").
Proof.
  intros s Hin Hd Hv.
  assert (Forall has_user_keys (PyDict.values (users_db s))) as Hall.
  { apply run_user_keys. constructor. }
  destruct (check_duplicates_username
              (UserCreate_normal validate_email user) _ d Hall Hin Hd)
    as (detail & Hc & Hdetail).
  exists detail. split; [|done].
  unfold app, validate_request, checked. rewrite Hv.
  unfold endpoint, create_user. by rewrite Hc.
Qed.

Lemma duplicate_username_conflict_witness :
  let s := (run Some initial_state [(10, POST_users sample_user)]).2 in
  let user := UserCreate.mk "other@example.com" "testuser" None "password456" in
  (∃ d, d ∈ PyDict.values (users_db s) ∧
        d !! "username" = Some (PStr "testuser")) ∧
  UserCreate_errors Some user = [] ∧
  app Some 11 (POST_users user) s =
    ({| status := 400; body := JDetail (Text "Username already exists") |}, s) ∧
  length (users_db (app Some 11 (POST_users user) s).2) = 1%nat.
Proof.
  intros s user.
  assert (∃ d, d ∈ PyDict.values (users_db s) ∧
               d !! "username" = Some (PStr "testuser")) as (d & Hin & Hd).
  { eexists. split; [apply list_elem_of_singleton|]; reflexivity. }
  split; [by exists d|]. split; [reflexivity|].
  destruct (duplicate_username_conflict Some [(10, POST_users sample_user)]
              11 user d Hin Hd eq_refl) as (detail & Happ & Hdetail).
  fold s in Happ. rewrite Happ. split; [|reflexivity].
  assert (detail = "Username already exists") as ->; [|done].
  assert (status (app Some 11 (POST_users user) s).1 = 400 ∧
          body (app Some 11 (POST_users user) s).1
          = JDetail (Text "Username already exists")) as [_ Hb]
    by (split; reflexivity).
  rewrite Happ in Hb. simpl in Hb. congruence.
Defined.

(** ** Pagination *)

Lemma py_slice_window {A} (l : list A) start limit :
  0 ≤ start → 0 ≤ limit →
  py_slice l start (start + limit) =
  take (Z.to_nat limit) (drop (Z.to_nat start) l).
Proof.
  intros Hs Hl. unfold py_slice, slice_index.
  destruct (Z.ltb_spec start 0); [lia|].
  destruct (Z.ltb_spec (start + limit) 0); [lia|].
  destruct (Z.le_gt_cases start (Z.of_nat (length l))) as [Hle|Hgt].
  - rewrite (Z.min_l start) by done.
    rewrite <- (take_ge (drop (Z.to_nat start) l)
                  (Z.to_nat (Z.of_nat (length l) - start)))
      by (rewrite length_drop; lia).
    rewrite !take_take. f_equal. lia.
  - rewrite !Z.min_r by lia. rewrite Z.sub_diag; simpl.
    rewrite (drop_ge l (Z.to_nat start)) by lia. by rewrite take_nil.
Qed.

Lemma page_of_succ {A} limit (l : list A) page :
  0 ≤ limit → 1 ≤ page →
  page_of limit l (1 + page) = page_of limit (drop (Z.to_nat limit) l) page.
Proof.
  intros Hl Hp. unfold page_of. rewrite drop_drop. do 2 f_equal. nia.
Qed.

Lemma concat_pages {A} limit (l : list A) (m : nat) :
  0 < limit → Z.of_nat (length l) ≤ Z.of_nat m * limit →
  concat (page_of limit l <$> seqZ 1 (Z.of_nat m)) = l.
Proof.
  intros Hl. revert l. induction m as [|m IH]; intros l Hlen.
  - destruct l; [done | simpl in Hlen; lia].
  - rewrite seqZ_cons by lia. simpl.
    replace (Z.pred (Z.of_nat (S m))) with (Z.of_nat m) by lia.
    replace (Z.succ 1) with (1 + 1) by lia.
    rewrite <- fmap_add_seqZ, <- list_fmap_compose.
    rewrite (list_fmap_ext _ (page_of limit (drop (Z.to_nat limit) l))
               (seqZ 1 (Z.of_nat m))).
    + rewrite IH by (rewrite length_drop; nia).
      unfold page_of. simpl. apply take_drop.
    + intros i p [-> ?]%lookup_seqZ. simpl.
      apply page_of_succ; lia.
Qed.

Lemma page_of_past_end {A} limit (l : list A) page :
  0 < limit → Z.of_nat (length l) ≤ (page - 1) * limit →
  page_of limit l page = [].
Proof.
  intros Hl Hlen. unfold page_of. rewrite drop_ge by lia. apply take_nil.
Qed.

(** ceil(n / k) pages hold n items. *)
Lemma ceil_div_bound n k : 0 ≤ n → 0 < k → n ≤ (n + k - 1) / k * k ∧ 0 ≤ (n + k - 1) / k.
Proof.
  intros Hn Hk. split.
  - pose proof (Z.mul_succ_div_gt (n + k - 1) k Hk). nia.
  - apply Z.div_pos; lia.
Qed.

(** The state after a sequence of valid creates. *)
Lemma run_creates validate_email inputs s :
  Forall (λ p, ItemCreate.errors p.2 = []) inputs →
  db_wf (items_db s) (item_id_counter s) →
  run validate_email s (creates inputs) =
    ((λ d, {| status := 201; body := JRecord d |})
       <$> expected_items (item_id_counter s) inputs,
     set_items
       (items_db s ++
          zip (seqZ (item_id_counter s) (Z.of_nat (length inputs)))
              (expected_items (item_id_counter s) inputs))
       (item_id_counter s + Z.of_nat (length inputs)) s).
Proof.
  intros Hall. revert s.
  induction Hall as [|[now item] inputs Hv _ IH]; intros s Hwf.
  - simpl. rewrite app_nil_r, Z.add_0_r. by destruct s.
  - simpl in Hv. cbn [creates fmap list_fmap run fst snd].
    assert (app validate_email now (POST_items item) s =
            ({| status := 201;
                body := JRecord (expected_item (item_id_counter s) now item) |},
             set_items (items_db s ++
                          [(item_id_counter s,
                            expected_item (item_id_counter s) now item)])
                       (item_id_counter s + 1) s)) as Happ.
    { unfold app, validate_request, checked, endpoint.
      rewrite Hv, (create_item_valid now item s Hv); simpl.
      by rewrite setitem_fresh by by apply db_wf_fresh. }
    pose proof (app_state_wf validate_email now (POST_items item) s) as Hwf'.
    rewrite Happ in *. 
    fold (creates inputs). rewrite IH; last first.
    { pose proof (app_items_step validate_email now (POST_items item) s) as Hst.
      rewrite Happ in Hst. by eapply store_step_wf. }
    cbn [items_db item_id_counter set_items users_db user_id_counter
         expected_items length].
    clear Hwf'.
    assert (0 < Z.of_nat (S (length inputs))) as Hpos by lia.
    rewrite (seqZ_cons (item_id_counter s) (Z.of_nat (S (length inputs))) Hpos).
    replace (Z.pred (Z.of_nat (S (length inputs)))) with (Z.of_nat (length inputs))
      by lia.
    replace (Z.succ (item_id_counter s)) with (item_id_counter s + 1) by lia.
    replace (item_id_counter s + Z.of_nat (S (length inputs)))
      with (item_id_counter s + 1 + Z.of_nat (length inputs)) by lia.
    rewrite <- app_assoc. by destruct s.
Qed.

Lemma length_expected_items id inputs :
  length (expected_items id inputs) = length inputs.
Proof.
  revert id. induction inputs as [|[now item] inputs IH]; intros id; simpl;
    [done | by rewrite IH].
Qed.

Lemma expected_items_rendered id inputs :
  Forall (λ p, ItemCreate.errors p.2 = []) inputs →
  Forall (λ d, ItemResponse d = Ok d) (expected_items id inputs).
Proof.
  intros Hall. revert id.
  induction Hall as [|[now item] inputs Hv _ IH]; intros id; simpl;
    constructor; [by apply ItemResponse_expected_item | apply IH].
Qed.

Lemma expected_items_ids id inputs :
  (λ d : dict, d !! "id") <$> expected_items id inputs =
  (λ i, Some (PInt i)) <$> seqZ id (Z.of_nat (length inputs)).
Proof.
  revert id. induction inputs as [|[now item] inputs IH]; intros id; [done|].
  cbn [expected_items length fmap list_fmap].
  rewrite seqZ_cons by lia. simpl. rewrite IH. do 3 f_equal; lia.
Qed.

Lemma query_errors_valid page page_size :
  1 ≤ page → 1 ≤ page_size ≤ 100 → query_errors page page_size = [].
Proof.
  intros Hp [Hl Hu]. unfold query_errors.
  destruct (Z.ltb_spec page 1); [lia|].
  destruct (Z.ltb_spec page_size 1); [lia|].
  destruct (Z.ltb_spec 100 page_size); [lia|]. done.
Qed.

(** Listing without the filter, over records whose response model is the
    record itself. *)
Lemma get_items_all page page_size s :
  1 ≤ page → 1 ≤ page_size →
  Forall (λ d, ItemResponse d = Ok d) (PyDict.values (items_db s)) →
  get_items page page_size false s =
    Ok (ItemList.mk (page_of page_size (PyDict.values (items_db s)) page)
                    (Z.of_nat (length (PyDict.values (items_db s))))
                    page page_size).
Proof.
  intros Hp Hk Hall. unfold get_items. simpl.
  rewrite py_slice_window by nia. fold (page_of page_size (PyDict.values (items_db s)) page).
  rewrite (Forall_mapM_Ok ItemResponse id).
  - by rewrite list_fmap_id.
  - unfold page_of. by apply Forall_take, Forall_drop.
Qed.

(** C4. After creating N items (valid payloads) in the initial state, the
    store holds their records in creation order with the identifiers 1..N;
    for a page size k in [1, 100] every page >= 1 is answered 200 with the
    slice [(page-1)*k, (page-1)*k + k) of that sequence and total N; the
    pages 1..ceil(N/k) concatenated are the whole sequence; and a page past
    the last one is empty. *)
Theorem pagination_partitions validate_email inputs k :
  Forall (λ p, ItemCreate.errors p.2 = []) inputs →
  1 ≤ k ≤ 100 →
  let N := Z.of_nat (length inputs) in
  let s := (run validate_email initial_state (creates inputs)).2 in
  let records := expected_items 1 inputs in
  let pages := (N + k - 1) / k in
  PyDict.values (items_db s) = records ∧
  (λ d : dict, d !! "id") <$> records = (λ i, Some (PInt i)) <$> seqZ 1 N ∧
  (∀ now page, 1 ≤ page →
     app validate_email now (GET_items page k false) s =
       ({| status := 200;
           body := JItemList (ItemList.mk (page_of k records page) N page k) |},
        s)) ∧
  concat (page_of k records <$> seqZ 1 pages) = records ∧
  (∀ page, pages < page → page_of k records page = []).
Proof.
  intros Hall Hk. cbn zeta.
  pose proof initial_state_wf as [Hwf _].
  rewrite (run_creates validate_email inputs initial_state Hall Hwf).
  cbn [snd items_db set_items initial_state item_id_counter Datatypes.app].
  assert (PyDict.values
            (zip (seqZ 1 (Z.of_nat (length inputs))) (expected_items 1 inputs))
          = expected_items 1 inputs) as Hvals.
  { unfold PyDict.values. apply snd_zip.
    rewrite length_expected_items, length_seqZ. lia. }
  pose proof (ceil_div_bound (Z.of_nat (length inputs)) k) as [Hceil Hpos];
    [lia..|].
  split; [done|]. split; [apply expected_items_ids|].
  split; [|split].
  - intros now page Hp. unfold app, validate_request, checked.
    rewrite query_errors_valid by done. unfold endpoint.
    rewrite get_items_all; cbn [items_db set_items Datatypes.app];
      rewrite ?Hvals; try lia.
    + by rewrite length_expected_items.
    + by apply expected_items_rendered.
  - rewrite <- (Z2Nat.id _ Hpos). apply concat_pages; [lia|].
    rewrite length_expected_items, Z2Nat.id by done. lia.
  - intros page Hpage. apply page_of_past_end; [lia|].
    rewrite length_expected_items. nia.
Qed.

Lemma pagination_partitions_witness :
  let inputs := [(10, sample_item); (11, sample_unavailable); (12, sample_item)] in
  let s := (run Some initial_state (creates inputs)).2 in
  Forall (λ p, ItemCreate.errors p.2 = []) inputs ∧ 1 ≤ 2 ≤ 100 ∧
  PyDict.keys (items_db s) = [1; 2; 3] ∧
  (app Some 13 (GET_items 1 2 false) s).1 =
    {| status := 200;
       body := JItemList
         (ItemList.mk [expected_item 1 10 sample_item;
                       expected_item 2 11 sample_unavailable] 3 1 2) |} ∧
  (app Some 14 (GET_items 2 2 false) s).1 =
    {| status := 200;
       body := JItemList (ItemList.mk [expected_item 3 12 sample_item] 3 2 2) |} ∧
  (app Some 15 (GET_items 3 2 false) s).1 =
    {| status := 200; body := JItemList (ItemList.mk [] 3 3 2) |}.
Proof.
  intros inputs s.
  assert (Forall (λ p, ItemCreate.errors p.2 = []) inputs) as Hv
    by (repeat constructor).
  assert (1 ≤ 2 ≤ 100) as Hk by lia.
  destruct (pagination_partitions Some inputs 2 Hv Hk) as (_ & _ & Hpage & _).
  split; [done|]. split; [done|]. split; [reflexivity|].
  fold s in Hpage.
  rewrite (Hpage 13 1), (Hpage 14 2), (Hpage 15 3) by lia.
  repeat split.
Defined.

(** ** Well-formed item records *)

Lemma item_record_lookup id n de p a c u k :
  item_record id n de p a c u !! k =
  if decide ("id" = k) then Some (PInt id)
  else if decide ("name" = k) then Some (PStr n)
  else if decide ("description" = k) then Some (opt_str de)
  else if decide ("price" = k) then Some (PFloat p)
  else if decide ("is_available" = k) then Some (PBool a)
  else if decide ("created_at" = k) then Some (PDatetime c)
  else if decide ("updated_at" = k) then Some (from_option PDatetime PNone u)
  else None.
Proof.
  unfold item_record, mkdict. cbn [list_to_map foldr curry fst snd].
  rewrite !lookup_insert, lookup_empty. by repeat case_decide.
Qed.

Lemma item_record_fields id n de p a c u :
  let d := item_record id n de p a c u in
  d !! "id" = Some (PInt id) ∧
  d !! "name" = Some (PStr n) ∧
  d !! "description" = Some (opt_str de) ∧
  d !! "price" = Some (PFloat p) ∧
  d !! "is_available" = Some (PBool a) ∧
  d !! "created_at" = Some (PDatetime c) ∧
  d !! "updated_at" = Some (from_option PDatetime PNone u).
Proof. repeat split; reflexivity. Qed.

Lemma item_record_well_formed id n de p a c u :
  check_length (Some 1) (Some 100) n = None →
  (d ← de; check_length None (Some 500) d) = None →
  check_gt0 p = None →
  well_formed_item (item_record id n de p a c u).
Proof.
  intros Hn Hd Hp.
  destruct (item_record_fields id n de p a c u)
    as (H1 & H2 & H3 & H4 & H5 & H6 & H7).
  unfold well_formed_item, ItemResponse, model_validate.
  cbn [fmap list_fmap ItemResponse_fields fst snd].
  rewrite H1, H2, H3, H4, H5, H6, H7.
  cbn [validate_field v_str v_optional v_float_gt0 v_bool v_int v_datetime].
  rewrite Hn, Hp.
  assert (v_optional (v_str None (Some 500)) (opt_str de) = inr (opt_str de))
    as ->.
  { destruct de as [x|]; simpl in *; [by rewrite Hd | done]. }
  assert (v_optional v_datetime (from_option PDatetime PNone u)
          = inr (from_option PDatetime PNone u)) as -> by by destruct u.
  reflexivity.
Qed.

Lemma well_formed_item_inv d :
  well_formed_item d →
  ∃ id n de p a c u,
    d = item_record id n de p a c u ∧
    check_length (Some 1) (Some 100) n = None ∧
    (x ← de; check_length None (Some 500) x) = None ∧
    check_gt0 p = None.
Proof.
  unfold well_formed_item, ItemResponse, model_validate.
  cbn [fmap list_fmap ItemResponse_fields fst snd].
  destruct (validate_field _ (d !! "name")) as [|v1] eqn:H1,
           (validate_field _ (d !! "description")) as [|v2] eqn:H2,
           (validate_field _ (d !! "price")) as [|v3] eqn:H3,
           (validate_field _ (d !! "is_available")) as [|v4] eqn:H4,
           (validate_field _ (d !! "id")) as [|v5] eqn:H5,
           (validate_field _ (d !! "created_at")) as [|v6] eqn:H6,
           (validate_field _ (d !! "updated_at")) as [|v7] eqn:H7;
    try done.
  cbn [field_errors field_values omap list_omap fst snd].
  intros [= Hd].
  assert (d !! "name" = Some v1) as L1 by (by rewrite <- Hd).
  assert (d !! "description" = Some v2) as L2 by (by rewrite <- Hd).
  assert (d !! "price" = Some v3) as L3 by (by rewrite <- Hd).
  assert (d !! "is_available" = Some v4) as L4 by (by rewrite <- Hd).
  assert (d !! "id" = Some v5) as L5 by (by rewrite <- Hd).
  assert (d !! "created_at" = Some v6) as L6 by (by rewrite <- Hd).
  assert (d !! "updated_at" = Some v7) as L7 by (by rewrite <- Hd).
  rewrite L1 in H1. rewrite L2 in H2. rewrite L3 in H3. rewrite L4 in H4.
  rewrite L5 in H5. rewrite L6 in H6. rewrite L7 in H7.
  cbn [validate_field] in *.
  destruct v1 as [| | | |n|]; try done.
  destruct v3 as [| | |p| |]; try done.
  destruct v4 as [|a| | | |]; try done.
  destruct v5 as [| |id| | |]; try done.
  destruct v6 as [| | | | |c]; try done.
  simpl in H1, H3.
  destruct (check_length (Some 1) (Some 100) n) eqn:Hn; [done|].
  destruct (check_gt0 p) eqn:Hp; [done|].
  assert (∃ de, v2 = opt_str de ∧
                (x ← de; check_length None (Some 500) x) = None)
    as (de & -> & Hde).
  { destruct v2 as [| | | |x|]; try done.
    - by exists None.
    - exists (Some x). split; [done|]. simpl in *.
      by destruct (check_length None (Some 500) x). }
  assert (∃ u, v7 = from_option PDatetime PNone u) as (u & ->).
  { destruct v7 as [| | | | |t]; try done; [by exists None | by exists (Some t)]. }
  exists id, n, de, p, a, c, u. split; [|done].
  rewrite <- Hd. reflexivity.
Qed.

Lemma ItemUpdate_errors_nil u :
  ItemUpdate.errors u = [] ↔
  check_set (check_length (Some 1) (Some 100)) (ItemUpdate.name u) = None ∧
  check_set (check_length None (Some 500)) (ItemUpdate.description u) = None ∧
  check_set check_gt0 (ItemUpdate.price u) = None.
Proof.
  unfold ItemUpdate.errors. rewrite !app_nil, !at_loc_nil. tauto.
Qed.

(** Without an explicit [null] for a required field an update turns a
    well-formed record into a well-formed record. *)
Lemma update_well_formed now u d :
  well_formed_item d → ItemUpdate.errors u = [] → no_null_required u →
  well_formed_item
    (<["updated_at" := PDatetime now]> (dict_update d (ItemUpdate.model_dump u))).
Proof.
  intros (id & n & de & p & a & c & up & -> & Hn & Hde & Hp)%well_formed_item_inv
         (Hun & Hud & Hup)%ItemUpdate_errors_nil (Nn & Np & Na).
  destruct u as [un ud upr ua]; simpl in *.
  assert (<["updated_at" := PDatetime now]>
            (dict_update (item_record id n de p a c up)
               (ItemUpdate.model_dump (ItemUpdate.mk un ud upr ua)))
          = item_record id
              (match un with Some (Some v) => v | _ => n end)
              (match ud with Some o => o | None => de end)
              (match upr with Some (Some v) => v | _ => p end)
              (match ua with Some (Some v) => v | _ => a end)
              c (Some now)) as ->.
  { destruct un as [[?|]|], ud as [[?|]|], upr as [[?|]|], ua as [[?|]|];
      try done; reflexivity. }
  apply item_record_well_formed.
  - by destruct un as [[?|]|].
  - by destruct ud as [[?|]|].
  - by destruct upr as [[?|]|].
Qed.

Lemma validate_request_Ok validate_email req req' :
  validate_request validate_email req = Ok req' →
  match req with
  | POST_items item => req' = req ∧ ItemCreate.errors item = []
  | PUT_item _ u => req' = req ∧ ItemUpdate.errors u = []
  | POST_users _ => ∃ user', req' = POST_users user'
  | PUT_user user_id _ => ∃ u', req' = PUT_user user_id u'
  | _ => req' = req
  end.
Proof.
  destruct req; simpl; unfold checked; try by intros [= <-].
  all: destruct (_ : list field_error) eqn:E; intros [= <-]; eauto.
Qed.

Lemma app_well_formed validate_email now req s :
  null_free req →
  Forall well_formed_item (PyDict.values (items_db s)) →
  Forall well_formed_item
    (PyDict.values (items_db (app validate_email now req s).2)).
Proof.
  intros Hnf Hall. unfold app.
  destruct (validate_request _ _) as [req'|exc] eqn:Hv; [|done].
  apply validate_request_Ok in Hv.
  destruct req; cbn [null_free] in Hnf.
  - destruct Hv as [-> Hv]. cbn [endpoint].
    rewrite (create_item_valid now item s Hv). simpl.
    apply values_setitem_Forall; [done|].
    by apply ItemResponse_expected_item.
  - by subst.
  - by subst.
  - destruct Hv as [-> Hv]. cbn [endpoint]. unfold update_item.
    destruct (PyDict.get _ _) as [d|] eqn:E; [|done].
    simpl. apply values_setitem_Forall; [done|].
    apply update_well_formed; [|done..].
    apply get_Some_value in E. rewrite Forall_forall in Hall. by apply Hall.
  - subst. cbn [endpoint]. unfold delete_item.
    destruct (PyDict.get _ _); [|done].
    simpl. by apply values_delitem_Forall.
  - destruct Hv as [user' ->]. cbn [endpoint]. unfold create_user.
    by destruct (check_duplicates _ _).
  - by subst.
  - by subst.
  - destruct Hv as [u' ->]. cbn [endpoint]. unfold update_user.
    by destruct (PyDict.get _ _).
  - subst. cbn [endpoint]. unfold delete_user. by destruct (PyDict.get _ _).
Qed.

Lemma run_well_formed validate_email s reqs :
  Forall (λ p, null_free p.2) reqs →
  Forall well_formed_item (PyDict.values (items_db s)) →
  Forall well_formed_item
    (PyDict.values (items_db (run validate_email s reqs).2)).
Proof.
  intros Hnf. revert s.
  induction Hnf as [|[now req] reqs Hreq _ IH]; intros s Hall; simpl; [done|].
  pose proof (app_well_formed validate_email now req s Hreq Hall) as Hall'.
  destruct (app _ _ _ _) as [r s']. specialize (IH s' Hall').
  by destruct (run _ _ _) as [rs s''].
Qed.

Lemma well_formed_price_positive d :
  well_formed_item d → price_positive d = true.
Proof.
  intros (id & n & de & p & a & c & up & -> & _ & _ & Hp)%well_formed_item_inv.
  destruct (item_record_fields id n de p a c up) as (_ & _ & _ & H & _).
  unfold price_positive. rewrite H. by apply check_gt0_None.
Qed.

(** What the schemas are after: as long as no update sends an explicit
    [null] for a required field, every record of the store is a well-formed
    item, and its price is greater than zero. *)
Lemma prices_positive_without_null validate_email reqs :
  Forall (λ p, null_free p.2) reqs →
  let s := (run validate_email initial_state reqs).2 in
  Forall well_formed_item (PyDict.values (items_db s)) ∧
  Forall (λ d, price_positive d = true) (PyDict.values (items_db s)).
Proof.
  intros Hnf s.
  assert (Forall well_formed_item (PyDict.values (items_db s))) as Hwf.
  { apply run_well_formed; [done | constructor]. }
  split; [done|]. eapply Forall_impl; [exact Hwf|].
  apply well_formed_price_positive.
Qed.

(** ** Filtering by availability *)

Lemma well_formed_item_flag d :
  well_formed_item d → ∃ b, d !! "is_available" = Some (PBool b).
Proof.
  intros (id & n & de & p & a & c & up & -> & _)%well_formed_item_inv.
  by exists a.
Qed.

Lemma filter_key_available l :
  Forall well_formed_item l →
  filter_key "is_available" l = Ok (filter flag_true l).
Proof.
  induction 1 as [|d l Hd _ IH]; [done|].
  destruct (well_formed_item_flag d Hd) as [b Hb].
  assert (flag_true d = b) as Hf.
  { unfold flag_true. rewrite Hb. by destruct b. }
  cbn [filter_key]. unfold getitem. rewrite Hb, IH.
  rewrite filter_cons, Hf. by destruct b.
Qed.

(** The endpoint on a store of well-formed records, with the filter. *)
Lemma get_items_available page page_size s :
  Forall well_formed_item (PyDict.values (items_db s)) →
  1 ≤ page → 1 ≤ page_size →
  let available := filter flag_true (PyDict.values (items_db s)) in
  get_items page page_size true s =
    Ok (ItemList.mk (page_of page_size available page)
                    (Z.of_nat (length available)) page page_size).
Proof.
  intros Hall Hp Hk available. unfold get_items.
  rewrite filter_key_available by done. simpl.
  rewrite py_slice_window by nia.
  fold available. fold (page_of page_size available page).
  rewrite (Forall_mapM_Ok ItemResponse id).
  - by rewrite list_fmap_id.
  - unfold page_of, available.
    apply Forall_take, Forall_drop. rewrite Forall_forall in *.
    intros d [_ Hd]%list_elem_of_filter. by apply Hall.
Qed.

(** The part of C9 that the code keeps: on a store of well-formed item
    records, listing with [available_only=true] is answered 200 with the
    page of the sequence of the records whose availability flag is true, in
    insertion order, and with the length of that sequence as total; a first
    page that is large enough holds exactly those records. *)
Lemma available_only_listing validate_email now page page_size s :
  Forall well_formed_item (PyDict.values (items_db s)) →
  1 ≤ page → 1 ≤ page_size ≤ 100 →
  let available := filter flag_true (PyDict.values (items_db s)) in
  app validate_email now (GET_items page page_size true) s =
    ({| status := 200;
        body := JItemList
          (ItemList.mk (page_of page_size available page)
                       (Z.of_nat (length available)) page page_size) |}, s) ∧
  (Z.of_nat (length available) ≤ page_size →
   page_of page_size available 1 = available).
Proof.
  intros Hall Hp Hk available. split.
  - unfold app, validate_request, checked.
    rewrite query_errors_valid by done. unfold endpoint.
    by rewrite get_items_available by (done || lia).
  - intros Hlen. unfold page_of. simpl. rewrite drop_0. apply take_ge. lia.
Qed.

Lemma available_only_listing_witness :
  let inputs := [(10, sample_item); (11, sample_unavailable); (12, sample_item)] in
  let s := (run Some initial_state (creates inputs)).2 in
  Forall well_formed_item (PyDict.values (items_db s)) ∧
  app Some 13 (GET_items 1 10 true) s =
    ({| status := 200;
        body := JItemList
          (ItemList.mk [expected_item 1 10 sample_item;
                        expected_item 3 12 sample_item] 2 1 10) |}, s).
Proof.
  intros inputs s.
  assert (Forall well_formed_item (PyDict.values (items_db s)))
    as Hall by (repeat constructor).
  split; [done|].
  destruct (available_only_listing Some 13 1 10 s Hall) as [-> _]; [lia..|].
  reflexivity.
Defined.

(** On every state reached without an explicit [null] for a required field
    the records are well formed, so the listing above applies. *)
Lemma available_only_listing_reachable validate_email reqs now page page_size :
  Forall (λ p, null_free p.2) reqs →
  1 ≤ page → 1 ≤ page_size ≤ 100 →
  let s := (run validate_email initial_state reqs).2 in
  let available := filter flag_true (PyDict.values (items_db s)) in
  app validate_email now (GET_items page page_size true) s =
    ({| status := 200;
        body := JItemList
          (ItemList.mk (page_of page_size available page)
                       (Z.of_nat (length available)) page page_size) |}, s).
Proof.
  intros Hnf Hp Hk s available.
  destruct (prices_positive_without_null validate_email reqs Hnf) as [Hwf _].
  unfold app, validate_request, checked.
  rewrite query_errors_valid by done. unfold endpoint.
  by rewrite get_items_available by (done || lia).
Qed.

(** C9. Not in every state of the item store: after an update has written
    [{"name": null}] into the one record of the store, the availability flag
    of that record is still true and the filter selects it, yet the listing
    with [available_only=true] is answered 400 with the error of the
    response model, not with the record and a total of 1. *)
Theorem available_listing_fails_on_null_record validate_email :
  let s := (run validate_email initial_state
              [(10, POST_items sample_item); (11, PUT_item 1 null_name)]).2 in
  let r := app validate_email 12 (GET_items 1 10 true) s in
  ItemUpdate.errors null_name = [] ∧
  (∃ d, PyDict.values (items_db s) = [d] ∧
        d !! "is_available" = Some (PBool true) ∧
        d !! "name" = Some PNone ∧
        filter_key "is_available" (PyDict.values (items_db s)) = Ok [d] ∧
        filter flag_true (PyDict.values (items_db s)) = [d]) ∧
  r.1 = {| status := 400;
           body := JDetail
             (StrOf (ValidationError "ItemResponse"
                       [{| err_loc := ["name"]; err_type := string_type |}])) |} ∧
  r.2 = s.
Proof.
  intros s r. split; [reflexivity|]. split.
  - eexists. split; [reflexivity|]. by repeat split.
  - split; reflexivity.
Qed.

(** ** Validation failures and the store *)

Lemma model_validate_Raise title fields data exc :
  model_validate title fields data = Raise exc →
  ∃ errs, exc = ValidationError title errs.
Proof.
  unfold model_validate. destruct (field_errors _) as [|e errs]; [done|].
  intros [= <-]. eauto.
Qed.

Lemma mapM_Raise {A B} (f : A → result B) l exc :
  mapM f l = Raise exc → ∃ x, x ∈ l ∧ f x = Raise exc.
Proof.
  induction l as [|x l IH]; simpl; [done|].
  destruct (f x) as [y|e] eqn:Hx; simpl.
  - destruct (mapM f l) as [k|e]; simpl; [done|].
    intros [= <-]. destruct IH as (x' & ? & ?); [done|].
    exists x'. split; [by apply list_elem_of_further | done].
  - intros [= <-]. exists x. split; [apply list_elem_of_here | done].
Qed.

Lemma filter_key_Raise k l exc :
  filter_key k l = Raise exc → exc = KeyError k.
Proof.
  induction l as [|d l IH]; simpl; [done|].
  unfold getitem. destruct (d !! k); simpl; [|by intros [= <-]].
  destruct (filter_key k l); simpl; [done|]. intros [= <-]. by apply IH.
Qed.

Lemma check_duplicates_Raise user l exc :
  check_duplicates user l = Raise exc → endpoint_exn exc.
Proof.
  induction l as [|d l IH]; simpl; [done|].
  unfold getitem. destruct (d !! "username"); simpl; [|by intros [= <-]].
  destruct (py_eq_str _ _); [intros [= <-]; simpl; by right|].
  destruct (d !! "email"); simpl; [|by intros [= <-]].
  destruct (py_eq_str _ _); [intros [= <-]; simpl; by right|]. done.
Qed.

Lemma ItemResponse_Raise d exc : ItemResponse d = Raise exc → endpoint_exn exc.
Proof. intros (errs & ->)%model_validate_Raise. done. Qed.

Lemma UserResponse_Raise validate_email d exc :
  UserResponse validate_email d = Raise exc → endpoint_exn exc.
Proof. intros (errs & ->)%model_validate_Raise. done. Qed.

Lemma endpoint_Raise validate_email now req s exc :
  (endpoint validate_email now req s).1 = Raise exc → endpoint_exn exc.
Proof.
  destruct req; simpl.
  - unfold create_item; simpl.
    destruct (ItemResponse _) eqn:E; simpl; [done|]. intros [= <-].
    by eapply ItemResponse_Raise.
  - unfold get_items.
    destruct (if available_only then _ else _) as [all|e] eqn:Ef; simpl.
    + destruct (mapM _ _) as [items|e] eqn:E; simpl; [done|]. intros [= <-].
      apply mapM_Raise in E as (d & _ & E). by eapply ItemResponse_Raise.
    + intros [= <-]. destruct available_only; [|done].
      by apply filter_key_Raise in Ef as ->.
  - unfold get_item. destruct (PyDict.get _ _); simpl.
    + destruct (ItemResponse _) eqn:E; simpl; [done|]. intros [= <-].
      by eapply ItemResponse_Raise.
    + intros [= <-]. simpl. by left.
  - unfold update_item. destruct (PyDict.get _ _); simpl.
    + destruct (ItemResponse _) eqn:E; simpl; [done|]. intros [= <-].
      by eapply ItemResponse_Raise.
    + intros [= <-]. simpl. by left.
  - unfold delete_item. destruct (PyDict.get _ _); simpl; [done|].
    intros [= <-]. simpl. by left.
  - unfold create_user. destruct (check_duplicates _ _) eqn:Ec; simpl.
    + destruct (UserResponse _ _) eqn:E; simpl; [done|]. intros [= <-].
      by eapply UserResponse_Raise.
    + intros [= <-]. by eapply check_duplicates_Raise.
  - unfold get_users.
    destruct (mapM _ _) as [users|e] eqn:E; simpl; [done|]. intros [= <-].
    apply mapM_Raise in E as (d & _ & E). by eapply UserResponse_Raise.
  - unfold get_user. destruct (PyDict.get _ _); simpl.
    + destruct (UserResponse _ _) eqn:E; simpl; [done|]. intros [= <-].
      by eapply UserResponse_Raise.
    + intros [= <-]. simpl. by left.
  - unfold update_user. destruct (PyDict.get _ _); simpl.
    + destruct (UserResponse _ _) eqn:E; simpl; [done|]. intros [= <-].
      by eapply UserResponse_Raise.
    + intros [= <-]. simpl. by left.
  - unfold delete_user. destruct (PyDict.get _ _); simpl; [done|].
    intros [= <-]. simpl. by left.
Qed.

Lemma with_status_Ok {A} code (render : A → content) r resp :
  with_status code render r = Ok resp → status resp = code.
Proof. destruct r; simpl; [by intros [= <-] | done]. Qed.

Lemma endpoint_Ok_status validate_email now req s resp :
  (endpoint validate_email now req s).1 = Ok resp →
  status resp = 200 ∨ status resp = 201 ∨ status resp = 204.
Proof.
  destruct req; cbn [endpoint].
  1: destruct (create_item _ _ _).
  4: destruct (update_item _ _ _ _).
  5: destruct (delete_item _ _).
  6: destruct (create_user _ _ _ _).
  9: destruct (update_user _ _ _ _ _).
  10: destruct (delete_user _ _).
  all: cbn [fst]; intros ->%with_status_Ok; auto.
Qed.

(** The part of C2 that the code keeps: a 422 answer is produced by the
    validation layer, before the endpoint runs, and leaves the state as it
    was. *)
Lemma request_validation_leaves_state validate_email now req s :
  status (app validate_email now req s).1 = 422 →
  (app validate_email now req s).2 = s.
Proof.
  unfold app. destruct (validate_request _ _) as [req'|exc]; [|done].
  pose proof (endpoint_Raise validate_email now req' s) as HR.
  pose proof (endpoint_Ok_status validate_email now req' s) as HO.
  destruct (endpoint _ _ _ _) as [[resp|exc] s']; simpl in *.
  - intros H. destruct (HO resp eq_refl) as [?|[?|?]]; congruence.
  - specialize (HR exc eq_refl). destruct exc; simpl in *; try done.
    intros ->. by destruct HR.
Qed.

(** C2. The update endpoint writes the payload into the stored record and
    only then builds the response model.  With [{"name": null}], which
    [ItemUpdate] accepts, the record is changed, pydantic's
    [ValidationError] is raised afterwards, [value_error_handler] answers
    400, and the record stays unreadable. *)
Theorem update_validates_after_mutation validate_email :
  let s := (app validate_email 10 (POST_items sample_item) initial_state).2 in
  let r := app validate_email 11 (PUT_item 1 null_name) s in
  ItemUpdate.errors null_name = [] ∧
  r.1 = {| status := 400;
           body := JDetail (StrOf (ValidationError "ItemResponse"
                     [{| err_loc := ["name"]; err_type := string_type |}])) |} ∧
  (d ← PyDict.get 1 (items_db s); d !! "name") = Some (PStr "Test Item") ∧
  (d ← PyDict.get 1 (items_db r.2); d !! "name") = Some PNone ∧
  (d ← PyDict.get 1 (items_db r.2); d !! "updated_at") = Some (PDatetime 11) ∧
  r.2 ≠ s ∧
  status (app validate_email 12 (GET_item 1) r.2).1 = 400.
Proof.
  intros s r.
  assert ((d ← PyDict.get 1 (items_db s); d !! "name") = Some (PStr "Test Item"))
    as Hs by reflexivity.
  assert ((d ← PyDict.get 1 (items_db r.2); d !! "name") = Some PNone)
    as Hr by reflexivity.
  split; [reflexivity|]. split; [reflexivity|]. split; [exact Hs|].
  split; [exact Hr|]. split; [reflexivity|]. split; [|reflexivity].
  intros Heq. rewrite Heq in Hr. congruence.
Qed.

(** [update_user] has the same order of mutation and validation. *)
Lemma update_user_validates_after_mutation :
  let s := (app Some 10 (POST_users sample_user) initial_state).2 in
  let r := app Some 11 (PUT_user 1 null_email) s in
  UserUpdate_errors Some null_email = [] ∧
  status (r.1) = 400 ∧
  (d ← PyDict.get 1 (users_db s); d !! "email")
    = Some (PStr "test@example.com") ∧
  (d ← PyDict.get 1 (users_db r.2); d !! "email") = Some PNone ∧
  status (app Some 12 (GET_user 1) r.2).1 = 400.
Proof. repeat split; reflexivity. Qed.

(** ** Prices *)

(** The part of C7 that the code keeps: a create whose price is at most
    zero is answered 422 with the violation of [gt=0], and the state is what
    it was. *)
Lemma create_nonpositive_price_rejected validate_email now item s :
  SFleb (ItemCreate.price item) (S754_zero false) = true →
  ∃ errs,
    app validate_email now (POST_items item) s =
      ({| status := 422; body := JValidation errs |}, s) ∧
    ("body -> price", greater_than) ∈ errs.
Proof.
  intros Hle%SFleb_zero_not_gt.
  unfold app, validate_request, checked.
  assert ({| err_loc := ["body"; "price"]; err_type := greater_than |}
          ∈ ItemCreate.errors item) as Hin.
  { unfold ItemCreate.errors, check_gt0. rewrite Hle. simpl.
    rewrite !elem_of_app. right; right. apply list_elem_of_here. }
  destruct (ItemCreate.errors item) as [|e errs] eqn:He.
  { by apply elem_of_nil in Hin. }
  eexists. split; [reflexivity|].
  by apply (list_elem_of_fmap_2
              (λ e, (String.concat " -> " (err_loc e), err_type e))) in Hin.
Qed.

(** C7. A record of the store can hold no price at all: [ItemUpdate]
    accepts [{"price": null}] and the update writes it into the record. *)
Theorem stored_price_not_always_positive validate_email :
  let s := (app validate_email 10 (POST_items sample_item) initial_state).2 in
  let r := app validate_email 11 (PUT_item 1 null_price) s in
  ItemUpdate.errors null_price = [] ∧
  Forall (λ d, price_positive d = true) (PyDict.values (items_db s)) ∧
  ∃ d, PyDict.get 1 (items_db r.2) = Some d ∧
       d ∈ PyDict.values (items_db r.2) ∧
       d !! "price" = Some PNone ∧
       price_positive d = false.
Proof.
  intros s r. split; [reflexivity|]. split; [by repeat constructor|].
  eexists. split; [reflexivity|].
  split; [apply list_elem_of_here|]. split; reflexivity.
Qed.

(** * Further properties of the endpoints *)

(** ** What a request can do to the state *)

(** The state after a request, case by case. *)
Lemma app_state_cases validate_email now req s :
  let s' := (app validate_email now req s).2 in
  s' = s ∨
  (∃ item, req = POST_items item ∧ ItemCreate.errors item = [] ∧
     s' = set_items
            (PyDict.setitem (item_id_counter s)
               (expected_item (item_id_counter s) now item) (items_db s))
            (item_id_counter s + 1) s) ∨
  (∃ item_id u d, req = PUT_item item_id u ∧ ItemUpdate.errors u = [] ∧
     PyDict.get item_id (items_db s) = Some d ∧
     s' = set_items
            (PyDict.setitem item_id
               (<["updated_at" := PDatetime now]>
                  (dict_update d (ItemUpdate.model_dump u))) (items_db s))
            (item_id_counter s) s) ∨
  (∃ item_id d, req = DELETE_item item_id ∧
     PyDict.get item_id (items_db s) = Some d ∧
     s' = set_items (PyDict.delitem item_id (items_db s)) (item_id_counter s) s) ∨
  (∃ user, req = POST_users user ∧ UserCreate_errors validate_email user = [] ∧
     check_duplicates (UserCreate_normal validate_email user)
       (PyDict.values (users_db s)) = Ok () ∧
     s' = set_users
            (PyDict.setitem (user_id_counter s)
               (expected_user (user_id_counter s) now
                  (UserCreate_normal validate_email user)) (users_db s))
            (user_id_counter s + 1) s) ∨
  (∃ user_id u d, req = PUT_user user_id u ∧
     UserUpdate_errors validate_email u = [] ∧
     PyDict.get user_id (users_db s) = Some d ∧
     s' = set_users
            (PyDict.setitem user_id
               (<["updated_at" := PDatetime now]>
                  (dict_update d
                     (UserUpdate.model_dump (UserUpdate_normal validate_email u))))
               (users_db s))
            (user_id_counter s) s) ∨
  (∃ user_id d, req = DELETE_user user_id ∧
     PyDict.get user_id (users_db s) = Some d ∧
     s' = set_users (PyDict.delitem user_id (users_db s)) (user_id_counter s) s).
Proof.
  cbn zeta. unfold app, validate_request, checked. destruct req.
  - destruct (ItemCreate.errors item) eqn:Hv; [|by left].
    right; left. exists item. unfold endpoint.
    by rewrite (create_item_valid now item s Hv).
  - destruct (query_errors _ _); by left.
  - by left.
  - destruct (ItemUpdate.errors item_update) eqn:Hv; [|by left].
    unfold endpoint, update_item.
    destruct (PyDict.get item_id (items_db s)) as [d|] eqn:E; [|by left].
    do 2 right; left. by exists item_id, item_update, d.
  - unfold endpoint, delete_item.
    destruct (PyDict.get item_id (items_db s)) as [d|] eqn:E; [|by left].
    do 3 right; left. by exists item_id, d.
  - destruct (UserCreate_errors validate_email user) eqn:Hv; [|by left].
    unfold endpoint, create_user.
    destruct (check_duplicates _ _) as [[]|] eqn:Hc; [|by left].
    do 4 right; left. by exists user.
  - destruct (query_errors _ _); by left.
  - by left.
  - destruct (UserUpdate_errors validate_email user_update) eqn:Hv; [|by left].
    unfold endpoint, update_user.
    destruct (PyDict.get user_id (users_db s)) as [d|] eqn:E; [|by left].
    do 5 right; left. by exists user_id, user_update, d.
  - unfold endpoint, delete_user.
    destruct (PyDict.get user_id (users_db s)) as [d|] eqn:E; [|by left].
    do 6 right. by exists user_id, d.
Qed.

(** X1. The two resources are independent and reads are pure: a request of
    the item routes leaves the user store and its counter as they were, a
    request of the user routes leaves the item store and its counter as they
    were, and a GET leaves the whole state as it was, whatever it answers. *)
Theorem stores_are_independent validate_email now req s :
  let s' := (app validate_email now req s).2 in
  (item_request req = true →
     users_db s' = users_db s ∧ user_id_counter s' = user_id_counter s) ∧
  (item_request req = false →
     items_db s' = items_db s ∧ item_id_counter s' = item_id_counter s) ∧
  (read_only req = true → s' = s).
Proof.
  cbn zeta.
  destruct (app_state_cases validate_email now req s)
    as [-> | [(? & -> & _ & ->) | [(? & ? & ? & -> & _ & _ & ->) |
       [(? & ? & -> & _ & ->) | [(? & -> & _ & _ & ->) |
       [(? & ? & ? & -> & _ & _ & ->) | (? & ? & -> & _ & ->)]]]]]];
    by repeat split.
Qed.

Lemma stores_are_independent_witness :
  let s := (run Some initial_state
              [(10, POST_items sample_item); (11, POST_users sample_user)]).2 in
  item_request (DELETE_item 1) = true ∧
  users_db (app Some 12 (DELETE_item 1) s).2 = users_db s ∧
  item_request (DELETE_user 1) = false ∧
  items_db (app Some 12 (DELETE_user 1) s).2 = items_db s ∧
  read_only (GET_items 1 10 true) = true ∧
  (app Some 12 (GET_items 1 10 true) s).2 = s.
Proof.
  intros s.
  destruct (stores_are_independent Some 12 (DELETE_item 1) s) as (Hu & _ & _).
  destruct (stores_are_independent Some 12 (DELETE_user 1) s) as (_ & Hi & _).
  destruct (stores_are_independent Some 12 (GET_items 1 10 true) s)
    as (_ & _ & Hr).
  split; [done|]. split; [by apply Hu|]. split; [done|].
  split; [by apply Hi|]. split; [done|]. by apply Hr.
Defined.

(** ** Failed requests *)

Lemma ItemResponse_not_HTTPException d code detail :
  ItemResponse d ≠ Raise (HTTPException code detail).
Proof. by intros (errs & ?)%model_validate_Raise. Qed.

Lemma UserResponse_not_HTTPException validate_email d code detail :
  UserResponse validate_email d ≠ Raise (HTTPException code detail).
Proof. by intros (errs & ?)%model_validate_Raise. Qed.

Lemma mapM_not_HTTPException {A B} (f : A → result B) l code detail :
  (∀ x, f x ≠ Raise (HTTPException code detail)) →
  mapM f l ≠ Raise (HTTPException code detail).
Proof. intros Hf (x & _ & Hx)%mapM_Raise. by eapply Hf. Qed.

(** An endpoint raises [HTTPException] before it writes anything. *)
Lemma endpoint_HTTPException_state validate_email now req s code detail :
  (endpoint validate_email now req s).1 = Raise (HTTPException code detail) →
  (endpoint validate_email now req s).2 = s.
Proof.
  destruct req; cbn [endpoint].
  - unfold create_item. cbn [fst with_status mbind result_bind].
    destruct (ItemResponse _) eqn:E; [done|]. intros [= ->].
    by apply ItemResponse_not_HTTPException in E.
  - done.
  - done.
  - unfold update_item. destruct (PyDict.get _ _); [|done].
    cbn [fst with_status mbind result_bind].
    destruct (ItemResponse _) eqn:E; [done|]. intros [= ->].
    by apply ItemResponse_not_HTTPException in E.
  - unfold delete_item. by destruct (PyDict.get _ _).
  - unfold create_user. destruct (check_duplicates _ _); [|done].
    cbn [fst with_status mbind result_bind].
    destruct (UserResponse _ _) eqn:E; [done|]. intros [= ->].
    by apply UserResponse_not_HTTPException in E.
  - done.
  - done.
  - unfold update_user. destruct (PyDict.get _ _); [|done].
    cbn [fst with_status mbind result_bind].
    destruct (UserResponse _ _) eqn:E; [done|]. intros [= ->].
    by apply UserResponse_not_HTTPException in E.
  - unfold delete_user. by destruct (PyDict.get _ _).
Qed.

Lemma with_status_Ok_body {A} code (render : A → content) r resp :
  with_status code render r = Ok resp → ∃ a, body resp = render a.
Proof. destruct r; simpl; [intros [= <-]; eauto | done]. Qed.

Lemma endpoint_Ok_body validate_email now req s resp detail :
  (endpoint validate_email now req s).1 = Ok resp → body resp ≠ JDetail detail.
Proof.
  destruct req; cbn [endpoint].
  1: destruct (create_item _ _ _).
  4: destruct (update_item _ _ _ _).
  5: destruct (delete_item _ _).
  6: destruct (create_user _ _ _ _).
  9: destruct (update_user _ _ _ _ _).
  10: destruct (delete_user _ _).
  all: cbn [fst]; intros [? ->]%with_status_Ok_body; done.
Qed.

(** X2. A request that is answered 404 or 422, or with the detail text of
    an [HTTPException] (not found, duplicate username or email), has changed
    nothing: the state is exactly what it was. *)
Theorem failed_requests_leave_state validate_email now req s :
  let r := app validate_email now req s in
  status (r.1) = 404 ∨ status (r.1) = 422 ∨ (∃ d, body (r.1) = JDetail (Text d)) →
  r.2 = s.
Proof.
  cbn zeta. unfold app.
  destruct (validate_request _ _) as [req'|exc]; [|done].
  pose proof (endpoint_Ok_status validate_email now req' s) as HO.
  pose proof (endpoint_Ok_body validate_email now req' s) as HB.
  pose proof (endpoint_Raise validate_email now req' s) as HR.
  pose proof (endpoint_HTTPException_state validate_email now req' s) as HS.
  destruct (endpoint _ _ _ _) as [[resp|exc] s']; cbn [fst snd] in *.
  - intros [H|[H|[d H]]].
    + destruct (HO resp eq_refl) as [?|[?|?]]; congruence.
    + destruct (HO resp eq_refl) as [?|[?|?]]; congruence.
    + by apply (HB resp (Text d)) in H.
  - specialize (HR exc eq_refl).
    destruct exc as [errs|code detail|title errs|key]; simpl in *.
    + done.
    + intros _. by eapply HS.
    + intros [H|[H|[d H]]]; done.
    + intros [H|[H|[d H]]]; done.
Qed.

Lemma failed_requests_leave_state_witness :
  let s := (run Some initial_state
              [(10, POST_items sample_item); (11, POST_users sample_user)]).2 in
  status (app Some 12 (DELETE_item 7) s).1 = 404 ∧
  (app Some 12 (DELETE_item 7) s).2 = s ∧
  status (app Some 12 (PUT_item 1 (ItemUpdate.mk (Some (Some EmptyString))
                                     None None None)) s).1 = 422 ∧
  (app Some 12 (PUT_item 1 (ItemUpdate.mk (Some (Some EmptyString))
                              None None None)) s).2 = s ∧
  body (app Some 12 (POST_users sample_user) s).1
    = JDetail (Text "Username already exists") ∧
  (app Some 12 (POST_users sample_user) s).2 = s.
Proof.
  intros s.
  assert (status (app Some 12 (DELETE_item 7) s).1 = 404) as H1 by reflexivity.
  assert (status (app Some 12 (PUT_item 1 (ItemUpdate.mk (Some (Some EmptyString))
                    None None None)) s).1 = 422) as H2 by reflexivity.
  assert (body (app Some 12 (POST_users sample_user) s).1
          = JDetail (Text "Username already exists")) as H3 by reflexivity.
  split; [exact H1|]. split.
  { apply (failed_requests_leave_state Some 12 (DELETE_item 7) s). by left. }
  split; [exact H2|]. split.
  { apply (failed_requests_leave_state Some 12 _ s). right; by left. }
  split; [exact H3|].
  apply (failed_requests_leave_state Some 12 (POST_users sample_user) s).
  right; right. by eexists.
Defined.

(** ** Identifiers without a record *)

Lemma ItemResponse_status d :
  status (match with_status 200 JRecord (ItemResponse d) with
          | Ok resp => resp
          | Raise exc => handle_exception exc
          end) ≠ 404.
Proof.
  destruct (ItemResponse d) as [r|exc] eqn:E; simpl; [done|].
  by apply model_validate_Raise in E as [errs ->].
Qed.

Lemma UserResponse_status validate_email d :
  status (match with_status 200 JRecord (UserResponse validate_email d) with
          | Ok resp => resp
          | Raise exc => handle_exception exc
          end) ≠ 404.
Proof.
  destruct (UserResponse validate_email d) as [r|exc] eqn:E; simpl; [done|].
  by apply model_validate_Raise in E as [errs ->].
Qed.

(** X3. Items: get, update (with a payload that passes validation) and
    delete of an identifier that has no record are each answered 404 with
    the message that names the identifier; when the identifier has a record
    none of them is answered 404, and the delete is answered 204 without a
    body. *)
Theorem item_not_found_iff_missing validate_email now item_id u s :
  ItemUpdate.errors u = [] →
  (PyDict.get item_id (items_db s) = None →
     (app validate_email now (GET_item item_id) s).1
       = not_found_response "Item" item_id ∧
     (app validate_email now (PUT_item item_id u) s).1
       = not_found_response "Item" item_id ∧
     (app validate_email now (DELETE_item item_id) s).1
       = not_found_response "Item" item_id) ∧
  (is_Some (PyDict.get item_id (items_db s)) →
     status (app validate_email now (GET_item item_id) s).1 ≠ 404 ∧
     status (app validate_email now (PUT_item item_id u) s).1 ≠ 404 ∧
     (app validate_email now (DELETE_item item_id) s).1
       = {| status := 204; body := JNoContent |}).
Proof.
  intros Hv. unfold app, validate_request, checked. rewrite Hv.
  cbn [endpoint]. unfold get_item, update_item, delete_item. split.
  - intros ->. done.
  - intros [d ->]. cbn [fst]. split; [apply ItemResponse_status|].
    split; [apply ItemResponse_status | done].
Qed.

Lemma item_not_found_iff_missing_witness :
  let s := (app Some 10 (POST_items sample_item) initial_state).2 in
  ItemUpdate.errors null_price = [] ∧
  PyDict.get 2 (items_db s) = None ∧
  is_Some (PyDict.get 1 (items_db s)) ∧
  (app Some 11 (GET_item 2) s).1 =
    {| status := 404; body := JDetail (Text "Item with id 2 not found") |} ∧
  status (app Some 11 (GET_item 1) s).1 ≠ 404.
Proof.
  intros s.
  assert (is_Some (PyDict.get 1 (items_db s))) as H1 by (by eexists).
  destruct (item_not_found_iff_missing Some 11 2 null_price s eq_refl)
    as [Hnone _].
  destruct (item_not_found_iff_missing Some 11 1 null_price s eq_refl)
    as [_ Hsome].
  destruct (Hnone eq_refl) as (Hg & _). destruct (Hsome H1) as (Hg1 & _).
  split; [reflexivity|]. split; [reflexivity|]. split; [exact H1|].
  split; [exact Hg | exact Hg1].
Defined.

(** X4. Users: the same for the user routes. *)
Theorem user_not_found_iff_missing validate_email now user_id u s :
  UserUpdate_errors validate_email u = [] →
  (PyDict.get user_id (users_db s) = None →
     (app validate_email now (GET_user user_id) s).1
       = not_found_response "User" user_id ∧
     (app validate_email now (PUT_user user_id u) s).1
       = not_found_response "User" user_id ∧
     (app validate_email now (DELETE_user user_id) s).1
       = not_found_response "User" user_id) ∧
  (is_Some (PyDict.get user_id (users_db s)) →
     status (app validate_email now (GET_user user_id) s).1 ≠ 404 ∧
     status (app validate_email now (PUT_user user_id u) s).1 ≠ 404 ∧
     (app validate_email now (DELETE_user user_id) s).1
       = {| status := 204; body := JNoContent |}).
Proof.
  intros Hv. unfold app, validate_request, checked. rewrite Hv.
  cbn [endpoint]. unfold get_user, update_user, delete_user. split.
  - intros ->. done.
  - intros [d ->]. cbn [fst]. split; [apply UserResponse_status|].
    split; [apply UserResponse_status | done].
Qed.

Lemma user_not_found_iff_missing_witness :
  let s := (app Some 10 (POST_users sample_user) initial_state).2 in
  UserUpdate_errors Some null_email = [] ∧
  PyDict.get 999 (users_db s) = None ∧
  is_Some (PyDict.get 1 (users_db s)) ∧
  (app Some 11 (DELETE_user 999) s).1 =
    {| status := 404; body := JDetail (Text "User with id 999 not found") |} ∧
  (app Some 11 (DELETE_user 1) s).1 = {| status := 204; body := JNoContent |}.
Proof.
  intros s.
  assert (is_Some (PyDict.get 1 (users_db s))) as H1 by (by eexists).
  destruct (user_not_found_iff_missing Some 11 999 null_email s eq_refl)
    as [Hnone _].
  destruct (user_not_found_iff_missing Some 11 1 null_email s eq_refl)
    as [_ Hsome].
  destruct (Hnone eq_refl) as (_ & _ & Hd). destruct (Hsome H1) as (_ & _ & Hd1).
  split; [reflexivity|]. split; [reflexivity|]. split; [exact H1|].
  split; [exact Hd | exact Hd1].
Defined.

(** ** Deleting *)

Lemma filter_all {A} (P : A → Prop) `{∀ x, Decision (P x)} (l : list A) :
  Forall P l → filter P l = l.
Proof.
  induction 1 as [|x l Hx _ IH]; [done|].
  by rewrite filter_cons_True, IH.
Qed.

Lemma delitem_filter {V} (db : list (Z * V)) k :
  NoDup (PyDict.keys db) →
  PyDict.delitem k db = filter (λ kv, kv.1 ≠ k) db.
Proof.
  unfold PyDict.keys. induction db as [|[k' v] db IH]; [done|].
  intros Hnd. simpl in Hnd. apply NoDup_cons in Hnd as [Hnin Hnd].
  cbn [PyDict.delitem]. rewrite filter_cons. cbn [fst].
  destruct (Z.eqb_spec k' k) as [->|Hne].
  - rewrite decide_False by (intros H; by apply H).
    symmetry. apply filter_all. apply Forall_forall. intros [k' v'] Hin Heq.
    simpl in Heq. subst. apply Hnin.
    by apply (list_elem_of_fmap_2 fst) in Hin.
  - rewrite decide_True by done. f_equal. by apply IH.
Qed.

Lemma length_delitem {V} (db : PyDict.t V) k v :
  PyDict.get k db = Some v →
  (length (PyDict.delitem k db) + 1)%nat = length db.
Proof.
  induction db as [|[k' v'] db IH]; simpl; [done|].
  destruct (Z.eqb_spec k' k); simpl; [lia|].
  intros H. rewrite <- (IH H). lia.
Qed.

Lemma app_DELETE_item_found validate_email now item_id d s :
  PyDict.get item_id (items_db s) = Some d →
  app validate_email now (DELETE_item item_id) s =
    ({| status := 204; body := JNoContent |},
     set_items (PyDict.delitem item_id (items_db s)) (item_id_counter s) s).
Proof. intros H. unfold app; simpl. unfold delete_item. by rewrite H. Qed.

Lemma app_DELETE_item_missing validate_email now item_id s :
  PyDict.get item_id (items_db s) = None →
  app validate_email now (DELETE_item item_id) s =
    (not_found_response "Item" item_id, s).
Proof. intros H. unfold app; simpl. unfold delete_item. by rewrite H. Qed.

(** X5. Deleting an item that exists, in a state whose keys are distinct
    (as they are in every state that is reached): the identifier has no
    record afterwards, every other identifier keeps its record, the remaining
    records keep their order, the store is one record shorter, the counter is
    untouched, and a second delete of the identifier is answered 404. *)
Theorem delete_item_removes_only_it validate_email now now' item_id d s :
  state_wf s →
  PyDict.get item_id (items_db s) = Some d →
  let s' := (app validate_email now (DELETE_item item_id) s).2 in
  PyDict.get item_id (items_db s') = None ∧
  (∀ id', id' ≠ item_id →
     PyDict.get id' (items_db s') = PyDict.get id' (items_db s)) ∧
  items_db s' = filter (λ kv, kv.1 ≠ item_id) (items_db s) ∧
  (length (items_db s') + 1)%nat = length (items_db s) ∧
  item_id_counter s' = item_id_counter s ∧
  (app validate_email now' (DELETE_item item_id) s').1
    = not_found_response "Item" item_id.
Proof.
  intros [(_ & Hnd & _) _] Hd. cbn zeta.
  rewrite (app_DELETE_item_found validate_email now item_id d s Hd).
  cbn [snd items_db item_id_counter set_items].
  assert (PyDict.get item_id (PyDict.delitem item_id (items_db s)) = None)
    as Hgone by by apply get_delitem_eq.
  split; [done|]. split; [intros id' Hne; by apply get_delitem_ne|].
  split; [by apply delitem_filter|]. split; [by eapply length_delitem|].
  split; [done|].
  by rewrite app_DELETE_item_missing.
Qed.

Lemma delete_item_removes_only_it_witness :
  let s := (run Some initial_state
              [(10, POST_items sample_item); (11, POST_items sample_unavailable)]).2 in
  let s' := (app Some 12 (DELETE_item 1) s).2 in
  state_wf s ∧
  PyDict.get 1 (items_db s) = Some (expected_item 1 10 sample_item) ∧
  PyDict.get 1 (items_db s') = None ∧
  PyDict.get 2 (items_db s') = Some (expected_item 2 11 sample_unavailable) ∧
  PyDict.keys (items_db s') = [2] ∧
  item_id_counter s' = 3 ∧
  status (app Some 13 (DELETE_item 1) s').1 = 404.
Proof.
  intros s s'.
  assert (state_wf s) as Hwf by apply run_state_wf, initial_state_wf.
  assert (PyDict.get 1 (items_db s) = Some (expected_item 1 10 sample_item))
    as Hd by reflexivity.
  destruct (delete_item_removes_only_it Some 12 13 1 _ s Hwf Hd)
    as (Hgone & Hother & Hfilter & _ & Hc & Hagain).
  fold s' in Hgone, Hother, Hfilter, Hc, Hagain.
  split; [exact Hwf|]. split; [exact Hd|]. split; [exact Hgone|].
  split; [by rewrite Hother|]. split; [by rewrite Hfilter|].
  split; [by rewrite Hc | by rewrite Hagain].
Defined.

Lemma app_DELETE_user_found validate_email now user_id d s :
  PyDict.get user_id (users_db s) = Some d →
  app validate_email now (DELETE_user user_id) s =
    ({| status := 204; body := JNoContent |},
     set_users (PyDict.delitem user_id (users_db s)) (user_id_counter s) s).
Proof. intros H. unfold app; simpl. unfold delete_user. by rewrite H. Qed.

Lemma app_DELETE_user_missing validate_email now user_id s :
  PyDict.get user_id (users_db s) = None →
  app validate_email now (DELETE_user user_id) s =
    (not_found_response "User" user_id, s).
Proof. intros H. unfold app; simpl. unfold delete_user. by rewrite H. Qed.

(** X6. Deleting a user that exists, in a state whose keys are distinct:
    the same effect on the user store. *)
Theorem delete_user_removes_only_it validate_email now now' user_id d s :
  state_wf s →
  PyDict.get user_id (users_db s) = Some d →
  let s' := (app validate_email now (DELETE_user user_id) s).2 in
  PyDict.get user_id (users_db s') = None ∧
  (∀ id', id' ≠ user_id →
     PyDict.get id' (users_db s') = PyDict.get id' (users_db s)) ∧
  users_db s' = filter (λ kv, kv.1 ≠ user_id) (users_db s) ∧
  (length (users_db s') + 1)%nat = length (users_db s) ∧
  user_id_counter s' = user_id_counter s ∧
  (app validate_email now' (DELETE_user user_id) s').1
    = not_found_response "User" user_id.
Proof.
  intros [_ (_ & Hnd & _)] Hd. cbn zeta.
  rewrite (app_DELETE_user_found validate_email now user_id d s Hd).
  cbn [snd users_db user_id_counter set_users].
  assert (PyDict.get user_id (PyDict.delitem user_id (users_db s)) = None)
    as Hgone by by apply get_delitem_eq.
  split; [done|]. split; [intros id' Hne; by apply get_delitem_ne|].
  split; [by apply delitem_filter|]. split; [by eapply length_delitem|].
  split; [done|].
  by rewrite app_DELETE_user_missing.
Qed.

Lemma delete_user_removes_only_it_witness :
  let s := (run Some initial_state [(10, POST_users sample_user)]).2 in
  let s' := (app Some 12 (DELETE_user 1) s).2 in
  state_wf s ∧
  is_Some (PyDict.get 1 (users_db s)) ∧
  PyDict.get 1 (users_db s') = None ∧
  users_db s' = [] ∧
  user_id_counter s' = 2 ∧
  status (app Some 13 (DELETE_user 1) s').1 = 404.
Proof.
  intros s s'.
  assert (state_wf s) as Hwf by apply run_state_wf, initial_state_wf.
  assert (PyDict.get 1 (users_db s) = Some (expected_user 1 10 sample_user))
    as Hd by reflexivity.
  destruct (delete_user_removes_only_it Some 12 13 1 _ s Hwf Hd)
    as (Hgone & _ & Hfilter & _ & Hc & Hagain).
  fold s' in Hgone, Hfilter, Hc, Hagain.
  split; [exact Hwf|]. split; [by eexists|]. split; [exact Hgone|].
  split; [by rewrite Hfilter|].
  split; [by rewrite Hc | by rewrite Hagain].
Defined.

(** ** Updating *)

(** X7. Reading after writing: when the payload of an update passes
    validation, a get of the same identifier right after it is answered
    exactly as the update was: the same record on success, the same 404
    when there is no record, and the same 400 when the record cannot be
    turned into a response.  For items and for users. *)
Theorem update_then_get_agree validate_email now now' id u uu s :
  ItemUpdate.errors u = [] →
  UserUpdate_errors validate_email uu = [] →
  (app validate_email now' (GET_item id)
       (app validate_email now (PUT_item id u) s).2).1
    = (app validate_email now (PUT_item id u) s).1 ∧
  (app validate_email now' (GET_user id)
       (app validate_email now (PUT_user id uu) s).2).1
    = (app validate_email now (PUT_user id uu) s).1.
Proof.
  intros Hu Huu. unfold app, validate_request, checked. rewrite Hu, Huu.
  cbn [endpoint]. unfold update_item, get_item, update_user, get_user. split.
  - destruct (PyDict.get id (items_db s)) as [d|] eqn:E; cbn [fst snd].
    + cbn [items_db set_items]. by rewrite get_setitem_eq.
    + by rewrite E.
  - destruct (PyDict.get id (users_db s)) as [d|] eqn:E; cbn [fst snd].
    + cbn [users_db set_users]. by rewrite get_setitem_eq.
    + by rewrite E.
Qed.

Lemma update_then_get_agree_witness :
  let s := (run Some initial_state
              [(10, POST_items sample_item); (11, POST_users sample_user)]).2 in
  let u := ItemUpdate.mk None None None (Some (Some false)) in
  let uu := UserUpdate.mk None (Some (Some "Updated Name")) None in
  ItemUpdate.errors u = [] ∧ UserUpdate_errors Some uu = [] ∧
  status (app Some 12 (PUT_item 1 u) s).1 = 200 ∧
  (app Some 13 (GET_item 1) (app Some 12 (PUT_item 1 u) s).2).1
    = (app Some 12 (PUT_item 1 u) s).1 ∧
  (app Some 13 (GET_user 1) (app Some 12 (PUT_user 1 uu) s).2).1
    = (app Some 12 (PUT_user 1 uu) s).1.
Proof.
  intros s u uu.
  destruct (update_then_get_agree Some 12 13 1 u uu s eq_refl eq_refl)
    as [Hi Hu].
  split; [reflexivity|]. split; [reflexivity|]. split; [reflexivity|].
  split; [exact Hi | exact Hu].
Defined.

(** X8. Updating an existing user with a payload that passes validation
    changes the three fields a payload can carry and no others: [email]
    becomes the address in normal form (no other record is consulted),
    [full_name] what was sent, and [password] is written into the record as
    it was sent; an absent field keeps its value, [updated_at] becomes the
    time of the update, every other key and every other record keep their
    values, and the keys and the counter of the store are untouched. *)
Theorem partial_update_user validate_email now user_id u s d :
  PyDict.get user_id (users_db s) = Some d →
  UserUpdate_errors validate_email u = [] →
  ∃ d', let s' := (app validate_email now (PUT_user user_id u) s).2 in
    PyDict.get user_id (users_db s') = Some d' ∧
    d' !! "email" =
      updated_field PStr (UserUpdate.email (UserUpdate_normal validate_email u))
                    (d !! "email") ∧
    d' !! "full_name" =
      updated_field PStr (UserUpdate.full_name u) (d !! "full_name") ∧
    d' !! "password" =
      updated_field PStr (UserUpdate.password u) (d !! "password") ∧
    d' !! "updated_at" = Some (PDatetime now) ∧
    (∀ k, k ∉ ["email"; "full_name"; "password"; "updated_at"] →
          d' !! k = d !! k) ∧
    (∀ id', id' ≠ user_id →
          PyDict.get id' (users_db s') = PyDict.get id' (users_db s)) ∧
    PyDict.keys (users_db s') = PyDict.keys (users_db s) ∧
    user_id_counter s' = user_id_counter s.
Proof.
  intros Hd Hv.
  eexists. cbn zeta.
  unfold app, validate_request, checked, endpoint. rewrite Hv.
  pose proof (update_user_found validate_email now user_id
                (UserUpdate_normal validate_email u) s d Hd) as Hs.
  destruct (update_user validate_email now user_id _ s) as [r s'].
  cbn [snd] in *. subst s'. cbn [users_db user_id_counter set_users].
  rewrite get_setitem_eq. split; [done|].
  rewrite !lookup_insert_ne, lookup_insert_eq by done.
  rewrite !UserUpdate_dump_lookup. repeat (split; [done|]).
  split; [|split; [|split]]; [| | |done].
  - intros k Hk. rewrite !not_elem_of_cons in Hk.
    destruct Hk as (? & ? & ? & ? & _).
    rewrite lookup_insert_ne, UserUpdate_dump_lookup by done.
    by repeat case_decide.
  - intros id' Hne. by apply get_setitem_ne.
  - apply keys_setitem_present. by eapply get_Some_key.
Qed.

Lemma partial_update_user_witness :
  let s := (app Some 10 (POST_users sample_user) initial_state).2 in
  let u := UserUpdate.mk None None (Some (Some "anotherpassword")) in
  is_Some (PyDict.get 1 (users_db s)) ∧ UserUpdate_errors Some u = [] ∧
  ∃ d', PyDict.get 1 (users_db (app Some 11 (PUT_user 1 u) s).2) = Some d' ∧
        d' !! "email" = Some (PStr "test@example.com") ∧
        d' !! "password" = Some (PStr "anotherpassword") ∧
        d' !! "updated_at" = Some (PDatetime 11).
Proof.
  intros s u.
  assert (PyDict.get 1 (users_db s) = Some (expected_user 1 10 sample_user))
    as Hd by reflexivity.
  split; [by eexists|]. split; [reflexivity|].
  destruct (partial_update_user Some 11 1 u s _ Hd eq_refl)
    as (d' & Hg & Hemail & _ & Hpw & Hup & _).
  exists d'. split; [exact Hg|]. split; [exact Hemail|].
  split; [exact Hpw | exact Hup].
Defined.

(** ** Creating a user *)

Lemma check_duplicates_find user l :
  Forall has_user_keys l →
  check_duplicates user l =
    match list_find (λ d, conflicts user d) l with
    | Some (_, d) =>
        Raise (HTTPException 400
                 (if shares_username user d then "Username already exists"
                  else "Email already exists"))
    | None => Ok ()
    end.
Proof.
  induction 1 as [|d l [[u Hu] [e He]] _ IH]; [done|].
  assert (shares_username user d = py_eq_str u (UserCreate.username user))
    as Hsu by (unfold shares_username; by rewrite Hu).
  assert (shares_email user d = py_eq_str e (UserCreate.email user))
    as Hse by (unfold shares_email; by rewrite He).
  cbn [check_duplicates list_find]. unfold getitem. rewrite Hu, He.
  cbn [mbind result_bind].
  destruct (decide (conflicts user d)) as [Hc|Hc];
    unfold conflicts in Hc; rewrite Hsu, Hse in Hc.
  - rewrite Hsu. destruct (py_eq_str u _); [done|].
    by destruct (py_eq_str e _).
  - destruct (py_eq_str u _); [by destruct Hc|].
    destruct (py_eq_str e _); [by destruct Hc|].
    rewrite IH. by destruct (list_find _ l) as [[i x]|].
Qed.

Lemma UserCreate_errors_nil validate_email user :
  UserCreate_errors validate_email user = [] ↔
  check_email validate_email (UserCreate.email user) = None ∧
  check_length (Some 3) (Some 50) (UserCreate.username user) = None ∧
  check_length (Some 8) (Some 100) (UserCreate.password user) = None.
Proof.
  unfold UserCreate_errors. rewrite !app_nil, !at_loc_nil. tauto.
Qed.

Lemma expected_user_fields id now user :
  let d := expected_user id now user in
  d !! "id" = Some (PInt id) ∧
  d !! "email" = Some (PStr (UserCreate.email user)) ∧
  d !! "username" = Some (PStr (UserCreate.username user)) ∧
  d !! "full_name" = Some (opt_str (UserCreate.full_name user)) ∧
  d !! "is_active" = Some (PBool true) ∧
  d !! "created_at" = Some (PDatetime now) ∧
  d !! "updated_at" = Some PNone ∧
  d !! "password" = None.
Proof. repeat split; reflexivity. Qed.

(** The response model of a new user record passes the address through
    the email check once more: the answer carries what the check returns,
    and a refused address is the one error of the model. *)
Lemma UserResponse_expected_user validate_email id now user :
  check_length (Some 3) (Some 50) (UserCreate.username user) = None →
  UserResponse validate_email (expected_user id now user) =
    match validate_email (UserCreate.email user) with
    | Some e =>
        Ok (expected_user id now
              (UserCreate.mk e (UserCreate.username user)
                 (UserCreate.full_name user) (UserCreate.password user)))
    | None =>
        Raise (ValidationError "UserResponse"
                 [{| err_loc := ["email"]; err_type := value_error |}])
    end.
Proof.
  intros Hu.
  destruct (expected_user_fields id now user)
    as (H1 & H2 & H3 & H4 & H5 & H6 & H7 & _).
  unfold UserResponse, model_validate.
  cbn [fmap list_fmap UserResponse_fields fst snd].
  rewrite H1, H2, H3, H4, H5, H6, H7.
  cbn [validate_field v_str v_optional v_email v_bool v_int v_datetime].
  rewrite Hu.
  assert (v_optional (v_str None None) (opt_str (UserCreate.full_name user))
          = inr (opt_str (UserCreate.full_name user))) as ->.
  { by destruct (UserCreate.full_name user). }
  by destruct (validate_email (UserCreate.email user)).
Qed.

(** X9. What a create of a user does, in every state reached from the
    initial one, for a payload that passes validation.  The records are
    scanned in insertion order: the first one that has the username or the
    (normal-form) email of the payload decides the message of the 400, the
    username being looked at first, and nothing is stored.  When no record
    has either, a record without any [password] key is appended under the
    counter, which advances, and the response model passes the stored
    address through the email check once more: the answer is 201 with the
    stored record, its [email] being what the check returns (the stored
    record itself when the normal form is stable), and it is 400, the
    record being stored all the same, when the check refuses the normal
    form. *)
Theorem create_user_outcome validate_email reqs now user :
  let s := (run validate_email initial_state reqs).2 in
  let user' := UserCreate_normal validate_email user in
  let c := user_id_counter s in
  UserCreate_errors validate_email user = [] →
  match list_find (λ d, conflicts user' d) (PyDict.values (users_db s)) with
  | Some (_, d) =>
      app validate_email now (POST_users user) s =
        ({| status := 400;
            body := JDetail (Text (if shares_username user' d
                                   then "Username already exists"
                                   else "Email already exists")) |}, s)
  | None =>
      (app validate_email now (POST_users user) s).2 =
        set_users (users_db s ++ [(c, expected_user c now user')]) (c + 1) s ∧
      expected_user c now user' !! "password" = None ∧
      (app validate_email now (POST_users user) s).1 =
        match validate_email (UserCreate.email user') with
        | Some e =>
            {| status := 201;
               body := JRecord
                 (expected_user c now
                    (UserCreate.mk e (UserCreate.username user)
                       (UserCreate.full_name user)
                       (UserCreate.password user))) |}
        | None =>
            {| status := 400;
               body := JDetail
                 (StrOf (ValidationError "UserResponse"
                           [{| err_loc := ["email"];
                               err_type := value_error |}])) |}
        end
  end.
Proof.
  intros s user' c Hv.
  assert (Forall has_user_keys (PyDict.values (users_db s))) as Hkeys.
  { apply run_user_keys. constructor. }
  pose proof (run_state_wf validate_email initial_state reqs initial_state_wf)
    as [_ Hwf]. fold s in Hwf.
  pose proof (check_duplicates_find user' _ Hkeys) as Hc.
  unfold app, validate_request, checked. rewrite Hv.
  cbn [endpoint]. unfold create_user. fold user'. rewrite Hc.
  destruct (list_find _ _) as [[i d]|]; [done|].
  change (mkdict _) with (expected_user c now user').
  cbn [fst snd]. split; [|split; [reflexivity|]].
  - by rewrite setitem_fresh by by apply db_wf_fresh.
  - rewrite UserResponse_expected_user.
    + by destruct (validate_email (UserCreate.email user')).
    + by apply UserCreate_errors_nil in Hv as (_ & ? & _).
Qed.

Lemma create_user_outcome_witness :
  let s := (run Some initial_state [(10, POST_users sample_user)]).2 in
  let same_email :=
    UserCreate.mk "test@example.com" "someone" None "password456" in
  let fresh := UserCreate.mk "new@example.com" "newuser" None "password456" in
  UserCreate_errors Some same_email = [] ∧ UserCreate_errors Some fresh = [] ∧
  app Some 11 (POST_users same_email) s =
    ({| status := 400; body := JDetail (Text "Email already exists") |}, s) ∧
  PyDict.keys (users_db (app Some 11 (POST_users fresh) s).2) = [1; 2] ∧
  (app Some 11 (POST_users fresh) s).1 =
    {| status := 201; body := JRecord (expected_user 2 11 fresh) |}.
Proof.
  intros s same_email fresh.
  pose proof (create_user_outcome Some [(10, POST_users sample_user)]
                11 same_email eq_refl) as H1.
  pose proof (create_user_outcome Some [(10, POST_users sample_user)]
                11 fresh eq_refl) as H2.
  fold s in H1, H2. cbn in H1, H2.
  destruct H2 as (Hst & _ & Hresp).
  split; [reflexivity|]. split; [reflexivity|]. split; [exact H1|].
  split; [by rewrite Hst | exact Hresp].
Defined.

(** ** Invariants of the stores *)

Lemma get_Some_elem {V} (db : list (Z * V)) k v :
  PyDict.get k db = Some v → (k, v) ∈ db.
Proof.
  induction db as [|[k' v'] db IH]; simpl; [done|].
  destruct (Z.eqb_spec k' k) as [->|Hne].
  - intros [= ->]. apply list_elem_of_here.
  - intros H. apply list_elem_of_further. by apply IH.
Qed.

Lemma setitem_Forall {V} (Q : Z * V → Prop) (db : list (Z * V)) k v :
  Forall Q db → Q (k, v) → Forall Q (PyDict.setitem k v db).
Proof.
  intros Hall Hkv. induction Hall as [|[k' v'] db Hx Hall IH]; simpl.
  - by repeat constructor.
  - destruct (k' =? k); constructor; auto.
Qed.

Lemma delitem_sublist {V} (db : list (Z * V)) k :
  PyDict.delitem k db `sublist_of` db.
Proof.
  induction db as [|[k' v] db IH]; simpl; [done|].
  destruct (k' =? k); [by apply sublist_cons | by apply sublist_skip].
Qed.

Lemma delitem_Forall {V} (Q : Z * V → Prop) (db : list (Z * V)) k :
  Forall Q db → Forall Q (PyDict.delitem k db).
Proof.
  rewrite !Forall_forall. intros Hall x Hx. apply Hall.
  eapply elem_of_sublist; [exact Hx | apply delitem_sublist].
Qed.

Lemma StronglySorted_sublist_lt (l1 l2 : list Z) :
  l1 `sublist_of` l2 → StronglySorted Z.lt l2 → StronglySorted Z.lt l1.
Proof.
  induction 1 as [|x l1 l2 Hsub IH|x l1 l2 Hsub IH]; [done| |].
  - rewrite !StronglySorted_cons. intros [Hx Hs]. split; [|by apply IH].
    rewrite Forall_forall in *. intros y Hy. apply Hx.
    by eapply elem_of_sublist.
  - rewrite StronglySorted_cons. intros [_ Hs]. by apply IH.
Qed.

(** Keys in insertion order are in ascending order. *)
Lemma store_step_sorted P R db c db' c' :
  store_step P R db c db' c' → db_wf db c →
  StronglySorted Z.lt (PyDict.keys db) →
  StronglySorted Z.lt (PyDict.keys db').
Proof.
  intros Hstep Hwf Hs. pose proof Hwf as (_ & _ & Hb).
  destruct Hstep as [|d _|k d d' Hk _|k d Hk].
  - done.
  - rewrite (setitem_fresh db c d) by by apply db_wf_fresh.
    unfold PyDict.keys in *. rewrite fmap_app. simpl.
    apply StronglySorted_app. split; [|split; [done|repeat constructor]].
    intros x1 x2 H1 ->%list_elem_of_singleton.
    rewrite Forall_forall in Hb. by apply Hb.
  - rewrite keys_setitem_present by by eapply get_Some_key. done.
  - eapply StronglySorted_sublist_lt; [apply keys_delitem_sublist | done].
Qed.

Lemma app_entries_ok validate_email now req s :
  Forall item_entry_ok (items_db s) → Forall user_entry_ok (users_db s) →
  let s' := (app validate_email now req s).2 in
  Forall item_entry_ok (items_db s') ∧ Forall user_entry_ok (users_db s').
Proof.
  intros Hi Hu. cbn zeta.
  destruct (app_state_cases validate_email now req s)
    as [-> | [(item & _ & _ & ->) | [(id & u & d & _ & _ & Hd & ->) |
       [(id & d & _ & _ & ->) | [(user & _ & Hv & _ & ->) |
       [(id & u & d & _ & _ & Hd & ->) | (id & d & _ & _ & ->)]]]]]];
    cbn [items_db users_db set_items set_users]; (split; [|try done]);
    try done.
  - apply setitem_Forall; [done|].
    destruct (expected_item_lookup (item_id_counter s) now item)
      as (H1 & _ & _ & _ & H5 & H6 & _).
    split; [done|]. split; [by eexists | right; by eexists].
  - apply setitem_Forall; [done|].
    apply get_Some_elem in Hd. rewrite Forall_forall in Hi.
    destruct (Hi _ Hd) as (H1 & [t H2] & H3).
    unfold item_entry_ok. cbn [fst snd] in *. split; [|split].
    + by rewrite lookup_insert_ne, ItemUpdate_dump_lookup.
    + exists t. by rewrite lookup_insert_ne, ItemUpdate_dump_lookup.
    + rewrite lookup_insert_ne, ItemUpdate_dump_lookup by done. simpl.
      destruct (ItemUpdate.is_available u) as [[b|]|]; simpl;
        [right; by eexists | by left | done].
  - by apply delitem_Forall.
  - apply setitem_Forall; [done|].
    destruct (expected_user_fields (user_id_counter s) now
                (UserCreate_normal validate_email user))
      as (H1 & H2 & H3 & _ & H5 & H6 & _).
    apply UserCreate_errors_nil in Hv as (_ & Hlen & _).
    split; [done|]. split; [done|].
    split; [|split; [by eexists | right; by eexists]].
    eexists. split; [exact H3|]. simpl.
    unfold check_length in Hlen.
    destruct (Z.ltb_spec (len (UserCreate.username user)) 3); [done|].
    destruct (Z.ltb_spec 50 (len (UserCreate.username user))); [done|]. lia.
  - apply setitem_Forall; [done|].
    apply get_Some_elem in Hd. rewrite Forall_forall in Hu.
    destruct (Hu _ Hd) as (H1 & H2 & (n & H3 & Hn) & [t H4] & H5).
    unfold user_entry_ok. cbn [fst snd] in *.
    split; [|split; [|split; [|split]]].
    + by rewrite lookup_insert_ne, UserUpdate_dump_lookup.
    + by rewrite lookup_insert_ne, UserUpdate_dump_lookup.
    + exists n. by rewrite lookup_insert_ne, UserUpdate_dump_lookup.
    + exists t. by rewrite lookup_insert_ne, UserUpdate_dump_lookup.
    + rewrite lookup_insert_ne, UserUpdate_dump_lookup by done.
      generalize (UserUpdate.email (UserUpdate_normal validate_email u)).
      intros x. destruct x as [[e|]|]; simpl;
        [right; by eexists | by left | done].
  - by apply delitem_Forall.
Qed.

Lemma check_duplicates_Ok user l :
  check_duplicates user l = Ok () →
  Forall (λ d, d !! "username" ≠ Some (PStr (UserCreate.username user)) ∧
               d !! "email" ≠ Some (PStr (UserCreate.email user))) l.
Proof.
  induction l as [|d l IH]; [constructor|].
  cbn [check_duplicates]. unfold getitem.
  destruct (d !! "username") as [u|] eqn:Hu; [|done]. cbn [mbind result_bind].
  destruct (py_eq_str u _) eqn:Eu; [done|].
  destruct (d !! "email") as [e|] eqn:He; [|done]. cbn [mbind result_bind].
  destruct (py_eq_str e _) eqn:Ee; [done|].
  intros H. constructor; [|by apply IH]. split.
  - rewrite Hu. intros [= ->]. simpl in Eu. by rewrite String.eqb_refl in Eu.
  - rewrite He. intros [= ->]. simpl in Ee. by rewrite String.eqb_refl in Ee.
Qed.

Lemma fmap_values_setitem {B} (f : dict → B) (db : list (Z * dict)) k d d' :
  PyDict.get k db = Some d → f d' = f d →
  f <$> PyDict.values (PyDict.setitem k d' db) = f <$> PyDict.values db.
Proof.
  unfold PyDict.values. intros Hk Hf.
  induction db as [|[k' v] db IH]; simpl in *; [done|].
  destruct (Z.eqb_spec k' k) as [->|Hne]; simpl.
  - injection Hk as ->. by rewrite Hf.
  - f_equal. by apply IH.
Qed.

Lemma initial_state_inv : state_inv initial_state.
Proof.
  split; [apply initial_state_wf|]. repeat split; constructor.
Qed.

Lemma app_state_inv validate_email now req s :
  state_inv s → state_inv (app validate_email now req s).2.
Proof.
  intros (Hwf & Hi & Hu & Hsi & Hsu & Hnd).
  pose proof (app_state_wf validate_email now req s Hwf) as Hwf'.
  destruct (app_entries_ok validate_email now req s Hi Hu) as [Hi' Hu'].
  pose proof (app_items_step validate_email now req s) as Hstepi.
  pose proof (app_users_step validate_email now req s) as Hstepu.
  destruct Hwf as [Hwfi Hwfu].
  split; [done|]. split; [done|]. split; [done|].
  split; [by eapply store_step_sorted|].
  split; [by eapply store_step_sorted|].
  clear Hstepi Hstepu Hwf' Hi' Hu'. unfold usernames in *.
  destruct (app_state_cases validate_email now req s)
    as [-> | [(item & _ & _ & ->) | [(id & u & d & _ & _ & Hd & ->) |
       [(id & d & _ & _ & ->) | [(user & _ & Hv & Hc & ->) |
       [(id & u & d & _ & _ & Hd & ->) | (id & d & _ & _ & ->)]]]]]];
    cbn [users_db set_items set_users]; try done.
  - rewrite setitem_fresh by by apply db_wf_fresh.
    unfold PyDict.values in *. rewrite !fmap_app. simpl.
    apply NoDup_app. split; [done|]. split; [|apply NoDup_singleton].
    intros x Hx ->%list_elem_of_singleton.
    apply check_duplicates_Ok in Hc.
    apply list_elem_of_fmap in Hx as (d & Heq & Hin).
    rewrite Forall_forall in Hc. destruct (Hc d Hin) as [Hne _].
    apply Hne. by rewrite <- Heq.
  - erewrite fmap_values_setitem; [done | exact Hd |].
    by rewrite lookup_insert_ne, UserUpdate_dump_lookup.
  - eapply sublist_NoDup; [exact Hnd|].
    unfold PyDict.values. do 2 apply fmap_sublist. apply delitem_sublist.
Qed.

Lemma run_state_inv validate_email s reqs :
  state_inv s → state_inv (run validate_email s reqs).2.
Proof.
  revert s. induction reqs as [|[now req] reqs IH]; intros s Hinv; simpl; [done|].
  pose proof (app_state_inv validate_email now req s Hinv) as Hinv'.
  destruct (app _ _ _ _) as [r s']. specialize (IH s' Hinv').
  by destruct (run _ _ _) as [rs s''].
Qed.

(** X10. In every state reached from the initial one each stored record
    carries the key it is stored under as its [id] and a creation time;
    every item record has an [is_available] key that holds a boolean or
    null; every user record is active, has a username of 3 to 50 characters
    and an [email] key that holds a string or null (null after an update
    that sent one); and both stores list their records in ascending order
    of identifier. *)
Theorem stored_records_invariants validate_email reqs :
  let s := (run validate_email initial_state reqs).2 in
  Forall item_entry_ok (items_db s) ∧
  Forall user_entry_ok (users_db s) ∧
  StronglySorted Z.lt (PyDict.keys (items_db s)) ∧
  StronglySorted Z.lt (PyDict.keys (users_db s)).
Proof.
  intros s.
  destruct (run_state_inv validate_email initial_state reqs initial_state_inv)
    as (_ & Hi & Hu & Hsi & Hsu & _).
  done.
Qed.

(** X11. In every state reached from the initial one no two stored users
    have the same username: a create is refused when the username is taken,
    and no update can write a username. *)
Theorem usernames_unique validate_email reqs :
  NoDup (usernames (run validate_email initial_state reqs).2).
Proof.
  by destruct (run_state_inv validate_email initial_state reqs
                 initial_state_inv) as (_ & _ & _ & _ & _ & ?).
Qed.

(** ** No internal error *)

Lemma filter_key_Ok k l :
  Forall (λ d : dict, is_Some (d !! k)) l → ∃ r, filter_key k l = Ok r.
Proof.
  induction 1 as [|d l [v Hv] _ [r IH]]; [by eexists|].
  cbn [filter_key]. unfold getitem. rewrite Hv, IH. by eexists.
Qed.

Lemma validate_request_Raise validate_email req exc :
  validate_request validate_email req = Raise exc →
  ∃ errs, exc = RequestValidationError errs.
Proof.
  destruct req; simpl; unfold checked; try done.
  all: destruct (_ : list field_error); [done|]; intros [= <-]; eauto.
Qed.

Lemma endpoint_no_KeyError validate_email now req s key :
  Forall item_entry_ok (items_db s) → Forall user_entry_ok (users_db s) →
  (endpoint validate_email now req s).1 ≠ Raise (KeyError key).
Proof.
  intros Hi Hu.
  assert (∀ d, ItemResponse d ≠ Raise (KeyError key)) as HI.
  { by intros d (errs & ?)%model_validate_Raise. }
  assert (∀ d, UserResponse validate_email d ≠ Raise (KeyError key)) as HU.
  { by intros d (errs & ?)%model_validate_Raise. }
  destruct req; cbn [endpoint].
  - unfold create_item. cbn [fst with_status mbind result_bind].
    destruct (ItemResponse _) eqn:E; [done|]. intros [= ->]. by eapply HI.
  - unfold get_items. cbn [fst with_status].
    assert (∃ all, (if available_only
                    then filter_key "is_available" (PyDict.values (items_db s))
                    else Ok (PyDict.values (items_db s))) = Ok all)
      as [all ->].
    { destruct available_only; [|by eexists]. apply filter_key_Ok.
      unfold PyDict.values. apply Forall_fmap.
      eapply Forall_impl; [exact Hi|].
      intros [k d] (_ & _ & H). simpl in *.
      destruct H as [H | [b H]]; by rewrite H. }
    cbn [mbind result_bind].
    destruct (mapM _ _) eqn:E; [done|]. intros [= ->].
    apply mapM_Raise in E as (d & _ & E). by eapply HI.
  - unfold get_item. destruct (PyDict.get _ _); [|done].
    cbn [fst with_status mbind result_bind].
    destruct (ItemResponse _) eqn:E; [done|]. intros [= ->]. by eapply HI.
  - unfold update_item. destruct (PyDict.get _ _); [|done].
    cbn [fst with_status mbind result_bind].
    destruct (ItemResponse _) eqn:E; [done|]. intros [= ->]. by eapply HI.
  - unfold delete_item. by destruct (PyDict.get _ _).
  - unfold create_user. rewrite check_duplicates_find.
    + destruct (list_find _ _) as [[i d]|]; [done|].
      cbn [fst with_status mbind result_bind].
      destruct (UserResponse _ _) eqn:E; [done|]. intros [= ->]. by eapply HU.
    + unfold PyDict.values. apply Forall_fmap.
      eapply Forall_impl; [exact Hu|].
      intros [k d] (_ & _ & (u & Hun & _) & _ & He). simpl in *.
      split; [by eexists|]. destruct He as [He | [e He]]; by rewrite He.
  - unfold get_users. cbn [fst with_status mbind result_bind].
    destruct (mapM _ _) eqn:E; [done|]. intros [= ->].
    apply mapM_Raise in E as (d & _ & E). by eapply HU.
  - unfold get_user. destruct (PyDict.get _ _); [|done].
    cbn [fst with_status mbind result_bind].
    destruct (UserResponse _ _) eqn:E; [done|]. intros [= ->]. by eapply HU.
  - unfold update_user. destruct (PyDict.get _ _); [|done].
    cbn [fst with_status mbind result_bind].
    destruct (UserResponse _ _) eqn:E; [done|]. intros [= ->]. by eapply HU.
  - unfold delete_user. by destruct (PyDict.get _ _).
Qed.

Lemma app_status_inv validate_email now req s :
  state_inv s →
  status (app validate_email now req s).1 ∈ [200; 201; 204; 400; 404; 422].
Proof.
  intros (_ & Hi & Hu & _). unfold app.
  destruct (validate_request _ _) as [req'|exc] eqn:Hv.
  - pose proof (endpoint_Ok_status validate_email now req' s) as HO.
    pose proof (endpoint_Raise validate_email now req' s) as HR.
    pose proof (endpoint_no_KeyError validate_email now req' s) as HK.
    destruct (endpoint _ _ _ _) as [[resp|exc] s']; cbn [fst snd] in *.
    + rewrite !elem_of_cons. destruct (HO resp eq_refl) as [?|[?|?]]; auto.
    + specialize (HR exc eq_refl).
      destruct exc as [errs|code detail|title errs|key]; simpl in *.
      * done.
      * rewrite !elem_of_cons. destruct HR as [-> | ->]; auto 10.
      * rewrite !elem_of_cons. auto.
      * by destruct (HK key Hi Hu).
  - apply validate_request_Raise in Hv as [errs ->]. simpl.
    rewrite !elem_of_cons. auto 10.
Qed.

(** X12. From the initial state, whatever requests are made, no answer is
    a 500: the lookups by key in the filter of the listing and in the scan
    for duplicates always find their key, so the handler of unexpected
    exceptions is never reached; every answer is 200, 201, 204, 400, 404 or
    422. *)
Theorem no_internal_error validate_email reqs resp :
  resp ∈ (run validate_email initial_state reqs).1 →
  status resp ∈ [200; 201; 204; 400; 404; 422].
Proof.
  generalize initial_state_inv. generalize initial_state. intros s Hinv.
  revert s Hinv. induction reqs as [|[now req] reqs IH]; intros s Hinv; simpl.
  - intros H. by apply elem_of_nil in H.
  - pose proof (app_status_inv validate_email now req s Hinv) as Hst.
    pose proof (app_state_inv validate_email now req s Hinv) as Hinv'.
    destruct (app _ _ _ _) as [r s']. specialize (IH s' Hinv').
    destruct (run _ _ _) as [rs s'']. cbn [fst snd] in *.
    rewrite elem_of_cons. intros [-> | Hin]; [done | by apply IH].
Qed.

Lemma no_internal_error_witness :
  let reqs :=
    [ (10, POST_items sample_item); (11, PUT_item 1 null_name);
      (12, GET_items 1 10 true); (13, POST_users sample_user);
      (14, POST_users sample_user) ] in
  status <$> (run Some initial_state reqs).1 = [201; 400; 400; 201; 400] ∧
  Forall (λ resp, status resp ∈ [200; 201; 204; 400; 404; 422])
         (run Some initial_state reqs).1.
Proof.
  intros reqs. split; [reflexivity|].
  apply Forall_forall. intros resp Hin.
  by apply (no_internal_error Some reqs resp).
Defined.

(** ** Bounds of the validation layer *)

Lemma query_errors_nil page page_size :
  query_errors page page_size = [] ↔ 1 ≤ page ∧ 1 ≤ page_size ≤ 100.
Proof.
  unfold query_errors. rewrite app_nil, !at_loc_nil.
  destruct (Z.ltb_spec page 1), (Z.ltb_spec page_size 1),
           (Z.ltb_spec 100 page_size); split; intros; try lia;
    by (done || destruct_and!).
Qed.

Lemma endpoint_not_422 validate_email now req s :
  status (match (endpoint validate_email now req s).1 with
          | Ok resp => resp
          | Raise exc => handle_exception exc
          end) ≠ 422.
Proof.
  pose proof (endpoint_Ok_status validate_email now req s) as HO.
  pose proof (endpoint_Raise validate_email now req s) as HR.
  destruct (endpoint _ _ _ _).1 as [resp|exc].
  - destruct (HO resp eq_refl) as [-> | [-> | ->]]; done.
  - specialize (HR exc eq_refl).
    destruct exc as [errs|code detail|title errs|key]; simpl in *; try done.
    by destruct HR as [-> | ->].
Qed.

(** X13. A listing is answered 422 exactly when the page number is below 1
    or the page size is outside [1, 100], whatever the store holds; for
    items and for users. *)
Theorem listing_rejected_iff_out_of_bounds
    validate_email now page page_size available_only s :
  (status (app validate_email now
             (GET_items page page_size available_only) s).1 = 422
     ↔ page < 1 ∨ page_size < 1 ∨ 100 < page_size) ∧
  (status (app validate_email now (GET_users page page_size) s).1 = 422
     ↔ page < 1 ∨ page_size < 1 ∨ 100 < page_size).
Proof.
  pose proof (query_errors_nil page page_size) as Hq.
  unfold app, validate_request, checked.
  destruct (query_errors page page_size) as [|e errs].
  - assert (1 ≤ page ∧ 1 ≤ page_size ≤ 100) as Hb by by apply Hq.
    split; (split; [|lia]); intros H; exfalso; revert H.
    + pose proof (endpoint_not_422 validate_email now
                    (GET_items page page_size available_only) s) as Hn.
      by destruct (endpoint _ _ _ _).
    + pose proof (endpoint_not_422 validate_email now
                    (GET_users page page_size) s) as Hn.
      by destruct (endpoint _ _ _ _).
  - assert (¬ (1 ≤ page ∧ 1 ≤ page_size ≤ 100)) as Hb.
    { intros H. by apply Hq in H. }
    split; (split; [intros _; lia | by intros _]).
Qed.

Lemma check_length_between a b s :
  check_length (Some a) (Some b) s = None ↔ a ≤ len s ≤ b.
Proof.
  unfold check_length.
  destruct (Z.ltb_spec (len s) a), (Z.ltb_spec b (len s));
    split; intros; try done; lia.
Qed.

Lemma check_length_at_most b s :
  check_length None (Some b) s = None ↔ len s ≤ b.
Proof.
  unfold check_length. destruct (Z.ltb_spec b (len s));
    split; intros; try done; lia.
Qed.

(** X14. A create of an item is answered 201 exactly when the name has 1
    to 100 characters, the description (if there is one) at most 500, and
    the price is greater than zero; otherwise it is answered 422.  It has
    no other answer, in any state. *)
Theorem create_item_accepted_iff validate_email now item s :
  let r := app validate_email now (POST_items item) s in
  (status (r.1) = 201 ↔
     1 ≤ len (ItemCreate.name item) ≤ 100 ∧
     (∀ d, ItemCreate.description item = Some d → len d ≤ 500) ∧
     SFltb (S754_zero false) (ItemCreate.price item) = true) ∧
  (status (r.1) = 201 ∨ status (r.1) = 422).
Proof.
  cbn zeta.
  assert (ItemCreate.errors item = [] ↔
          1 ≤ len (ItemCreate.name item) ≤ 100 ∧
          (∀ d, ItemCreate.description item = Some d → len d ≤ 500) ∧
          SFltb (S754_zero false) (ItemCreate.price item) = true) as Hiff.
  { rewrite ItemCreate_errors_nil, check_length_between, check_gt0_None.
    destruct (ItemCreate.description item) as [d|]; simpl.
    - rewrite check_length_at_most. split.
      + intros (? & ? & ?). split; [done|]. split; [|done]. by intros ? [= <-].
      + intros (? & Hd & ?). split; [done|]. split; [by apply Hd | done].
    - split; intros (? & _ & ?); (split; [done|]); (split; [done|done]). }
  unfold app, validate_request, checked.
  destruct (ItemCreate.errors item) as [|e errs] eqn:Hv.
  - cbn [endpoint]. rewrite (create_item_valid now item s Hv). simpl.
    split; [|by left]. split; [intros _; by apply Hiff | done].
  - simpl. split; [|by right]. split; [done|].
    intros H. by apply Hiff in H.
Qed.

(** ** Listing users *)

(** X15. On a store of user records whose response model is the record
    itself, and for a page number and a page size within their bounds, the
    listing of users is answered 200 with the slice
    [(page-1)*page_size, (page-1)*page_size + page_size) of the records in
    insertion order and with the size of the store as total, and the state
    is left as it was; the pages up to the last one concatenate to all the
    records. *)
Theorem users_listing_page validate_email now page page_size s :
  Forall (λ d, UserResponse validate_email d = Ok d)
         (PyDict.values (users_db s)) →
  1 ≤ page → 1 ≤ page_size ≤ 100 →
  let all_users := PyDict.values (users_db s) in
  let total := Z.of_nat (length all_users) in
  app validate_email now (GET_users page page_size) s =
    ({| status := 200;
        body := JUserList
          (UserList.mk (page_of page_size all_users page) total page page_size) |},
     s) ∧
  concat (page_of page_size all_users
            <$> seqZ 1 ((total + page_size - 1) / page_size)) = all_users.
Proof.
  intros Hall Hp Hk all_users total. split.
  - unfold app, validate_request, checked.
    rewrite query_errors_valid by done. cbn [endpoint]. unfold get_users.
    rewrite py_slice_window by nia.
    fold all_users. fold (page_of page_size all_users page).
    rewrite (Forall_mapM_Ok (UserResponse validate_email) id).
    + by rewrite list_fmap_id.
    + unfold page_of. by apply Forall_take, Forall_drop.
  - pose proof (ceil_div_bound total page_size) as [Hceil Hpos]; [lia..|].
    rewrite <- (Z2Nat.id _ Hpos). apply concat_pages; [lia|].
    rewrite Z2Nat.id by done. exact Hceil.
Qed.

Lemma users_listing_page_witness :
  let other := UserCreate.mk "other@example.com" "otheruser" (Some "Other")
                             "password456" in
  let s := (run Some initial_state
              [(10, POST_users sample_user); (11, POST_users other)]).2 in
  Forall (λ d, UserResponse Some d = Ok d) (PyDict.values (users_db s)) ∧
  (app Some 12 (GET_users 2 1) s).1 =
    {| status := 200;
       body := JUserList (UserList.mk [expected_user 2 11 other] 2 2 1) |}.
Proof.
  intros other s.
  assert (Forall (λ d, UserResponse Some d = Ok d) (PyDict.values (users_db s)))
    as Hall by (repeat constructor).
  split; [exact Hall|].
  destruct (users_listing_page Some 12 2 1 s Hall) as [-> _]; [lia..|].
  reflexivity.
Defined.

Lemma listing_rejected_iff_out_of_bounds_witness :
  status (app Some 10 (GET_items 0 10 false) initial_state).1 = 422 ∧
  status (app Some 10 (GET_users 1 101) initial_state).1 = 422 ∧
  status (app Some 10 (GET_items 1 100 true) initial_state).1 ≠ 422.
Proof.
  destruct (listing_rejected_iff_out_of_bounds Some 10 0 10 false initial_state)
    as [[_ H1] _].
  destruct (listing_rejected_iff_out_of_bounds Some 10 1 101 false initial_state)
    as [_ [_ H2]].
  destruct (listing_rejected_iff_out_of_bounds Some 10 1 100 true initial_state)
    as [[H3 _] _].
  split; [apply H1; lia|]. split; [apply H2; lia|].
  intros H. apply H3 in H. lia.
Defined.

Lemma create_item_accepted_iff_witness :
  status (app Some 10 (POST_items sample_item) initial_state).1 = 201 ∧
  status (app Some 10 (POST_items
            (ItemCreate.mk "Test Item" None (S754_zero false) true))
            initial_state).1 = 422.
Proof.
  destruct (create_item_accepted_iff Some 10 sample_item initial_state)
    as [[_ H1] _].
  destruct (create_item_accepted_iff Some 10
              (ItemCreate.mk "Test Item" None (S754_zero false) true)
              initial_state) as [[H2 _] [H3|H3]].
  - split; [apply H1; by repeat split|]. apply H2 in H3. by destruct H3 as (_ & _ & ?).
  - split; [apply H1; by repeat split | exact H3].
Defined.

Lemma check_set_cases {A} (chk : A → option error_type) (bad : A → Prop) f :
  (∀ v, chk v = None → ¬ bad v) → (∀ v e, chk v = Some e → bad v) →
  (check_set chk f = None ∧ ¬ (∃ v, f = Some (Some v) ∧ bad v)) ∨
  ((∃ e, check_set chk f = Some e) ∧ ∃ v, f = Some (Some v) ∧ bad v).
Proof.
  intros H1 H2. destruct f as [[v|]|]; simpl.
  - destruct (chk v) as [e|] eqn:E.
    + right. split; [by eexists|]. exists v. split; [done | by eapply H2].
    + left. split; [done|]. intros (v' & [= <-] & Hbad). by eapply H1.
  - left. split; [done|]. by intros (v & ? & _).
  - left. split; [done|]. by intros (v & ? & _).
Qed.

(** X16. The payload of an update is validated before the identifier is
    looked up: an update of an item is answered 422 exactly when a value it
    carries breaks its constraint (a name outside 1 to 100 characters, a
    description over 500, a price that is not greater than zero), whether or
    not the identifier has a record, and then nothing is changed.  An
    explicit null breaks no constraint. *)
Theorem update_item_rejected_iff validate_email now item_id u s :
  let r := app validate_email now (PUT_item item_id u) s in
  (status (r.1) = 422 ↔
     (∃ n, ItemUpdate.name u = Some (Some n) ∧ ¬ 1 ≤ len n ≤ 100) ∨
     (∃ d, ItemUpdate.description u = Some (Some d) ∧ 500 < len d) ∨
     (∃ p, ItemUpdate.price u = Some (Some p) ∧
           SFltb (S754_zero false) p = false)) ∧
  (status (r.1) = 422 → r.2 = s).
Proof.
  cbn zeta.
  pose proof (check_set_cases (check_length (Some 1) (Some 100))
                (λ n, ¬ 1 ≤ len n ≤ 100) (ItemUpdate.name u)) as Hn.
  pose proof (check_set_cases (check_length None (Some 500))
                (λ d, 500 < len d) (ItemUpdate.description u)) as Hd.
  pose proof (check_set_cases check_gt0
                (λ p, SFltb (S754_zero false) p = false) (ItemUpdate.price u))
    as Hp.
  destruct Hn as [[Hn Hn'] | [[en Hn] Hn']].
  { intros v Hv Hbad. by apply Hbad, check_length_between. }
  { intros v e Hv Hb. apply check_length_between in Hb. congruence. }
  all: destruct Hd as [[Hd Hd'] | [[ed Hd] Hd']];
    [intros v Hv%check_length_at_most; lia
    | intros v e Hv;
      destruct (Z.le_gt_cases (len v) 500) as [Hle%check_length_at_most|];
      [congruence | lia] | ..].
  all: destruct Hp as [[Hp Hp'] | [[ep Hp] Hp']];
    [intros v Hv%check_gt0_None; congruence
    | intros v e Hv; unfold check_gt0 in Hv;
      by destruct (SFltb (S754_zero false) v) | ..].
  all: unfold app, validate_request, checked, ItemUpdate.errors;
    rewrite Hn, Hd, Hp; cbn [at_loc Datatypes.app].
  1: { pose proof (endpoint_not_422 validate_email now (PUT_item item_id u) s)
         as Hne.
       destruct (endpoint _ _ _ _) as [r s']. cbn [fst snd] in *.
       split; [|done]. split; [done|]. by intros [?|[?|?]]. }
  all: cbn [fst snd]; (split; [|done]); (split; [intros _|done]); auto.
Qed.

Lemma update_item_rejected_iff_witness :
  let s := (app Some 10 (POST_items sample_item) initial_state).2 in
  let u := ItemUpdate.mk None None (Some (Some (S754_zero false))) None in
  status (app Some 11 (PUT_item 1 u) s).1 = 422 ∧
  status (app Some 11 (PUT_item 999 u) s).1 = 422 ∧
  (app Some 11 (PUT_item 1 u) s).2 = s ∧
  status (app Some 11 (PUT_item 1 null_price) s).1 ≠ 422.
Proof.
  intros s u.
  destruct (update_item_rejected_iff Some 11 1 u s) as [[_ H1] H1'].
  destruct (update_item_rejected_iff Some 11 999 u s) as [[_ H2] _].
  destruct (update_item_rejected_iff Some 11 1 null_price s) as [[H3 _] _].
  assert (status (app Some 11 (PUT_item 1 u) s).1 = 422) as Hst.
  { apply H1. right; right. by eexists. }
  split; [exact Hst|]. split.
  { apply H2. right; right. by eexists. }
  split; [by apply H1'|].
  intros H. apply H3 in H.
  by destruct H as [(? & ? & _) | [(? & ? & _) | (? & ? & _)]].
Defined.

(** X17. A create of a user is answered 422 exactly when the address is
    refused by the email check, the username is outside 3 to 50 characters
    or the password outside 8 to 100; this is decided before the scan for
    duplicates, so a payload that is refused is answered 422 even when its
    username is taken, and nothing is changed. *)
Theorem create_user_rejected_iff validate_email now user s :
  let r := app validate_email now (POST_users user) s in
  (status (r.1) = 422 ↔
     validate_email (UserCreate.email user) = None ∨
     ¬ 3 ≤ len (UserCreate.username user) ≤ 50 ∨
     ¬ 8 ≤ len (UserCreate.password user) ≤ 100) ∧
  (status (r.1) = 422 → r.2 = s).
Proof.
  cbn zeta.
  assert (UserCreate_errors validate_email user = [] ↔
          ¬ (validate_email (UserCreate.email user) = None ∨
             ¬ 3 ≤ len (UserCreate.username user) ≤ 50 ∨
             ¬ 8 ≤ len (UserCreate.password user) ≤ 100)) as Hiff.
  { rewrite UserCreate_errors_nil, !check_length_between. unfold check_email.
    destruct (validate_email (UserCreate.email user)); split.
    - intros (_ & ? & ?) [?|[?|?]]; done.
    - intros H. split; [done|]. split.
      + destruct (decide (3 ≤ len (UserCreate.username user) ≤ 50)); [done|].
        destruct H; auto.
      + destruct (decide (8 ≤ len (UserCreate.password user) ≤ 100)); [done|].
        destruct H; auto.
    - by intros (? & _).
    - intros H. destruct H. by left. }
  unfold app, validate_request, checked.
  destruct (UserCreate_errors validate_email user) as [|e errs] eqn:Hv.
  - pose proof (endpoint_not_422 validate_email now
                  (POST_users (UserCreate_normal validate_email user)) s) as Hn.
    destruct (endpoint _ _ _ _) as [r s']. cbn [fst snd] in *.
    split; [|done]. split; [done|]. intros H.
    by apply (proj1 Hiff eq_refl) in H.
  - cbn [fst snd]. split; [|done]. split; [intros _|done].
    destruct (validate_email (UserCreate.email user)) eqn:He; [|by left].
    destruct (decide (3 ≤ len (UserCreate.username user) ≤ 50)) as [Hu|Hu];
      [|right; by left].
    destruct (decide (8 ≤ len (UserCreate.password user) ≤ 100)) as [Hp|Hp];
      [|right; by right].
    exfalso. assert (e :: errs = []) as Habs; [|done].
    apply Hiff. intros [?|[?|?]]; done.
Qed.

Lemma create_user_rejected_iff_witness :
  let s := (app Some 10 (POST_users sample_user) initial_state).2 in
  let short := UserCreate.mk "test@example.com" "testuser" None "short" in
  status (app Some 11 (POST_users short) s).1 = 422 ∧
  (app Some 11 (POST_users short) s).2 = s ∧
  status (app Some 11 (POST_users sample_user) s).1 ≠ 422.
Proof.
  intros s short.
  destruct (create_user_rejected_iff Some 11 short s) as [[_ H1] H1'].
  destruct (create_user_rejected_iff Some 11 sample_user s) as [[H2 _] _].
  assert (status (app Some 11 (POST_users short) s).1 = 422) as Hst.
  { apply H1. right; right. vm_compute. by intros [? ?]. }
  split; [exact Hst|]. split; [by apply H1'|].
  intros H. apply H2 in H. destruct H as [H|[H|H]]; [done| |].
  - apply H. by vm_compute.
  - apply H. by vm_compute.
Defined.

(** ** Deleting a user and creating again *)

Lemma check_duplicates_username_free user l code :
  (∀ d, d ∈ l → d !! "username" ≠ Some (PStr (UserCreate.username user))) →
  check_duplicates user l ≠ Raise (HTTPException code "Username already exists").
Proof.
  induction l as [|d l IH]; intros Hfree; [done|].
  cbn [check_duplicates]. unfold getitem.
  pose proof (Hfree d (list_elem_of_here _ _)) as Hd.
  destruct (d !! "username") as [v|]; [|done]. cbn [mbind result_bind].
  destruct (py_eq_str v (UserCreate.username user)) eqn:Hv.
  { destruct v; try done. apply String.eqb_eq in Hv. by subst. }
  destruct (d !! "email") as [e|]; [|done]. cbn [mbind result_bind].
  destruct (py_eq_str e (UserCreate.email user)); [done|].
  apply IH. intros d' Hin. apply Hfree. by apply list_elem_of_further.
Qed.

Lemma delitem_frees {B} (f : dict → B) (db : list (Z * dict)) k d :
  NoDup (f <$> PyDict.values db) → PyDict.get k db = Some d →
  f d ∉ f <$> PyDict.values (PyDict.delitem k db).
Proof.
  unfold PyDict.values. induction db as [|[k' v'] db IH]; [done|].
  cbn [PyDict.get PyDict.delitem fmap list_fmap snd].
  intros [Hnin Hnd]%NoDup_cons.
  destruct (Z.eqb_spec k' k) as [->|Hne].
  - by intros [= ->].
  - intros Hget. cbn [fmap list_fmap snd]. apply not_elem_of_cons. split.
    + intros Heq. apply Hnin. rewrite <- Heq.
      apply list_elem_of_fmap_2. by apply (get_Some_value db k).
    + by apply IH.
Qed.

(** X18. Deleting a user frees its username: in every state reached from
    the initial one, after the delete of a user no create that asks for the
    username of that user is answered "Username already exists", whatever
    else the payload holds. *)
Theorem delete_user_frees_username
    validate_email reqs now now' user_id d user :
  let s := (run validate_email initial_state reqs).2 in
  let s' := (app validate_email now (DELETE_user user_id) s).2 in
  PyDict.get user_id (users_db s) = Some d →
  d !! "username" = Some (PStr (UserCreate.username user)) →
  body (app validate_email now' (POST_users user) s').1
    ≠ JDetail (Text "Username already exists").
Proof.
  intros s s' Hget Hname.
  destruct (run_state_inv validate_email initial_state reqs initial_state_inv)
    as (_ & _ & _ & _ & _ & Hnd). fold s in Hnd.
  assert (users_db s' = PyDict.delitem user_id (users_db s)) as Hdb.
  { unfold s'. by rewrite (app_DELETE_user_found _ _ _ d). }
  pose proof (delitem_frees (λ d : dict, d !! "username") _ _ _ Hnd Hget)
    as Hfree.
  rewrite <- Hdb, Hname in Hfree.
  unfold app, validate_request, checked.
  destruct (UserCreate_errors validate_email user); [|done].
  cbn [endpoint]. unfold create_user.
  destruct (check_duplicates _ _) as [[]|e] eqn:Hc.
  - cbn [fst snd with_status].
    destruct (UserResponse validate_email _) as [r|exc] eqn:HR; [done|].
    apply model_validate_Raise in HR as (errs & ->). done.
  - cbn [fst snd with_status mbind result_bind].
    destruct e as [errs|code detail|title errs|key]; try done.
    cbn [handle_exception body]. intros [= ->].
    revert Hc. apply check_duplicates_username_free.
    intros d' Hin Hd'. apply Hfree. cbn [UserCreate_normal UserCreate.username] in Hd'.
    rewrite <- Hd'. by apply list_elem_of_fmap_2.
Qed.

Lemma delete_user_frees_username_witness :
  let s := (run Some initial_state [(10, POST_users sample_user)]).2 in
  let s' := (app Some 11 (DELETE_user 1) s).2 in
  body (app Some 12 (POST_users sample_user) s).1
    = JDetail (Text "Username already exists") ∧
  body (app Some 12 (POST_users sample_user) s').1
    ≠ JDetail (Text "Username already exists").
Proof.
  intros s s'. split; [reflexivity|].
  apply (delete_user_frees_username Some [(10, POST_users sample_user)] 11 12 1
           (expected_user 1 10 sample_user) sample_user); reflexivity.
Defined.

(** ** Creating a user and reading it back *)

Lemma check_duplicates_not_created user l e :
  check_duplicates user l = Raise e → status (handle_exception e) ≠ 201.
Proof.
  induction l as [|d l IH]; [done|].
  cbn [check_duplicates]. unfold getitem.
  destruct (d !! "username") as [v|]; [|by intros [= <-]].
  cbn [mbind result_bind].
  destruct (py_eq_str v _); [by intros [= <-]|].
  destruct (d !! "email") as [v'|]; [|by intros [= <-]].
  cbn [mbind result_bind].
  by destruct (py_eq_str v' _); [intros [= <-]|].
Qed.

(** X19. Whenever a create of a user is answered 201, the counter has
    advanced by one, the record that is stored under the old counter holds
    the fields of the payload (the address in normal form) and no password,
    and a get of that identifier is answered 200 with the body the create
    returned. *)
Theorem create_user_then_get validate_email now now' user s :
  let r := app validate_email now (POST_users user) s in
  let c := user_id_counter s in
  status (r.1) = 201 →
  user_id_counter (r.2) = c + 1 ∧
  PyDict.get c (users_db (r.2))
    = Some (expected_user c now (UserCreate_normal validate_email user)) ∧
  (app validate_email now' (GET_user c) (r.2)).1
    = {| status := 200; body := body (r.1) |}.
Proof.
  cbn zeta. unfold app, validate_request, checked.
  destruct (UserCreate_errors validate_email user); [|done].
  cbn [endpoint]. unfold create_user.
  destruct (check_duplicates _ _) as [[]|e] eqn:Hc.
  2: { cbn [fst snd with_status mbind result_bind]. intros Hst.
       by apply check_duplicates_not_created in Hc. }
  change (mkdict _)
    with (expected_user (user_id_counter s) now
            (UserCreate_normal validate_email user)).
  cbn [fst snd with_status]. unfold get_user.
  cbn [users_db user_id_counter set_users]. rewrite get_setitem_eq.
  destruct (UserResponse validate_email _) as [r|exc] eqn:HR.
  - cbn [mbind result_bind status body]. done.
  - apply model_validate_Raise in HR as (errs & ->). done.
Qed.

Lemma create_user_then_get_witness :
  let r := app Some 10 (POST_users sample_user) initial_state in
  status (r.1) = 201 ∧
  (app Some 11 (GET_user 1) (r.2)).1
    = {| status := 200; body := JRecord (expected_user 1 10 sample_user) |}.
Proof.
  intros r.
  destruct (create_user_then_get Some 10 11 sample_user initial_state eq_refl)
    as (_ & _ & Hget).
  split; [reflexivity | exact Hget].
Defined.

(** X20. An update of a user is answered 422 exactly when it carries an
    address that the email check refuses or a password outside 8 to 100
    characters, whether or not the identifier has a record, and then nothing
    is changed; [full_name] has no constraint and an explicit null breaks
    none. *)
Theorem update_user_rejected_iff validate_email now user_id u s :
  let r := app validate_email now (PUT_user user_id u) s in
  (status (r.1) = 422 ↔
     (∃ e, UserUpdate.email u = Some (Some e) ∧ validate_email e = None) ∨
     (∃ p, UserUpdate.password u = Some (Some p) ∧ ¬ 8 ≤ len p ≤ 100)) ∧
  (status (r.1) = 422 → r.2 = s).
Proof.
  cbn zeta.
  pose proof (check_set_cases (check_email validate_email)
                (λ e, validate_email e = None) (UserUpdate.email u)) as He.
  pose proof (check_set_cases (check_length (Some 8) (Some 100))
                (λ p, ¬ 8 ≤ len p ≤ 100) (UserUpdate.password u)) as Hp.
  destruct He as [[He He'] | [[ee He] He']].
  { intros v Hv Hbad. unfold check_email in Hv. by rewrite Hbad in Hv. }
  { intros v e Hv. unfold check_email in Hv.
    by destruct (validate_email v). }
  all: destruct Hp as [[Hp Hp'] | [[ep Hp] Hp']];
    [intros v Hv Hbad; by apply Hbad, check_length_between
    | intros v e Hv Hb; apply check_length_between in Hb; congruence | ..].
  all: unfold app, validate_request, checked, UserUpdate_errors;
    rewrite He, Hp; cbn [at_loc Datatypes.app].
  1: { pose proof (endpoint_not_422 validate_email now
                     (PUT_user user_id (UserUpdate_normal validate_email u)) s)
         as Hne.
       destruct (endpoint _ _ _ _) as [r s']. cbn [fst snd] in *.
       split; [|done]. split; [done|]. by intros [?|?]. }
  all: cbn [fst snd]; (split; [|done]); (split; [intros _|done]); auto.
Qed.

Lemma update_user_rejected_iff_witness :
  let s := (app Some 10 (POST_users sample_user) initial_state).2 in
  let u := UserUpdate.mk None None (Some (Some "short")) in
  status (app Some 11 (PUT_user 1 u) s).1 = 422 ∧
  status (app Some 11 (PUT_user 999 u) s).1 = 422 ∧
  (app Some 11 (PUT_user 1 u) s).2 = s ∧
  status (app Some 11 (PUT_user 1 null_email) s).1 ≠ 422.
Proof.
  intros s u.
  destruct (update_user_rejected_iff Some 11 1 u s) as [[_ H1] H1'].
  destruct (update_user_rejected_iff Some 11 999 u s) as [[_ H2] _].
  destruct (update_user_rejected_iff Some 11 1 null_email s) as [[H3 _] _].
  assert (status (app Some 11 (PUT_user 1 u) s).1 = 422) as Hst.
  { apply H1. right. eexists. split; [done|]. vm_compute. by intros [? ?]. }
  split; [exact Hst|]. split.
  { apply H2. right. eexists. split; [done|]. vm_compute. by intros [? ?]. }
  split; [by apply H1'|].
  intros H. apply H3 in H.
  by destruct H as [(? & ? & _) | (? & ? & _)].
Defined.
